(** * A shallow embedding of [game.c], the balance-board arcade game

    The C program is a single translation unit: a set of global variables, a
    handful of helper procedures and one frame loop in [main].  This file
    transcribes the input-driven part of it (sensor read, motion smoothing,
    session state machine, the three mode engines and the win handling) as
    Rocq functions over an explicit record of the globals, and proves
    properties of that transcription.

    Conventions.
    - C [float] is IEEE-754 binary32 and C [double] is binary64, both with
      round-to-nearest-even and no excess precision ([FLT_EVAL_METHOD = 0]);
      they are modelled bit-exactly with the parametric operations of
      [SpecFloat] at precisions (24,128) and (53,1024).
    - C [int] is a [Z].  The two counters that are kept across rounds or
      come from a file, [total_wins] and [dodge_score], are incremented with
      the two's-complement wrap-around of the compiled program ([int32]); C
      itself gives signed overflow no defined result.  [Uint32] tick counts
      are [Z] taken modulo [2^32].
    - The files of a profile are named through [available_players], which
      has [num_players] entries; a write for any other player index reads
      beyond that array, and the trace records that instead of a write.
    - Everything the program obtains from outside (the C library's [rand] and
      [hypot], the SDL clock and rectangle test, the device, the score files)
      is a field of the environment record [Env]; what it sends outside
      (sound cues, file writes, closing the device) is appended to a trace.
    - Rendering and background music have no influence on the game
      variables and are left out. *)

From Stdlib Require Import ZArith NArith Bool Lia.
From Stdlib Require Import Floats.SpecFloat.
From stdpp Require Import base list.

Open Scope Z_scope.

(** ** Floating point *)

Definition f32 := spec_float.
Definition f64 := spec_float.

Module F32.
Definition prec : Z := 24.
Definition emax : Z := 128.
Definition of_Z (z : Z) : f32 := binary_normalize prec emax z 0 false.
Definition zero : f32 := S754_zero false.
Definition add : f32 -> f32 -> f32 := SFadd prec emax.
Definition sub : f32 -> f32 -> f32 := SFsub prec emax.
Definition mul : f32 -> f32 -> f32 := SFmul prec emax.
Definition div : f32 -> f32 -> f32 := SFdiv prec emax.
Definition abs : f32 -> f32 := SFabs.
Definition opp : f32 -> f32 := SFopp.
Definition ltb : f32 -> f32 -> bool := SFltb.
Definition leb : f32 -> f32 -> bool := SFleb.
Definition eqb : f32 -> f32 -> bool := SFeqb.
(** [(int)x]: truncation toward zero (no defined result for NaN or an
    infinity; the model yields 0 there). *)
Definition to_int (x : f32) : Z :=
  match x with
  | S754_finite s m e => cond_Zopp s (Z.shiftl (Zpos m) e)
  | _ => 0
  end.
(** [fmax] of two floats (the promotion to double and back is exact). *)
Definition fmax (a b : f32) : f32 :=
  match a, b with
  | S754_nan, _ => b
  | _, S754_nan => a
  | _, _ => if SFltb a b then b else a
  end.
Definition is_finite (x : f32) : bool :=
  match x with
  | S754_zero _ | S754_finite _ _ _ => true
  | _ => false
  end.
Definition is_zero (x : f32) : bool :=
  match x with
  | S754_zero _ => true
  | _ => false
  end.
End F32.

Module F64.
Definition prec : Z := 53.
Definition emax : Z := 1024.
Definition of_Z (z : Z) : f64 := binary_normalize prec emax z 0 false.
Definition add : f64 -> f64 -> f64 := SFadd prec emax.
Definition mul : f64 -> f64 -> f64 := SFmul prec emax.
Definition div : f64 -> f64 -> f64 := SFdiv prec emax.
Definition opp : f64 -> f64 := SFopp.
Definition ltb : f64 -> f64 -> bool := SFltb.
Definition leb : f64 -> f64 -> bool := SFleb.
(** Implicit promotion [float -> double]: exact, only the mantissa is
    re-aligned to 53 bits. *)
Definition of_f32 (x : f32) : f64 := SFldexp prec emax x 0.
(** Assignment of a [double] to a [float]: rounds to nearest even. *)
Definition to_f32 (x : f64) : f32 := SFldexp F32.prec F32.emax x 0.
(** [(int)x] for a double. *)
Definition to_int (x : f64) : Z := F32.to_int x.
End F64.

Declare Scope f32_scope.
Delimit Scope f32_scope with f32.
Infix "+" := F32.add : f32_scope.
Infix "-" := F32.sub : f32_scope.
Infix "*" := F32.mul : f32_scope.
Infix "/" := F32.div : f32_scope.
Infix "<?" := F32.ltb : f32_scope.
Infix "<=?" := F32.leb : f32_scope.
Infix "=?" := F32.eqb : f32_scope.
Notation "x >? y" := (F32.ltb y x) : f32_scope.
Notation "x >=? y" := (F32.leb y x) : f32_scope.
Notation "# z" := (F32.of_Z z) (at level 1, format "# z") : f32_scope.

Declare Scope f64_scope.
Delimit Scope f64_scope with f64.
Infix "+" := F64.add : f64_scope.
Infix "*" := F64.mul : f64_scope.
Infix "/" := F64.div : f64_scope.
Infix "<?" := F64.ltb : f64_scope.
Notation "x >? y" := (F64.ltb y x) : f64_scope.
Notation "x >=? y" := (F64.leb y x) : f64_scope.

(** Unsigned 32-bit wrap-around for [Uint32] arithmetic. *)
Definition u32 (z : Z) : Z := z mod 2 ^ 32.

(** The range of a C [int], and the wrap-around of an [int] result. *)
Definition INT_MAX : Z := 2 ^ 31 - 1.
Definition INT_MIN : Z := - 2 ^ 31.
Definition int32 (z : Z) : Z := (z + 2 ^ 31) mod 2 ^ 32 - 2 ^ 31.

(** ** Game configuration (the [#define]s)

    A constant written without the [f] suffix is a [double] in C; it keeps
    that type here, and the [float] it meets is promoted as C does. *)

Definition WINDOW_WIDTH : Z := 1920.
Definition WINDOW_HEIGHT : Z := 1080.
Definition GAME_OBJECT_SIZE : Z := 150.
Definition COB_SCALE_GENERAL : f64 := (F64.of_Z 15 / F64.of_Z 100000)%f64.
Definition COB_SCALE_DODGE : f64 := (F64.of_Z 25 / F64.of_Z 100000)%f64.
Definition DEAD_ZONE : f64 := F64.of_Z 400.
Definition TRAIL_LENGTH : Z := 60.
Definition WIN_ANIMATION_DURATION : Z := 2500.
Definition POLL_TIMEOUT_THRESHOLD : Z := 100.

Definition MAX_DODGE_BLOCKS : Z := 10.
Definition BLOCK_WIDTH : Z := 50.
Definition BLOCK_HEIGHT : Z := 100.
Definition BLOCK_INITIAL_SPEED : f32 := F32.of_Z 300.
Definition BLOCK_SPEED_INCREMENT : f32 := F32.of_Z 50.
Definition BLOCK_SPAWN_INTERVAL : f32 := F32.of_Z 2.
Definition MENU_SELECT_TIME_REQUIRED : f64 := (F64.of_Z 3 / F64.of_Z 2)%f64.
Definition TRANSITION_DURATION : f64 := (F64.of_Z 3 / F64.of_Z 2)%f64.
Definition MIN_TOTAL_WEIGHT : f32 := F32.of_Z 2000.
Definition INACTIVITY_TIMEOUT_SECONDS : Z := 15.

Definition BH_HOLD_TIME_REQUIRED : f64 := (F64.of_Z 3 / F64.of_Z 2)%f64.
Definition BH_GRACE_ZONE_RADIUS : Z := 200.
Definition BH_HOLD_RADIUS : Z := 100.
Definition BH_TARGET_MOVEMENT_SPEED_EASY : f32 := F32.of_Z 0.
Definition BH_TARGET_MOVEMENT_SPEED_MEDIUM : f32 := F32.of_Z 25.
Definition BH_TARGET_MOVEMENT_SPEED_HARD : f32 := F32.of_Z 50.

Definition COIN_SAFE_MARGIN : Z := 300.
Definition STARTING_COIN_SIZE : Z := 150.
Definition CC_COIN_TIMER : f32 := F32.of_Z 10.
Definition COIN_SPAWN_MIN_DIST_PLAYER : Z := 250.

Definition SPRING_CONSTANT : f32 := F32.of_Z 10.
Definition DAMPING_FACTOR : f32 := F32.of_Z 5.

Definition NUM_CONFETTI : Z := 150.
Definition CONFETTI_LIFETIME : f32 := F32.of_Z 2.
Definition CONFETTI_GRAVITY : f32 := F32.of_Z 200.
Definition CONFETTI_SPREAD : f32 := F32.of_Z 300.

(** ** Types of the program *)

Inductive GameState :=
  | CONNECTING
  | TRANSITIONING
  | PLAYER_SELECTION
  | MAIN_MENU
  | DIFFICULTY_SELECTION
  | GAME_BALANCE_HOLD
  | GAME_COIN_COLLECTOR
  | GAME_DODGE
  | WINNING.

Inductive GameType := NO_GAME_SELECTED | BALANCE_HOLD | COIN_COLLECTOR | DODGE.

Inductive Difficulty := EASY | MEDIUM | HARD.

#[global] Instance GameState_eq_dec : EqDecision GameState.
Proof. solve_decision. Defined.
#[global] Instance GameType_eq_dec : EqDecision GameType.
Proof. solve_decision. Defined.
#[global] Instance Difficulty_eq_dec : EqDecision Difficulty.
Proof. solve_decision. Defined.

Record PlayerObject := {
  x : f32;
  y : f32;
  velocity_x : f32;
  velocity_y : f32
}.

Record TargetObject := {
  tx : f32;
  ty : f32;
  tvelocity_x : f32;
  tvelocity_y : f32
}.

Record ConfettiParticle := {
  cx : f32;
  cy : f32;
  cvx : f32;
  cvy : f32;
  lifetime : f32;
  color : Z   (* index into the three-colour palette of [init_confetti] *)
}.

Record Coin := {
  coin_x : f32;
  coin_y : f32;
  coin_active : bool
}.

Record DodgeBlock := {
  bx : f32;
  by_ : f32;
  speed : f32;
  active : bool
}.

Record SDL_Rect := { rx : Z; ry : Z; rw : Z; rh : Z }.

(** ** The outside world *)

(** One event handed out by [xwii_iface_dispatch]; for a balance-board event
    the four raw readings [event.v.abs[0..3].x]. *)
Inductive xwii_event :=
  | XWII_EVENT_BALANCE_BOARD (abs0 abs1 abs2 abs3 : Z)
  | XWII_EVENT_OTHER.

(** What one call of [read_wii_balance_board_data] meets at the device:
    [poll] failing, [poll] timing out, or the descriptor being readable with
    the events that [xwii_iface_dispatch] then yields before it runs dry. *)
Inductive PollOutcome :=
  | PollFailed
  | PollTimedOut
  | PollReady (events : list xwii_event).

(** The steps of [init_xwiimote_non_blocking] that can fail, in order. *)
Record ConnectAttempt := {
  board_found : bool;      (* a device path was obtained from the monitor *)
  iface_created : bool;    (* xwii_iface_new succeeded *)
  got_fd : Z;              (* result of xwii_iface_get_fd *)
  fcntl_ok : bool;
  open_ok : bool;
  watch_ok : bool
}.

Inductive Sound := coin_sound | win_sound | select_sound | target_sound | reset_sound.

Inductive Effect :=
  | Mix_PlayChannel (s : Sound)
  | Mix_HaltChannel
  | write_lowest_time (player_index : Z) (new_score : f32)
  | write_total_wins (player_index : Z) (wins : Z)
  | write_dodge_high_score (player_index : Z) (score : Z)
  | read_beyond_available_players (player_index : Z)
  | xwii_iface_close.

Record Env := {
  (** successive results of [rand()], each in [0, RAND_MAX] *)
  rand_seq : nat -> N;
  (** successive results of [SDL_GetTicks()] *)
  ticks_seq : nat -> Z;
  (** what successive device polls meet *)
  poll_seq : nat -> PollOutcome;
  (** what successive connection attempts meet *)
  connect_seq : nat -> ConnectAttempt;
  (** [hypot(a, b)] of the C library, as stored into a [float] *)
  hypot : f32 -> f32 -> f32;
  SDL_HasIntersection : SDL_Rect -> SDL_Rect -> bool;
  (** the number held by a profile's file, [None] when it cannot be read;
      profiles are named by [selected_player_index] *)
  score_file : Z -> option f32;
  wins_file : Z -> option Z;
  dodge_score_file : Z -> option Z;
  (** whether [target.wav] was loaded (the one cue the code guards) *)
  target_sound_loaded : bool
}.

(** ** The program state: the globals of [game.c] and the locals of [main]
    that live across frames, grouped as the source declares them. *)

Record Board := {
  iface : bool;
  fd : Z;
  poll_timeout_count : Z;
  current_total_weight : f32
}.

Record Shared := {
  confetti : list ConfettiParticle;
  lowest_time_to_win : f32;
  total_wins : Z;
  trail_points : list PlayerObject;
  trail_head : Z;
  coin_collector_coins : list Coin;
  coin_timer : f32
}.

Record DodgeVars := {
  dodge_blocks : list DodgeBlock;
  block_spawn_timer : f32;
  current_block_speed : f32;
  dodge_score : Z;
  dodge_high_score : Z;
  dynamic_block_spawn_interval : f32
}.

Record MenuVars := {
  menu_select_timer : f32;
  selected_game : GameType;
  current_difficulty : Difficulty;
  difficulty_selection : Z;
  selected_player_index : Z;
  player_selection_choice : Z
}.

Record GameVars := {
  current_game_target : Z;
  hold_timer : f32;
  coins : Z;
  game_start_time : Z;
  win_message_start_time : Z;
  beeps_played : Z;
  balance_hold_target : TargetObject
}.

Record TransVars := {
  transition_start_time : Z;
  shake_intensity : f32;
  connection_start_time : Z
}.

Record MainLocals := {
  state : GameState;
  player : PlayerObject;
  x_cob : f32;
  y_cob : f32;
  last_frame_time : Z;
  last_input_time : Z;
  pulse_timer : f32
}.

Record World := {
  rand_calls : nat;
  tick_calls : nat;
  poll_calls : nat;
  connect_calls : nat;
  trace : list Effect
}.

Record Game := {
  board : Board;
  shared : Shared;
  dodge : DodgeVars;
  menu : MenuVars;
  session : GameVars;
  trans : TransVars;
  locals : MainLocals;
  world : World
}.

Coercion board : Game >-> Board.
Coercion shared : Game >-> Shared.
Coercion dodge : Game >-> DodgeVars.
Coercion menu : Game >-> MenuVars.
Coercion session : Game >-> GameVars.
Coercion trans : Game >-> TransVars.
Coercion locals : Game >-> MainLocals.
Coercion world : Game >-> World.

Definition with_board (g : Game) (x : Board) : Game :=
  {| board := x; shared := shared g; dodge := dodge g; menu := menu g; session := session g; trans := trans g; locals := locals g; world := world g |}.
Definition with_shared (g : Game) (x : Shared) : Game :=
  {| board := board g; shared := x; dodge := dodge g; menu := menu g; session := session g; trans := trans g; locals := locals g; world := world g |}.
Definition with_dodge (g : Game) (x : DodgeVars) : Game :=
  {| board := board g; shared := shared g; dodge := x; menu := menu g; session := session g; trans := trans g; locals := locals g; world := world g |}.
Definition with_menu (g : Game) (x : MenuVars) : Game :=
  {| board := board g; shared := shared g; dodge := dodge g; menu := x; session := session g; trans := trans g; locals := locals g; world := world g |}.
Definition with_session (g : Game) (x : GameVars) : Game :=
  {| board := board g; shared := shared g; dodge := dodge g; menu := menu g; session := x; trans := trans g; locals := locals g; world := world g |}.
Definition with_trans (g : Game) (x : TransVars) : Game :=
  {| board := board g; shared := shared g; dodge := dodge g; menu := menu g; session := session g; trans := x; locals := locals g; world := world g |}.
Definition with_locals (g : Game) (x : MainLocals) : Game :=
  {| board := board g; shared := shared g; dodge := dodge g; menu := menu g; session := session g; trans := trans g; locals := x; world := world g |}.
Definition with_world (g : Game) (x : World) : Game :=
  {| board := board g; shared := shared g; dodge := dodge g; menu := menu g; session := session g; trans := trans g; locals := locals g; world := x |}.

Definition set_iface (v : bool) (g : Game) : Game :=
  with_board g {| iface := v; fd := fd g; poll_timeout_count := poll_timeout_count g; current_total_weight := current_total_weight g |}.
Definition set_fd (v : Z) (g : Game) : Game :=
  with_board g {| iface := iface g; fd := v; poll_timeout_count := poll_timeout_count g; current_total_weight := current_total_weight g |}.
Definition set_poll_timeout_count (v : Z) (g : Game) : Game :=
  with_board g {| iface := iface g; fd := fd g; poll_timeout_count := v; current_total_weight := current_total_weight g |}.
Definition set_current_total_weight (v : f32) (g : Game) : Game :=
  with_board g {| iface := iface g; fd := fd g; poll_timeout_count := poll_timeout_count g; current_total_weight := v |}.

Definition set_confetti (v : list ConfettiParticle) (g : Game) : Game :=
  with_shared g {| confetti := v; lowest_time_to_win := lowest_time_to_win g; total_wins := total_wins g; trail_points := trail_points g; trail_head := trail_head g; coin_collector_coins := coin_collector_coins g; coin_timer := coin_timer g |}.
Definition set_lowest_time_to_win (v : f32) (g : Game) : Game :=
  with_shared g {| confetti := confetti g; lowest_time_to_win := v; total_wins := total_wins g; trail_points := trail_points g; trail_head := trail_head g; coin_collector_coins := coin_collector_coins g; coin_timer := coin_timer g |}.
Definition set_total_wins (v : Z) (g : Game) : Game :=
  with_shared g {| confetti := confetti g; lowest_time_to_win := lowest_time_to_win g; total_wins := v; trail_points := trail_points g; trail_head := trail_head g; coin_collector_coins := coin_collector_coins g; coin_timer := coin_timer g |}.
Definition set_trail_points (v : list PlayerObject) (g : Game) : Game :=
  with_shared g {| confetti := confetti g; lowest_time_to_win := lowest_time_to_win g; total_wins := total_wins g; trail_points := v; trail_head := trail_head g; coin_collector_coins := coin_collector_coins g; coin_timer := coin_timer g |}.
Definition set_trail_head (v : Z) (g : Game) : Game :=
  with_shared g {| confetti := confetti g; lowest_time_to_win := lowest_time_to_win g; total_wins := total_wins g; trail_points := trail_points g; trail_head := v; coin_collector_coins := coin_collector_coins g; coin_timer := coin_timer g |}.
Definition set_coin_collector_coins (v : list Coin) (g : Game) : Game :=
  with_shared g {| confetti := confetti g; lowest_time_to_win := lowest_time_to_win g; total_wins := total_wins g; trail_points := trail_points g; trail_head := trail_head g; coin_collector_coins := v; coin_timer := coin_timer g |}.
Definition set_coin_timer (v : f32) (g : Game) : Game :=
  with_shared g {| confetti := confetti g; lowest_time_to_win := lowest_time_to_win g; total_wins := total_wins g; trail_points := trail_points g; trail_head := trail_head g; coin_collector_coins := coin_collector_coins g; coin_timer := v |}.

Definition set_dodge_blocks (v : list DodgeBlock) (g : Game) : Game :=
  with_dodge g {| dodge_blocks := v; block_spawn_timer := block_spawn_timer g; current_block_speed := current_block_speed g; dodge_score := dodge_score g; dodge_high_score := dodge_high_score g; dynamic_block_spawn_interval := dynamic_block_spawn_interval g |}.
Definition set_block_spawn_timer (v : f32) (g : Game) : Game :=
  with_dodge g {| dodge_blocks := dodge_blocks g; block_spawn_timer := v; current_block_speed := current_block_speed g; dodge_score := dodge_score g; dodge_high_score := dodge_high_score g; dynamic_block_spawn_interval := dynamic_block_spawn_interval g |}.
Definition set_current_block_speed (v : f32) (g : Game) : Game :=
  with_dodge g {| dodge_blocks := dodge_blocks g; block_spawn_timer := block_spawn_timer g; current_block_speed := v; dodge_score := dodge_score g; dodge_high_score := dodge_high_score g; dynamic_block_spawn_interval := dynamic_block_spawn_interval g |}.
Definition set_dodge_score (v : Z) (g : Game) : Game :=
  with_dodge g {| dodge_blocks := dodge_blocks g; block_spawn_timer := block_spawn_timer g; current_block_speed := current_block_speed g; dodge_score := v; dodge_high_score := dodge_high_score g; dynamic_block_spawn_interval := dynamic_block_spawn_interval g |}.
Definition set_dodge_high_score (v : Z) (g : Game) : Game :=
  with_dodge g {| dodge_blocks := dodge_blocks g; block_spawn_timer := block_spawn_timer g; current_block_speed := current_block_speed g; dodge_score := dodge_score g; dodge_high_score := v; dynamic_block_spawn_interval := dynamic_block_spawn_interval g |}.
Definition set_dynamic_block_spawn_interval (v : f32) (g : Game) : Game :=
  with_dodge g {| dodge_blocks := dodge_blocks g; block_spawn_timer := block_spawn_timer g; current_block_speed := current_block_speed g; dodge_score := dodge_score g; dodge_high_score := dodge_high_score g; dynamic_block_spawn_interval := v |}.

Definition set_menu_select_timer (v : f32) (g : Game) : Game :=
  with_menu g {| menu_select_timer := v; selected_game := selected_game g; current_difficulty := current_difficulty g; difficulty_selection := difficulty_selection g; selected_player_index := selected_player_index g; player_selection_choice := player_selection_choice g |}.
Definition set_selected_game (v : GameType) (g : Game) : Game :=
  with_menu g {| menu_select_timer := menu_select_timer g; selected_game := v; current_difficulty := current_difficulty g; difficulty_selection := difficulty_selection g; selected_player_index := selected_player_index g; player_selection_choice := player_selection_choice g |}.
Definition set_current_difficulty (v : Difficulty) (g : Game) : Game :=
  with_menu g {| menu_select_timer := menu_select_timer g; selected_game := selected_game g; current_difficulty := v; difficulty_selection := difficulty_selection g; selected_player_index := selected_player_index g; player_selection_choice := player_selection_choice g |}.
Definition set_difficulty_selection (v : Z) (g : Game) : Game :=
  with_menu g {| menu_select_timer := menu_select_timer g; selected_game := selected_game g; current_difficulty := current_difficulty g; difficulty_selection := v; selected_player_index := selected_player_index g; player_selection_choice := player_selection_choice g |}.
Definition set_selected_player_index (v : Z) (g : Game) : Game :=
  with_menu g {| menu_select_timer := menu_select_timer g; selected_game := selected_game g; current_difficulty := current_difficulty g; difficulty_selection := difficulty_selection g; selected_player_index := v; player_selection_choice := player_selection_choice g |}.
Definition set_player_selection_choice (v : Z) (g : Game) : Game :=
  with_menu g {| menu_select_timer := menu_select_timer g; selected_game := selected_game g; current_difficulty := current_difficulty g; difficulty_selection := difficulty_selection g; selected_player_index := selected_player_index g; player_selection_choice := v |}.

Definition set_current_game_target (v : Z) (g : Game) : Game :=
  with_session g {| current_game_target := v; hold_timer := hold_timer g; coins := coins g; game_start_time := game_start_time g; win_message_start_time := win_message_start_time g; beeps_played := beeps_played g; balance_hold_target := balance_hold_target g |}.
Definition set_hold_timer (v : f32) (g : Game) : Game :=
  with_session g {| current_game_target := current_game_target g; hold_timer := v; coins := coins g; game_start_time := game_start_time g; win_message_start_time := win_message_start_time g; beeps_played := beeps_played g; balance_hold_target := balance_hold_target g |}.
Definition set_coins (v : Z) (g : Game) : Game :=
  with_session g {| current_game_target := current_game_target g; hold_timer := hold_timer g; coins := v; game_start_time := game_start_time g; win_message_start_time := win_message_start_time g; beeps_played := beeps_played g; balance_hold_target := balance_hold_target g |}.
Definition set_game_start_time (v : Z) (g : Game) : Game :=
  with_session g {| current_game_target := current_game_target g; hold_timer := hold_timer g; coins := coins g; game_start_time := v; win_message_start_time := win_message_start_time g; beeps_played := beeps_played g; balance_hold_target := balance_hold_target g |}.
Definition set_win_message_start_time (v : Z) (g : Game) : Game :=
  with_session g {| current_game_target := current_game_target g; hold_timer := hold_timer g; coins := coins g; game_start_time := game_start_time g; win_message_start_time := v; beeps_played := beeps_played g; balance_hold_target := balance_hold_target g |}.
Definition set_beeps_played (v : Z) (g : Game) : Game :=
  with_session g {| current_game_target := current_game_target g; hold_timer := hold_timer g; coins := coins g; game_start_time := game_start_time g; win_message_start_time := win_message_start_time g; beeps_played := v; balance_hold_target := balance_hold_target g |}.
Definition set_balance_hold_target (v : TargetObject) (g : Game) : Game :=
  with_session g {| current_game_target := current_game_target g; hold_timer := hold_timer g; coins := coins g; game_start_time := game_start_time g; win_message_start_time := win_message_start_time g; beeps_played := beeps_played g; balance_hold_target := v |}.

Definition set_transition_start_time (v : Z) (g : Game) : Game :=
  with_trans g {| transition_start_time := v; shake_intensity := shake_intensity g; connection_start_time := connection_start_time g |}.
Definition set_shake_intensity (v : f32) (g : Game) : Game :=
  with_trans g {| transition_start_time := transition_start_time g; shake_intensity := v; connection_start_time := connection_start_time g |}.
Definition set_connection_start_time (v : Z) (g : Game) : Game :=
  with_trans g {| transition_start_time := transition_start_time g; shake_intensity := shake_intensity g; connection_start_time := v |}.

Definition set_state (v : GameState) (g : Game) : Game :=
  with_locals g {| state := v; player := player g; x_cob := x_cob g; y_cob := y_cob g; last_frame_time := last_frame_time g; last_input_time := last_input_time g; pulse_timer := pulse_timer g |}.
Definition set_player (v : PlayerObject) (g : Game) : Game :=
  with_locals g {| state := state g; player := v; x_cob := x_cob g; y_cob := y_cob g; last_frame_time := last_frame_time g; last_input_time := last_input_time g; pulse_timer := pulse_timer g |}.
Definition set_x_cob (v : f32) (g : Game) : Game :=
  with_locals g {| state := state g; player := player g; x_cob := v; y_cob := y_cob g; last_frame_time := last_frame_time g; last_input_time := last_input_time g; pulse_timer := pulse_timer g |}.
Definition set_y_cob (v : f32) (g : Game) : Game :=
  with_locals g {| state := state g; player := player g; x_cob := x_cob g; y_cob := v; last_frame_time := last_frame_time g; last_input_time := last_input_time g; pulse_timer := pulse_timer g |}.
Definition set_last_frame_time (v : Z) (g : Game) : Game :=
  with_locals g {| state := state g; player := player g; x_cob := x_cob g; y_cob := y_cob g; last_frame_time := v; last_input_time := last_input_time g; pulse_timer := pulse_timer g |}.
Definition set_last_input_time (v : Z) (g : Game) : Game :=
  with_locals g {| state := state g; player := player g; x_cob := x_cob g; y_cob := y_cob g; last_frame_time := last_frame_time g; last_input_time := v; pulse_timer := pulse_timer g |}.
Definition set_pulse_timer (v : f32) (g : Game) : Game :=
  with_locals g {| state := state g; player := player g; x_cob := x_cob g; y_cob := y_cob g; last_frame_time := last_frame_time g; last_input_time := last_input_time g; pulse_timer := v |}.

Definition set_rand_calls (v : nat) (g : Game) : Game :=
  with_world g {| rand_calls := v; tick_calls := tick_calls g; poll_calls := poll_calls g; connect_calls := connect_calls g; trace := trace g |}.
Definition set_tick_calls (v : nat) (g : Game) : Game :=
  with_world g {| rand_calls := rand_calls g; tick_calls := v; poll_calls := poll_calls g; connect_calls := connect_calls g; trace := trace g |}.
Definition set_poll_calls (v : nat) (g : Game) : Game :=
  with_world g {| rand_calls := rand_calls g; tick_calls := tick_calls g; poll_calls := v; connect_calls := connect_calls g; trace := trace g |}.
Definition set_connect_calls (v : nat) (g : Game) : Game :=
  with_world g {| rand_calls := rand_calls g; tick_calls := tick_calls g; poll_calls := poll_calls g; connect_calls := v; trace := trace g |}.
Definition set_trace (v : list Effect) (g : Game) : Game :=
  with_world g {| rand_calls := rand_calls g; tick_calls := tick_calls g; poll_calls := poll_calls g; connect_calls := connect_calls g; trace := v |}.

(** ** Loops *)

(** [for (i = start; ...; i++) body], run [n] times. *)
Fixpoint for_loop {St : Type} (n : nat) (i : nat) (body : nat -> St -> St) (s : St) : St :=
  match n with
  | O => s
  | S n' => for_loop n' (S i) body (body i s)
  end.

(** The same with a body that may [break]: it returns [true] to leave the loop. *)
Fixpoint for_loop_break {St : Type} (n : nat) (i : nat)
    (body : nat -> St -> St * bool) (s : St) : St :=
  match n with
  | O => s
  | S n' =>
      let '(s', stop) := body i s in
      if stop then s' else for_loop_break n' (S i) body s'
  end.

(** The same with a body that contains a loop of its own which may not have
    finished within the fuel it was given ([None]). *)
Fixpoint for_loop_opt {St : Type} (n : nat) (i : nat)
    (body : nat -> St -> option St) (s : St) : option St :=
  match n with
  | O => Some s
  | S n' =>
      match body i s with
      | Some s' => for_loop_opt n' (S i) body s'
      | None => None
      end
  end.

(** ** The procedures of [game.c] *)

Section Program.

Variable env : Env.

Definition emit (e : Effect) (g : Game) : Game :=
  set_trace (trace g ++ [e]) g.

(** [available_players] and [get_profile_filename]: the file name is made
    from [available_players[player_index].name], which exists for the
    indices below [num_players] only. *)
Definition num_players : Z := 3.

Definition get_profile_filename (player_index : Z) : option Z :=
  if (0 <=? player_index) && (player_index <? num_players)
  then Some player_index else None.

(** A write [w] to the file that [get_profile_filename] names. *)
Definition to_profile_file (player_index : Z) (w : Z -> Effect) : Effect :=
  match get_profile_filename player_index with
  | Some file => w file
  | None => read_beyond_available_players player_index
  end.

Definition rand (g : Game) : Z * Game :=
  (Z.of_N (rand_seq env (rand_calls g)), set_rand_calls (S (rand_calls g)) g).

Definition SDL_GetTicks (g : Game) : Z * Game :=
  (u32 (ticks_seq env (tick_calls g)), set_tick_calls (S (tick_calls g)) g).

Definition reset_game_state (g : Game) : Game :=
  let g := if iface g then emit xwii_iface_close g else g in
  let g := set_iface false g in
  let g := set_fd (-1) g in
  let g := set_poll_timeout_count 0 g in
  let g := set_menu_select_timer F32.zero g in
  let g := set_selected_game NO_GAME_SELECTED g in
  let g := set_difficulty_selection 0 g in
  let g := set_selected_player_index (-1) g in
  let g := set_player_selection_choice 0 g in
  let g := set_current_game_target 0 g in
  let g := set_hold_timer F32.zero g in
  let g := set_coins 0 g in
  let g := set_beeps_played 0 g in
  g.

Definition init_xwiimote_non_blocking (g : Game) : Z * Game :=
  let a := connect_seq env (connect_calls g) in
  let g := set_connect_calls (S (connect_calls g)) g in
  if negb (board_found a) then (-1, g) else
  if negb (iface_created a) then (-1, set_iface false g) else
  let g := set_iface true g in
  let g := set_fd (got_fd a) g in
  if fd g <? 0 then (-1, set_iface false g) else
  if negb (fcntl_ok a) then (-1, set_iface false g) else
  if negb (open_ok a) then (-1, set_iface false g) else
  if negb (watch_ok a) then (-1, set_iface false g) else
  (0, g).

Definition read_lowest_time (player_index : Z) : f32 :=
  match score_file env player_index with
  | Some score => score
  | None => #(-1)%f32
  end.

Definition read_total_wins (player_index : Z) : Z :=
  match wins_file env player_index with
  | Some wins => wins
  | None => 0
  end.

Definition read_dodge_high_score (player_index : Z) : Z :=
  match dodge_score_file env player_index with
  | Some score => score
  | None => 0
  end.

Definition init_confetti (x0 y0 : f32) (g : Game) : Game :=
  for_loop (Z.to_nat NUM_CONFETTI) 0 (fun i (g : Game) =>
    let '(r1, g) := rand g in
    let vx := (#(r1 `rem` F32.to_int CONFETTI_SPREAD) - CONFETTI_SPREAD / #2)%f32 in
    let '(r2, g) := rand g in
    let vy := (#(r2 `rem` F32.to_int CONFETTI_SPREAD) - CONFETTI_SPREAD / #2)%f32 in
    let '(r3, g) := rand g in
    set_confetti
      (<[i := {| cx := x0; cy := y0; cvx := vx; cvy := vy;
                 lifetime := CONFETTI_LIFETIME; color := r3 `rem` 3 |}]> (confetti g)) g) g.

Definition update_confetti (delta_time : f32) (g : Game) : Game :=
  for_loop (Z.to_nat NUM_CONFETTI) 0 (fun i (g : Game) =>
    match confetti g !! i with
    | Some c =>
        if (lifetime c >? #0)%f32 then
          set_confetti
            (<[i := {| cx := (cx c + cvx c * delta_time)%f32;
                       cy := (cy c + cvy c * delta_time)%f32;
                       cvx := cvx c;
                       cvy := (cvy c + CONFETTI_GRAVITY * delta_time)%f32;
                       lifetime := (lifetime c - delta_time)%f32;
                       color := color c |}]> (confetti g)) g
        else g
    | None => g
    end) g.

(** One balance-board event inside the dispatch loop of
    [read_wii_balance_board_data]; the result says whether it set [got_data]. *)
Definition balance_board_event (abs0 abs1 abs2 abs3 : Z) (g : Game) : bool * Game :=
  let cells0 := (#abs2 / #100)%f32 in (* TL *)
  let cells1 := (#abs0 / #100)%f32 in (* TR *)
  let cells2 := (#abs3 / #100)%f32 in (* BL *)
  let cells3 := (#abs1 / #100)%f32 in (* BR *)
  let total_weight := (cells0 + cells1 + cells2 + cells3)%f32 in
  let g := set_current_total_weight (total_weight * #100)%f32 g in
  if (current_total_weight g >? MIN_TOTAL_WEIGHT)%f32 then
    let g := set_x_cob ((cells1 + cells3 - cells0 - cells2) * #100)%f32 g in
    let g := set_y_cob ((cells0 + cells1 - cells2 - cells3) * #100)%f32 g in
    let g := if (F64.of_f32 (F32.abs (x_cob g)) <? DEAD_ZONE)%f64
             then set_x_cob #0%f32 g else g in
    let g := if (F64.of_f32 (F32.abs (y_cob g)) <? DEAD_ZONE)%f64
             then set_y_cob #0%f32 g else g in
    (true, g)
  else (false, g).

(** [while (xwii_iface_dispatch(...) == 0) { ... }] over the pending events. *)
Fixpoint dispatch_loop (events : list xwii_event) (got_data : bool) (g : Game)
    : bool * Game :=
  match events with
  | [] => (got_data, g)
  | XWII_EVENT_BALANCE_BOARD abs0 abs1 abs2 abs3 :: rest =>
      let '(got, g) := balance_board_event abs0 abs1 abs2 abs3 g in
      dispatch_loop rest (got || got_data) g
  | XWII_EVENT_OTHER :: rest => dispatch_loop rest got_data g
  end.

(** The two out-parameters are [main]'s [x_cob] and [y_cob]. *)
Definition read_wii_balance_board_data (g : Game) : Z * Game :=
  if negb (iface g) || (fd g <? 0) then
    (-1, set_y_cob #0%f32 (set_x_cob #0%f32 g))
  else
    let outcome := poll_seq env (poll_calls g) in
    let g := set_poll_calls (S (poll_calls g)) g in
    match outcome with
    | PollFailed => (-1, g)
    | PollTimedOut =>
        let g := set_poll_timeout_count (poll_timeout_count g + 1) g in
        if poll_timeout_count g >=? POLL_TIMEOUT_THRESHOLD then (-1, g) else (0, g)
    | PollReady events =>
        let g := set_poll_timeout_count 0 g in
        let '(got_data, g) := dispatch_loop events false g in
        if got_data then (0, g)
        else (0, set_y_cob #0%f32 (set_x_cob #0%f32 g))
    end.

Definition init_player (g : Game) : Game :=
  let g := set_player {| x := (#WINDOW_WIDTH / #2)%f32;
                         y := (#WINDOW_HEIGHT / #2)%f32;
                         velocity_x := #0%f32;
                         velocity_y := #0%f32 |} g in
  let g := for_loop (Z.to_nat TRAIL_LENGTH) 0 (fun i (g : Game) =>
    set_trail_points
      (alter (fun q => {| x := x (player g); y := y (player g);
                          velocity_x := velocity_x q;
                          velocity_y := velocity_y q |}) i (trail_points g)) g) g in
  set_trail_head 0 g.

Definition init_balance_hold_game (g : Game) : Game :=
  let g := init_player g in
  let '(r1, g) := rand g in
  let target_x := (#(r1 `rem` (WINDOW_WIDTH - GAME_OBJECT_SIZE * 2)) + #GAME_OBJECT_SIZE)%f32 in
  let '(r2, g) := rand g in
  let target_y := (#(r2 `rem` (WINDOW_HEIGHT - GAME_OBJECT_SIZE * 2)) + #GAME_OBJECT_SIZE)%f32 in
  let movement_speed :=
    match current_difficulty g with
    | EASY => BH_TARGET_MOVEMENT_SPEED_EASY
    | MEDIUM => BH_TARGET_MOVEMENT_SPEED_MEDIUM
    | HARD => BH_TARGET_MOVEMENT_SPEED_HARD
    end in
  let '(r3, g) := rand g in
  let target_vx := if r3 `rem` 2 =? 0 then movement_speed else F32.opp movement_speed in
  let '(r4, g) := rand g in
  let target_vy := if r4 `rem` 2 =? 0 then movement_speed else F32.opp movement_speed in
  let g := set_balance_hold_target
             {| tx := target_x; ty := target_y;
                tvelocity_x := target_vx; tvelocity_y := target_vy |} g in
  let '(now, g) := SDL_GetTicks g in
  let g := set_game_start_time now g in
  let g := set_hold_timer #0%f32 g in
  set_beeps_played 0 g.

(** The rejection-sampling loop that places a coin in [slot]; it is written
    twice in the source, for the first coin and for every later one.  [None]
    means that the loop is still running when the fuel is used up. *)
Fixpoint spawn_coin (fuel : nat) (slot : nat) (g : Game) : option Game :=
  match fuel with
  | O => None
  | S fuel' =>
      let '(r1, g) := rand g in
      let new_coin_x := (#(r1 `rem` (WINDOW_WIDTH - COIN_SAFE_MARGIN * 2)) + #COIN_SAFE_MARGIN)%f32 in
      let '(r2, g) := rand g in
      let new_coin_y := (#(r2 `rem` (WINDOW_HEIGHT - COIN_SAFE_MARGIN * 2)) + #COIN_SAFE_MARGIN)%f32 in
      let dist_x := (new_coin_x - x (player g))%f32 in
      let dist_y := (new_coin_y - y (player g))%f32 in
      let distance := hypot env dist_x dist_y in
      if (distance >? #COIN_SPAWN_MIN_DIST_PLAYER)%f32 then
        Some (set_coin_collector_coins
                (<[slot := {| coin_x := new_coin_x; coin_y := new_coin_y;
                              coin_active := true |}]> (coin_collector_coins g)) g)
      else spawn_coin fuel' slot g
  end.

Definition deactivate_coin (c : Coin) : Coin :=
  {| coin_x := coin_x c; coin_y := coin_y c; coin_active := false |}.

Definition init_coin_collector_game (fuel : nat) (g : Game) : option Game :=
  let g := init_player g in
  let g := for_loop (Z.to_nat (current_game_target g)) 0 (fun i (g : Game) =>
    set_coin_collector_coins (alter deactivate_coin i (coin_collector_coins g)) g) g in
  match spawn_coin fuel 0 g with
  | None => None
  | Some g =>
      let '(now, g) := SDL_GetTicks g in
      let g := set_game_start_time now g in
      let g := set_coins 0 g in
      Some (if decide (current_difficulty g = HARD) then set_coin_timer CC_COIN_TIMER g else g)
  end.

Definition deactivate_block (b : DodgeBlock) : DodgeBlock :=
  {| bx := bx b; by_ := by_ b; speed := speed b; active := false |}.

Definition init_dodge_game (g : Game) : Game :=
  let g := init_player g in
  let g := for_loop (Z.to_nat MAX_DODGE_BLOCKS) 0 (fun i (g : Game) =>
    set_dodge_blocks (alter deactivate_block i (dodge_blocks g)) g) g in
  let g := set_block_spawn_timer #0%f32 g in
  let g := set_current_block_speed BLOCK_INITIAL_SPEED g in
  let g := set_dodge_score 0 g in
  let '(now, g) := SDL_GetTicks g in
  set_game_start_time now g.

Definition spawn_dodge_block (g : Game) : Game :=
  for_loop_break (Z.to_nat MAX_DODGE_BLOCKS) 0 (fun i (g : Game) =>
    match dodge_blocks g !! i with
    | Some b =>
        if negb (active b) then
          let '(r, g) := rand g in
          (set_dodge_blocks
             (<[i := {| bx := #(WINDOW_WIDTH + BLOCK_WIDTH)%Z%f32;
                        by_ := #(r `rem` (WINDOW_HEIGHT - BLOCK_HEIGHT))%f32;
                        speed := current_block_speed g;
                        active := true |}]> (dodge_blocks g)) g, true)
        else (g, false)
    | None => (g, false)
    end) g.

Definition is_in_zone (p : PlayerObject) (target_x target_y : f32) (zone_radius : Z) : bool :=
  let dx := (x p - target_x)%f32 in
  let dy := (y p - target_y)%f32 in
  let distance := hypot env dx dy in
  (distance <=? #zone_radius)%f32.

(** The arithmetic of [update_player_position] (everything but the trail). *)
Definition spring_step (p : PlayerObject) (target_x target_y delta_time : f32)
    : PlayerObject :=
  let force_x := ((target_x - x p) * SPRING_CONSTANT)%f32 in
  let force_y := ((target_y - y p) * SPRING_CONSTANT)%f32 in
  let force_x := (force_x - velocity_x p * DAMPING_FACTOR)%f32 in
  let force_y := (force_y - velocity_y p * DAMPING_FACTOR)%f32 in
  let vx := (velocity_x p + force_x * delta_time)%f32 in
  let vy := (velocity_y p + force_y * delta_time)%f32 in
  let px := (x p + vx * delta_time)%f32 in
  let py := (y p + vy * delta_time)%f32 in
  let lo := #(GAME_OBJECT_SIZE `quot` 2)%f32 in
  let hi_x := #(WINDOW_WIDTH - GAME_OBJECT_SIZE `quot` 2)%f32 in
  let hi_y := #(WINDOW_HEIGHT - GAME_OBJECT_SIZE `quot` 2)%f32 in
  let '(px, vx) := if (px <? lo)%f32 then (lo, #0%f32) else (px, vx) in
  let '(px, vx) := if (px >? hi_x)%f32 then (hi_x, #0%f32) else (px, vx) in
  let '(py, vy) := if (py <? lo)%f32 then (lo, #0%f32) else (py, vy) in
  let '(py, vy) := if (py >? hi_y)%f32 then (hi_y, #0%f32) else (py, vy) in
  {| x := px; y := py; velocity_x := vx; velocity_y := vy |}.

Definition update_player_position (target_x target_y delta_time : f32) (g : Game)
    : Game :=
  let g := set_player (spring_step (player g) target_x target_y delta_time) g in
  let g := set_trail_points
             (<[Z.to_nat (trail_head g) := player g]> (trail_points g)) g in
  set_trail_head ((trail_head g + 1) `rem` TRAIL_LENGTH) g.

(** ** The frame loop of [main], one [case] of the [switch] at a time *)

(** The left / centre / right cascade on [x_cob] that the three selection
    screens spell out, with the value each screen assigns in each zone;
    [none] is the value the variable was cleared to beforehand. *)
Definition zone_choice {A : Type} (x_cob : f32) (left center right none : A) : A :=
  if (x_cob <? #(-200))%f32 then left
  else if (F32.abs x_cob <? #150)%f32 then center
  else if (x_cob >? #200)%f32 then right
  else none.

Definition case_CONNECTING (g : Game) : Game :=
  let '(r, g) := init_xwiimote_non_blocking g in
  if r =? 0 then
    let g := set_state TRANSITIONING g in
    let '(now, g) := SDL_GetTicks g in
    set_transition_start_time now g
  else g.

Definition case_TRANSITIONING (g : Game) : Game :=
  let '(now, g) := SDL_GetTicks g in
  let elapsed := (#(u32 (now - transition_start_time g)) / #1000)%f32 in
  if (F64.of_f32 elapsed >=? TRANSITION_DURATION)%f64 then
    set_state PLAYER_SELECTION g
  else
    let shake_progress := F64.to_f32 (F64.of_f32 elapsed / TRANSITION_DURATION)%f64 in
    let g := set_shake_intensity
               (if (shake_progress <? #1 / #2)%f32
                then (shake_progress * #2 * #20)%f32
                else ((#1 - shake_progress) * #2 * #20)%f32) g in
    (* render_offset_x and render_offset_y each draw one random number *)
    let '(_, g) := rand g in
    let '(_, g) := rand g in
    g.

(** Each selection screen first updates its choice and the selection timer
    ([select_...]) and then, when the timer has reached
    [MENU_SELECT_TIME_REQUIRED], commits the choice ([commit_...]). *)

Definition select_player (delta_time : f32) (g : Game) : Game :=
  let prev_player_selection_choice := player_selection_choice g in
  let g := set_player_selection_choice 0 g in
  let g := if (current_total_weight g >? MIN_TOTAL_WEIGHT)%f32
           then set_player_selection_choice (zone_choice (x_cob g) 1 2 3 0) g
           else g in
  let g := if negb (player_selection_choice g =? prev_player_selection_choice)
           then set_menu_select_timer #0%f32 g else g in
  if negb (player_selection_choice g =? 0)
  then set_menu_select_timer (menu_select_timer g + delta_time)%f32 g
  else g.

Definition commit_player (g : Game) : Game :=
  let g := set_selected_player_index (player_selection_choice g - 1) g in
  let g := set_lowest_time_to_win (read_lowest_time (selected_player_index g)) g in
  let g := set_total_wins (read_total_wins (selected_player_index g)) g in
  let g := set_state MAIN_MENU g in
  let g := set_menu_select_timer #0%f32 g in
  emit (Mix_PlayChannel select_sound) g.

Definition case_PLAYER_SELECTION (delta_time : f32) (g : Game) : Game :=
  let g := select_player delta_time g in
  if (F64.of_f32 (menu_select_timer g) >=? MENU_SELECT_TIME_REQUIRED)%f64
  then commit_player g
  else g.

Definition select_game (delta_time : f32) (g : Game) : Game :=
  let prev_selected_game := selected_game g in
  let g := set_selected_game NO_GAME_SELECTED g in
  let g := if (current_total_weight g >? MIN_TOTAL_WEIGHT)%f32
           then set_selected_game
                  (zone_choice (x_cob g) BALANCE_HOLD DODGE COIN_COLLECTOR
                     NO_GAME_SELECTED) g
           else g in
  let g := if negb (bool_decide (selected_game g = prev_selected_game))
           then set_menu_select_timer #0%f32 g else g in
  if negb (bool_decide (selected_game g = NO_GAME_SELECTED))
  then set_menu_select_timer (menu_select_timer g + delta_time)%f32 g
  else g.

Definition commit_game (g : Game) : Game :=
  let g := if bool_decide (selected_game g = DODGE) then
             let g := set_state GAME_DODGE g in
             let g := set_dodge_high_score
                        (read_dodge_high_score (selected_player_index g)) g in
             init_dodge_game g
           else set_state DIFFICULTY_SELECTION g in
  let g := set_menu_select_timer #0%f32 g in
  emit (Mix_PlayChannel select_sound) g.

Definition case_MAIN_MENU (delta_time : f32) (g : Game) : Game :=
  let g := select_game delta_time g in
  if (F64.of_f32 (menu_select_timer g) >=? MENU_SELECT_TIME_REQUIRED)%f64
  then commit_game g
  else g.

Definition select_difficulty (delta_time : f32) (g : Game) : Game :=
  let prev_difficulty_selection := difficulty_selection g in
  let g := set_difficulty_selection 0 g in
  let g := if (current_total_weight g >? MIN_TOTAL_WEIGHT)%f32
           then set_difficulty_selection (zone_choice (x_cob g) 1 2 3 0) g
           else g in
  let g := if negb (difficulty_selection g =? prev_difficulty_selection)
           then set_menu_select_timer #0%f32 g else g in
  if negb (difficulty_selection g =? 0)
  then set_menu_select_timer (menu_select_timer g + delta_time)%f32 g
  else g.

(** The mode start-up chosen by [selected_game] once the difficulty is set. *)
Definition start_selected_game (fuel : nat) (g : Game) : option Game :=
  match selected_game g with
  | BALANCE_HOLD =>
      let g := set_state GAME_BALANCE_HOLD g in
      let g := set_current_game_target
                 (match current_difficulty g with
                  | EASY => 10 | HARD => 25 | MEDIUM => 15 end) g in
      let g := init_balance_hold_game g in
      Some (set_coins 0 g)
  | COIN_COLLECTOR =>
      let g := set_state GAME_COIN_COLLECTOR g in
      let g := set_current_game_target
                 (match current_difficulty g with
                  | EASY => 15 | HARD => 30 | MEDIUM => 20 end) g in
      match init_coin_collector_game fuel g with
      | Some g => Some (set_coins 0 g)
      | None => None
      end
  | DODGE =>
      let g := set_state GAME_DODGE g in
      Some (init_dodge_game g)
  | NO_GAME_SELECTED => Some g
  end.

Definition commit_difficulty (fuel : nat) (g : Game) : option Game :=
  let g := if difficulty_selection g =? 1 then set_current_difficulty EASY g
           else if difficulty_selection g =? 2 then set_current_difficulty MEDIUM g
           else if difficulty_selection g =? 3 then set_current_difficulty HARD g
           else g in
  match start_selected_game fuel g with
  | Some g =>
      let g := set_menu_select_timer #0%f32 g in
      Some (emit (Mix_PlayChannel select_sound) g)
  | None => None
  end.

Definition case_DIFFICULTY_SELECTION (fuel : nat) (delta_time : f32) (g : Game)
    : option Game :=
  let g := select_difficulty delta_time g in
  if (F64.of_f32 (menu_select_timer g) >=? MENU_SELECT_TIME_REQUIRED)%f64
  then commit_difficulty fuel g
  else Some g.

(** The block entered when a Balance-Hold or Coin-Collector frame ends with
    [state == WINNING]. *)
Definition win_handling (g : Game) : Game :=
  let g := emit Mix_HaltChannel g in
  let g := emit (Mix_PlayChannel win_sound) g in
  let '(now, g) := SDL_GetTicks g in
  let g := set_win_message_start_time now g in
  let win_time := (#(u32 (win_message_start_time g - game_start_time g)) / #1000)%f32 in
  let g := if (lowest_time_to_win g =? #(-1))%f32 || (win_time <? lowest_time_to_win g)%f32
           then
             let g := set_lowest_time_to_win win_time g in
             emit (to_profile_file (selected_player_index g)
                     (fun file => write_lowest_time file (lowest_time_to_win g))) g
           else g in
  let g := set_total_wins (int32 (total_wins g + 1)) g in
  let g := emit (to_profile_file (selected_player_index g)
                   (fun file => write_total_wins file (total_wins g))) g in
  init_confetti (x (player g)) (y (player g)) g.

Definition balance_hold_step (delta_time : f32) (g : Game) : Game :=
  let t := balance_hold_target g in
  let t := {| tx := (tx t + tvelocity_x t * delta_time)%f32;
              ty := (ty t + tvelocity_y t * delta_time)%f32;
              tvelocity_x := tvelocity_x t; tvelocity_y := tvelocity_y t |} in
  let t := if (tx t <? #BH_GRACE_ZONE_RADIUS)%f32
              || (tx t >? #(WINDOW_WIDTH - BH_GRACE_ZONE_RADIUS))%f32
           then {| tx := tx t; ty := ty t;
                   tvelocity_x := (tvelocity_x t * #(-1))%f32;
                   tvelocity_y := tvelocity_y t |}
           else t in
  let t := if (ty t <? #BH_GRACE_ZONE_RADIUS)%f32
              || (ty t >? #(WINDOW_HEIGHT - BH_GRACE_ZONE_RADIUS))%f32
           then {| tx := tx t; ty := ty t;
                   tvelocity_x := tvelocity_x t;
                   tvelocity_y := (tvelocity_y t * #(-1))%f32 |}
           else t in
  let g := set_balance_hold_target t g in
  let g := if is_in_zone (player g) (tx (balance_hold_target g))
                (ty (balance_hold_target g)) BH_HOLD_RADIUS
           then set_hold_timer (hold_timer g + delta_time)%f32 g
           else
             let g := set_hold_timer #0%f32 g in
             let g := set_beeps_played 0 g in
             emit (Mix_PlayChannel reset_sound) g in
  let g := if (F64.of_f32 (hold_timer g) >=? BH_HOLD_TIME_REQUIRED)%f64 then
             let g := set_coins (coins g + 1) g in
             let g := if target_sound_loaded env
                      then emit (Mix_PlayChannel target_sound) g else g in
             if coins g >=? current_game_target g
             then set_state WINNING g
             else init_balance_hold_game g
           else g in
  set_pulse_timer (pulse_timer g + delta_time)%f32 g.

(** The capture radius [STARTING_COIN_SIZE * 1.2], a [double] converted to the
    [int] parameter of [is_in_zone]. *)
Definition coin_capture_radius : Z :=
  F64.to_int (F64.of_Z STARTING_COIN_SIZE * (F64.of_Z 12 / F64.of_Z 10))%f64.

(** Body of the loop over the coin slots. *)
Definition coin_slot_step (fuel : nat) (i : nat) (g : Game) : option Game :=
  match coin_collector_coins g !! i with
  | Some c =>
      if coin_active c then
        if is_in_zone (player g) (coin_x c) (coin_y c) coin_capture_radius then
          let g := set_coin_collector_coins
                     (alter deactivate_coin i (coin_collector_coins g)) g in
          let g := set_coins (coins g + 1) g in
          let g := emit (Mix_PlayChannel coin_sound) g in
          if coins g <? current_game_target g then
            let next_coin_index := S i in
            match spawn_coin fuel next_coin_index g with
            | Some g =>
                Some (if decide (current_difficulty g = HARD)
                      then set_coin_timer CC_COIN_TIMER g else g)
            | None => None
            end
          else Some (set_state WINNING g)
        else Some g
      else Some g
  | None => Some g
  end.

(** [case GAME_BALANCE_HOLD: case GAME_COIN_COLLECTOR:]; the boolean is [true]
    when the case left through [continue]. *)
Definition case_GAME_general (fuel : nat) (delta_time : f32) (g : Game)
    : option (bool * Game) :=
  let target_x_general :=
    F64.to_f32 (F64.of_f32 (#WINDOW_WIDTH / #2)%f32
                + F64.of_f32 (x_cob g) * COB_SCALE_GENERAL * F64.of_Z WINDOW_WIDTH)%f64 in
  let target_y_general :=
    F64.to_f32 (F64.of_f32 (#WINDOW_HEIGHT / #2)%f32
                + F64.of_f32 (y_cob g) * F64.opp COB_SCALE_GENERAL * F64.of_Z WINDOW_HEIGHT)%f64 in
  let g := update_player_position target_x_general target_y_general delta_time g in
  let played :=
    if decide (state g = GAME_BALANCE_HOLD) then
      Some (false, balance_hold_step delta_time g)
    else
      let g := if decide (current_difficulty g = HARD)
               then set_coin_timer (coin_timer g - delta_time)%f32 g else g in
      if bool_decide (current_difficulty g = HARD) && (coin_timer g <=? #0)%f32 then
        let g := reset_game_state g in
        Some (true, set_state MAIN_MENU g)
      else
        match for_loop_opt (Z.to_nat (current_game_target g)) 0 (coin_slot_step fuel) g with
        | Some g => Some (false, g)
        | None => None
        end in
  match played with
  | Some (false, g) =>
      Some (false, if decide (state g = WINNING) then win_handling g else g)
  | other => other
  end.

(** Body of the loop over the block pool in Dodge; [true] is the [break]
    taken on a collision. *)
Definition dodge_block_step (delta_time : f32) (i : nat) (g : Game) : Game * bool :=
  match dodge_blocks g !! i with
  | Some b =>
      if active b then
        let b := {| bx := (bx b - speed b * delta_time)%f32; by_ := by_ b;
                    speed := speed b; active := active b |} in
        let g := set_dodge_blocks (<[i := b]> (dodge_blocks g)) g in
        let g := if (bx b + #BLOCK_WIDTH <? #0)%f32 then
                   let g := set_dodge_blocks
                              (<[i := deactivate_block b]> (dodge_blocks g)) g in
                   let g := set_dodge_score (int32 (dodge_score g + 1)) g in
                   if dodge_score g >? dodge_high_score g then
                     let g := set_dodge_high_score (dodge_score g) g in
                     emit (to_profile_file (selected_player_index g)
                             (fun file =>
                                write_dodge_high_score file (dodge_high_score g))) g
                   else g
                 else g in
        let block_rect := {| rx := F32.to_int (bx b); ry := F32.to_int (by_ b);
                             rw := BLOCK_WIDTH; rh := BLOCK_HEIGHT |} in
        let player_rect :=
          {| rx := F32.to_int (x (player g) - #(GAME_OBJECT_SIZE `quot` 2))%f32;
             ry := F32.to_int (y (player g) - #(GAME_OBJECT_SIZE `quot` 2))%f32;
             rw := GAME_OBJECT_SIZE; rh := GAME_OBJECT_SIZE |} in
        if SDL_HasIntersection env block_rect player_rect then
          let g := set_state WINNING g in
          (emit (Mix_PlayChannel reset_sound) g, true)
        else (g, false)
      else (g, false)
  | None => (g, false)
  end.

Definition dodge_blocks_loop (delta_time : f32) (g : Game) : Game :=
  for_loop_break (Z.to_nat MAX_DODGE_BLOCKS) 0 (dodge_block_step delta_time) g.

Definition case_GAME_DODGE (delta_time : f32) (g : Game) : Game :=
  let target_x_dodge :=
    F64.to_f32 (F64.of_f32 (#WINDOW_WIDTH / #2)%f32
                + F64.of_f32 (x_cob g) * COB_SCALE_DODGE * F64.of_Z WINDOW_WIDTH)%f64 in
  let target_y_dodge :=
    F64.to_f32 (F64.of_f32 (#WINDOW_HEIGHT / #2)%f32
                + F64.of_f32 (y_cob g) * F64.opp COB_SCALE_DODGE * F64.of_Z WINDOW_HEIGHT)%f64 in
  let g := if (current_total_weight g >? MIN_TOTAL_WEIGHT)%f32
              && ((F64.of_f32 (F32.abs (x_cob g)) >? DEAD_ZONE)%f64
                  || (F64.of_f32 (F32.abs (y_cob g)) >? DEAD_ZONE)%f64)
           then update_player_position target_x_dodge target_y_dodge delta_time g
           else g in
  let g := dodge_blocks_loop delta_time g in
  let g := set_block_spawn_timer (block_spawn_timer g + delta_time)%f32 g in
  let g := if (block_spawn_timer g >=? dynamic_block_spawn_interval g)%f32 then
             let g := spawn_dodge_block g in
             set_block_spawn_timer #0%f32 g
           else g in
  let g := set_current_block_speed
             (current_block_speed g + BLOCK_SPEED_INCREMENT * delta_time)%f32 g in
  set_dynamic_block_spawn_interval
    (F32.fmax (#1 / #2)%f32
       (dynamic_block_spawn_interval g - (#1 / #100) * delta_time)%f32) g.

(** What the Winning state does once the animation time is over. *)
Definition winning_cleanup (g : Game) : Game :=
  let g := if dodge_score g >? 0 then
             let g := set_block_spawn_timer #0%f32 g in
             let g := set_current_block_speed BLOCK_INITIAL_SPEED g in
             let g := set_dynamic_block_spawn_interval BLOCK_SPAWN_INTERVAL g in
             let g := for_loop (Z.to_nat MAX_DODGE_BLOCKS) 0 (fun i (g : Game) =>
               set_dodge_blocks (alter deactivate_block i (dodge_blocks g)) g) g in
             set_dodge_score 0 g
           else g in
  let g := reset_game_state g in
  let g := set_state PLAYER_SELECTION g in
  init_player g.

Definition case_WINNING (delta_time : f32) (g : Game) : Game :=
  let g := update_confetti delta_time g in
  let '(now, g) := SDL_GetTicks g in
  if u32 (now - win_message_start_time g) >? WIN_ANIMATION_DURATION
  then winning_cleanup g
  else g.

(** One iteration of [while (!quit)], rendering excepted, in the order of the
    source: clock and [delta_time], sensor read and disconnection handling,
    inactivity check, the [switch], frame limiter. *)

Definition begin_frame (g : Game) : f32 * Z * Game :=
  let '(frame_start, g) := SDL_GetTicks g in
  let '(current_time, g) := SDL_GetTicks g in
  let delta_time := (#(u32 (current_time - last_frame_time g)) / #1000)%f32 in
  let g := set_last_frame_time current_time g in
  (delta_time, current_time, g).

(** The two places that fall back to the connecting screen. *)
Definition back_to_connecting (g : Game) : Game :=
  let g := reset_game_state g in
  let g := set_state CONNECTING g in
  let '(now, g) := SDL_GetTicks g in
  set_connection_start_time now g.

Definition inactivity_check (current_time : Z) (g : Game) : Game :=
  if negb (bool_decide (state g = CONNECTING))
     && negb (bool_decide (state g = TRANSITIONING))
     && (current_total_weight g <? MIN_TOTAL_WEIGHT)%f32
  then
    if u32 (current_time - last_input_time g) >? INACTIVITY_TIMEOUT_SECONDS * 1000
    then back_to_connecting g
    else g
  else set_last_input_time current_time g.

(** The [switch (state)]; the boolean is [true] when the case left through
    [continue]. *)
Definition switch_state (fuel : nat) (delta_time : f32) (g : Game)
    : option (bool * Game) :=
  match state g with
  | CONNECTING => Some (false, case_CONNECTING g)
  | TRANSITIONING => Some (false, case_TRANSITIONING g)
  | PLAYER_SELECTION => Some (false, case_PLAYER_SELECTION delta_time g)
  | MAIN_MENU => Some (false, case_MAIN_MENU delta_time g)
  | DIFFICULTY_SELECTION =>
      match case_DIFFICULTY_SELECTION fuel delta_time g with
      | Some g => Some (false, g)
      | None => None
      end
  | GAME_BALANCE_HOLD | GAME_COIN_COLLECTOR => case_GAME_general fuel delta_time g
  | GAME_DODGE => Some (false, case_GAME_DODGE delta_time g)
  | WINNING => Some (false, case_WINNING delta_time g)
  end.

Definition frame (fuel : nat) (g : Game) : option Game :=
  let '(delta_time, current_time, g) := begin_frame g in
  let '(r, g) :=
    if decide (state g = CONNECTING) then (0, g)
    else read_wii_balance_board_data g in
  if negb (r =? 0) then
    Some (back_to_connecting g)
  else
    let g := inactivity_check current_time g in
    match switch_state fuel delta_time g with
    | Some (true, g) => Some g
    | Some (false, g) =>
        (* the frame limiter reads the clock once more *)
        let '(_, g) := SDL_GetTicks g in
        Some g
    | None => None
    end.

(** The state in which [main] enters the loop: the static initialisers of the
    globals, then the assignments made just before [while (!quit)]. *)
Definition zero_player : PlayerObject :=
  {| x := #0%f32; y := #0%f32; velocity_x := #0%f32; velocity_y := #0%f32 |}.

Definition static_globals : Game :=
  {| board := {| iface := false; fd := -1; poll_timeout_count := 0;
                 current_total_weight := #0%f32 |};
     shared := {| confetti :=
                    replicate (Z.to_nat NUM_CONFETTI)
                      {| cx := #0%f32; cy := #0%f32; cvx := #0%f32; cvy := #0%f32;
                         lifetime := #0%f32; color := 0 |};
                  lowest_time_to_win := #(-1)%f32;
                  total_wins := 0;
                  trail_points := replicate (Z.to_nat TRAIL_LENGTH) zero_player;
                  trail_head := 0;
                  coin_collector_coins :=
                    replicate 30 {| coin_x := #0%f32; coin_y := #0%f32;
                                    coin_active := false |};
                  coin_timer := #0%f32 |};
     dodge := {| dodge_blocks :=
                   replicate (Z.to_nat MAX_DODGE_BLOCKS)
                     {| bx := #0%f32; by_ := #0%f32; speed := #0%f32;
                        active := false |};
                 block_spawn_timer := #0%f32;
                 current_block_speed := BLOCK_INITIAL_SPEED;
                 dodge_score := 0;
                 dodge_high_score := 0;
                 dynamic_block_spawn_interval := BLOCK_SPAWN_INTERVAL |};
     menu := {| menu_select_timer := #0%f32; selected_game := NO_GAME_SELECTED;
                current_difficulty := EASY; difficulty_selection := 0;
                selected_player_index := -1; player_selection_choice := 0 |};
     session := {| current_game_target := 0; hold_timer := #0%f32; coins := 0;
                   game_start_time := 0; win_message_start_time := 0;
                   beeps_played := 0;
                   balance_hold_target :=
                     {| tx := #0%f32; ty := #0%f32;
                        tvelocity_x := #0%f32; tvelocity_y := #0%f32 |} |};
     trans := {| transition_start_time := 0; shake_intensity := #0%f32;
                 connection_start_time := 0 |};
     locals := {| state := CONNECTING; player := zero_player;
                  x_cob := #0%f32; y_cob := #0%f32;
                  last_frame_time := 0; last_input_time := 0;
                  pulse_timer := #0%f32 |};
     world := {| rand_calls := 0; tick_calls := 0; poll_calls := 0;
                 connect_calls := 0; trace := [] |} |}.

Definition main_init : Game :=
  let g := static_globals in
  let g := set_lowest_time_to_win #(-1)%f32 g in
  let g := set_total_wins 0 g in
  let '(now, g) := SDL_GetTicks g in
  let g := set_last_frame_time now g in
  let '(now, g) := SDL_GetTicks g in
  let g := set_last_input_time now g in
  let '(now, g) := SDL_GetTicks g in
  let g := set_connection_start_time now g in
  init_player g.

(** [n] iterations of the loop. *)
Fixpoint frames (fuel : nat) (n : nat) (g : Game) : option Game :=
  match n with
  | O => Some g
  | S n' =>
      match frame fuel g with
      | Some g' => frames fuel n' g'
      | None => None
      end
  end.

End Program.

(** * Vocabulary of the properties *)

Section Vocabulary.

Variable env : Env.

(** ** The motion smoother *)

Definition dt_tenth : f32 := (#1 / #10)%f32.        (* 0.1f *)
Definition dt_hundredth : f32 := (#1 / #100)%f32.   (* 0.01f *)

(** The avatar lies inside the clamping bounds of [update_player_position]. *)
Definition inside_play_field (p : PlayerObject) : bool :=
  F32.is_finite (x p)
  && negb (x p <? #(GAME_OBJECT_SIZE `quot` 2))%f32
  && negb (x p >? #(WINDOW_WIDTH - GAME_OBJECT_SIZE `quot` 2))%f32
  && F32.is_finite (y p)
  && negb (y p <? #(GAME_OBJECT_SIZE `quot` 2))%f32
  && negb (y p >? #(WINDOW_HEIGHT - GAME_OBJECT_SIZE `quot` 2))%f32.

Definition at_rest (p : PlayerObject) : bool :=
  F32.is_zero (velocity_x p) && F32.is_zero (velocity_y p).

(** Two avatar positions agree on both axes up to [tol] pixels. *)
Definition same_position_within (tol : f32) (p q : PlayerObject) : bool :=
  (F32.abs (x p - x q) <=? tol)%f32 && (F32.abs (y p - y q) <=? tol)%f32.

(** For one avatar state and target: one step of 0.1 s lands where ten steps
    of 0.01 s do, up to [tol]. *)
Definition step_size_independent (tol : f32) (g : Game) (target_x target_y : f32) : Prop :=
  same_position_within tol
    (player (update_player_position target_x target_y dt_tenth g))
    (player (Nat.iter 10 (update_player_position target_x target_y dt_hundredth) g))
  = true.

(** ** The sensor reader *)

(** The total weight that [read_wii_balance_board_data] computes for a
    balance-board event, and the two raw centre-of-balance components. *)
Definition event_total_weight (abs0 abs1 abs2 abs3 : Z) : f32 :=
  ((#abs2 / #100 + #abs0 / #100 + #abs3 / #100 + #abs1 / #100) * #100)%f32.

Definition event_raw_x (abs0 abs1 abs2 abs3 : Z) : f32 :=
  ((#abs0 / #100 + #abs1 / #100 - #abs2 / #100 - #abs3 / #100) * #100)%f32.

Definition event_raw_y (abs0 abs1 abs2 abs3 : Z) : f32 :=
  ((#abs2 / #100 + #abs0 / #100 - #abs3 / #100 - #abs1 / #100) * #100)%f32.

(** The event does not pass the anti-noise gate: its total weight is not
    above [MIN_TOTAL_WEIGHT] (other kinds of event never pass). *)
Definition gated (ev : xwii_event) : bool :=
  match ev with
  | XWII_EVENT_BALANCE_BOARD abs0 abs1 abs2 abs3 =>
      negb (event_total_weight abs0 abs1 abs2 abs3 >? MIN_TOTAL_WEIGHT)%f32
  | XWII_EVENT_OTHER => true
  end.

(** What the dead zone leaves of a component: nothing, when its magnitude is
    below [DEAD_ZONE]. *)
Definition dead_zone (v : f32) : f32 :=
  if (F64.of_f32 (F32.abs v) <? DEAD_ZONE)%f64 then #0%f32 else v.

(** A reported component is zero or has a magnitude not below the dead zone. *)
Definition dead_zone_filtered (v : f32) : Prop :=
  v = #0%f32 \/ (F64.of_f32 (F32.abs v) <? DEAD_ZONE)%f64 = false.

(** [n] calls of the reader in a row, with their return values. *)
Fixpoint reads (n : nat) (g : Game) : list Z * Game :=
  match n with
  | O => ([], g)
  | S n' =>
      let '(r, g) := read_wii_balance_board_data env g in
      let '(rs, g) := reads n' g in
      (r :: rs, g)
  end.

(** What [reset_game_state] leaves behind. *)
Definition session_cleared (g : Game) : Prop :=
  iface g = false /\ fd g = -1
  /\ poll_timeout_count g = 0
  /\ menu_select_timer g = #0%f32
  /\ selected_game g = NO_GAME_SELECTED
  /\ difficulty_selection g = 0
  /\ selected_player_index g = -1
  /\ player_selection_choice g = 0
  /\ current_game_target g = 0
  /\ hold_timer g = #0%f32
  /\ coins g = 0
  /\ beeps_played g = 0.

(** ** Parts of the state, to say what a procedure leaves alone *)

(** The avatar and its trail. *)
Definition avatar (g : Game) : PlayerObject * list PlayerObject * Z :=
  (player g, trail_points g, trail_head g).

(** The sensor sample as the game logic sees it. *)
Definition sample (g : Game) : f32 * f32 * f32 :=
  (current_total_weight g, x_cob g, y_cob g).

(** The persisted win records as held in memory. *)
Definition win_record (g : Game) : f32 * Z :=
  (lowest_time_to_win g, total_wins g).

(** The locals of [main] other than the two centre-of-balance components,
    and the cursors and trace other than the poll cursor. *)
Definition locals_but_cob (g : Game) : GameState * PlayerObject * Z * Z * f32 :=
  (state g, player g, last_frame_time g, last_input_time g, pulse_timer g).

Definition world_but_polls (g : Game) : nat * nat * nat * list Effect :=
  (rand_calls g, tick_calls g, connect_calls g, trace g).

(** What [init_player] keeps: everything but the avatar and its trail. *)
Definition but_avatar (g : Game) :=
  (board g, dodge g, menu g, session g, trans g, world g,
   state g, sample g, last_frame_time g, last_input_time g, pulse_timer g,
   confetti g, win_record g, coin_collector_coins g, coin_timer g).

(** [init_dodge_game] leaves the spawn interval and the high score alone. *)
Definition but_dodge_round (g : Game) :=
  (board g, menu g, trans g, state g, sample g,
   dynamic_block_spawn_interval g, dodge_high_score g,
   confetti g, win_record g, coin_collector_coins g, coin_timer g,
   rand_calls g, poll_calls g, connect_calls g, trace g).

(** What the rejection-sampling loop keeps: everything but the coin slots and
    the random-number cursor. *)
Definition but_coin_slots (g : Game) :=
  (board g, dodge g, menu g, session g, trans g, locals g,
   confetti g, win_record g, trail_points g, trail_head g, coin_timer g,
   tick_calls g, poll_calls g, connect_calls g, trace g).

(** What starting a Balance-Hold target keeps. *)
Definition but_hold_target (g : Game) :=
  (board g, dodge g, menu g, trans g, state g, sample g,
   last_frame_time g, last_input_time g, pulse_timer g,
   confetti g, win_record g, coin_collector_coins g, coin_timer g,
   poll_calls g, connect_calls g, trace g,
   current_game_target g, coins g, win_message_start_time g).

(** What starting a Coin-Collector round keeps. *)
Definition but_coin_round (g : Game) :=
  (board g, dodge g, menu g, trans g, state g, sample g,
   last_frame_time g, last_input_time g, pulse_timer g,
   confetti g, win_record g,
   poll_calls g, connect_calls g, trace g,
   current_game_target g, hold_timer g, win_message_start_time g,
   beeps_played g, balance_hold_target g).

(** What the confetti loops keep. *)
Definition but_confetti (g : Game) :=
  (board g, dodge g, menu g, session g, trans g, locals g,
   win_record g, trail_points g, trail_head g, coin_collector_coins g,
   coin_timer g, tick_calls g, poll_calls g, connect_calls g, trace g).

(** What the win handling keeps. *)
Definition but_win (g : Game) :=
  (board g, dodge g, menu g, trans g, locals g,
   trail_points g, trail_head g, coin_collector_coins g, coin_timer g,
   poll_calls g, connect_calls g,
   current_game_target g, hold_timer g, coins g, game_start_time g,
   beeps_played g, balance_hold_target g).

(** What a Balance-Hold step keeps (it may restart the target, which moves
    the avatar back to the centre). *)
Definition but_hold_step (g : Game) :=
  (board g, dodge g, menu g, trans g, sample g,
   last_frame_time g, last_input_time g,
   confetti g, win_record g, coin_collector_coins g, coin_timer g,
   poll_calls g, connect_calls g,
   current_game_target g, win_message_start_time g).

(** What the Coin-Collector loop keeps. *)
Definition but_coin_step (g : Game) :=
  (board g, dodge g, menu g, trans g, sample g, player g,
   last_frame_time g, last_input_time g, pulse_timer g,
   confetti g, win_record g, trail_points g, trail_head g,
   tick_calls g, poll_calls g, connect_calls g,
   current_game_target g, hold_timer g, game_start_time g,
   win_message_start_time g, beeps_played g, balance_hold_target g).

(** What [reset_game_state] keeps. *)
Definition but_reset (g : Game) :=
  (shared g, dodge g, trans g, locals g, current_total_weight g,
   current_difficulty g, game_start_time g, win_message_start_time g,
   balance_hold_target g,
   rand_calls g, tick_calls g, poll_calls g, connect_calls g).

(** What a Balance-Hold or Coin-Collector frame keeps, whatever its outcome. *)
Definition but_game_case (g : Game) :=
  (dodge g, trans g, sample g, last_frame_time g, last_input_time g,
   poll_calls g, connect_calls g).

(** The part of the Dodge variables that outlives a round: the spawn interval
    is the same, and a score of zero is still zero. *)
Definition dodge_carried (g g' : Game) : Prop :=
  dynamic_block_spawn_interval g' = dynamic_block_spawn_interval g
  /\ (dodge_score g = 0 -> dodge_score g' = 0).

(** ** Dodge *)

(** What the pass over the block pool keeps: it writes the pool, the score,
    the high score, the state and the trace. *)
Definition but_block_pass (g : Game) :=
  (board g, shared g, menu g, session g, trans g, player g, sample g,
   last_frame_time g, last_input_time g, pulse_timer g,
   block_spawn_timer g, current_block_speed g, dynamic_block_spawn_interval g,
   rand_calls g, tick_calls g, poll_calls g, connect_calls g).

(** What [spawn_dodge_block] keeps: everything but the pool and the
    random-number cursor. *)
Definition but_spawned_block (g : Game) :=
  (board g, shared g, menu g, session g, trans g, locals g,
   block_spawn_timer g, current_block_speed g, dodge_score g,
   dodge_high_score g, dynamic_block_spawn_interval g,
   tick_calls g, poll_calls g, connect_calls g, trace g).

(** The one way the spawn interval gets its initial value back: the clean-up
    of a Winning frame that finds a positive Dodge score. *)
Definition restored_by_cleanup (g g' : Game) : Prop :=
  state g = WINNING /\ 0 < dodge_score g
  /\ dynamic_block_spawn_interval g' = BLOCK_SPAWN_INTERVAL.

(** The next [n] frames all start outside Dodge. *)
Fixpoint stays_outside_dodge (fuel n : nat) (g : Game) : bool :=
  match n with
  | O => true
  | S n' =>
      negb (bool_decide (state g = GAME_DODGE))
      && match frame env fuel g with
         | Some g' => stays_outside_dodge fuel n' g'
         | None => false
         end
  end.

(** No usable input for Dodge: the weight is not above the threshold, or
    neither component is outside the dead zone. *)
Definition no_dodge_input (g : Game) : Prop :=
  (current_total_weight g >? MIN_TOTAL_WEIGHT)%f32 = false
  \/ ((F64.of_f32 (F32.abs (x_cob g)) >? DEAD_ZONE)%f64 = false
      /\ (F64.of_f32 (F32.abs (y_cob g)) >? DEAD_ZONE)%f64 = false).

End Vocabulary.

(** ** Concrete scenarios *)

(** The avatar as [init_player] places it: at rest in the middle of the
    window. *)
Definition rest_at_centre : Game := init_player static_globals.

(** ** The pass over the block pool *)

(** A block after the move of one frame. *)
Definition moved_block (delta_time : f32) (b : DodgeBlock) : DodgeBlock :=
  {| bx := (bx b - speed b * delta_time)%f32; by_ := by_ b; speed := speed b;
     active := active b |}.

(** The block has fully left the window on the left. *)
Definition off_screen (b : DodgeBlock) : bool := (bx b + #BLOCK_WIDTH <? #0)%f32.

(** An active block that leaves the window in this frame. *)
Definition retires (delta_time : f32) (b : DodgeBlock) : bool :=
  active b && off_screen (moved_block delta_time b).

(** What the pass makes of a block it visits. *)
Definition block_pass (delta_time : f32) (b : DodgeBlock) : DodgeBlock :=
  if active b then
    if off_screen (moved_block delta_time b)
    then deactivate_block (moved_block delta_time b)
    else moved_block delta_time b
  else b.

(** The number of retiring blocks in slot [i], and in the [n] slots from [i]. *)
Definition retired_at (delta_time : f32) (pool : list DodgeBlock) (i : nat) : Z :=
  match pool !! i with
  | Some b => if retires delta_time b then 1 else 0
  | None => 0
  end.

Fixpoint retired_from (delta_time : f32) (pool : list DodgeBlock) (i n : nat) : Z :=
  match n with
  | O => 0
  | S n' => retired_at delta_time pool i + retired_from delta_time pool (S i) n'
  end.

(** The rectangles that the collision test compares. *)
Definition block_rect (b : DodgeBlock) : SDL_Rect :=
  {| rx := F32.to_int (bx b); ry := F32.to_int (by_ b);
     rw := BLOCK_WIDTH; rh := BLOCK_HEIGHT |}.

Definition player_rect (p : PlayerObject) : SDL_Rect :=
  {| rx := F32.to_int (x p - #(GAME_OBJECT_SIZE `quot` 2))%f32;
     ry := F32.to_int (y p - #(GAME_OBJECT_SIZE `quot` 2))%f32;
     rw := GAME_OBJECT_SIZE; rh := GAME_OBJECT_SIZE |}.

(** The target and the input test of a Dodge frame, and the state after its
    conditional movement update. *)
Definition dodge_target_x (g : Game) : f32 :=
  F64.to_f32 (F64.of_f32 (#WINDOW_WIDTH / #2)%f32
              + F64.of_f32 (x_cob g) * COB_SCALE_DODGE * F64.of_Z WINDOW_WIDTH)%f64.

Definition dodge_target_y (g : Game) : f32 :=
  F64.to_f32 (F64.of_f32 (#WINDOW_HEIGHT / #2)%f32
              + F64.of_f32 (y_cob g) * F64.opp COB_SCALE_DODGE
                * F64.of_Z WINDOW_HEIGHT)%f64.

Definition dodge_input (g : Game) : bool :=
  (current_total_weight g >? MIN_TOTAL_WEIGHT)%f32
  && ((F64.of_f32 (F32.abs (x_cob g)) >? DEAD_ZONE)%f64
      || (F64.of_f32 (F32.abs (y_cob g)) >? DEAD_ZONE)%f64).

Definition moved_in_dodge (delta_time : f32) (g : Game) : Game :=
  if dodge_input g
  then update_player_position (dodge_target_x g) (dodge_target_y g) delta_time g
  else g.

(** The score does not wrap round within one pass over the pool. *)
Definition score_in_range (g : Game) : Prop :=
  INT_MIN <= dodge_score g /\ dodge_score g + MAX_DODGE_BLOCKS <= INT_MAX.

Section BlockPass.

Variable env : Env.

(** The block of slot [i] is active and, once moved, overlaps the avatar:
    the pass ends there. *)
Definition collides (delta_time : f32) (p : PlayerObject)
    (pool : list DodgeBlock) (i : nat) : bool :=
  match pool !! i with
  | Some b =>
      active b
      && SDL_HasIntersection env (block_rect (moved_block delta_time b))
           (player_rect p)
  | None => false
  end.

(** The number of slots that a pass over the [n] slots from [i] visits: all
    of them, or those up to the first collision. *)
Fixpoint slots_visited (delta_time : f32) (p : PlayerObject)
    (pool : list DodgeBlock) (i n : nat) : nat :=
  match n with
  | O => O
  | S n' =>
      if collides delta_time p pool i then 1%nat
      else S (slots_visited delta_time p pool (S i) n')
  end.

(** One of the [n] slots from [i] collides. *)
Fixpoint pass_collides (delta_time : f32) (p : PlayerObject)
    (pool : list DodgeBlock) (i n : nat) : bool :=
  match n with
  | O => false
  | S n' =>
      collides delta_time p pool i
      || pass_collides delta_time p pool (S i) n'
  end.

(** The state on which the [switch] of a frame runs, with the frame's
    [delta_time] and the reader's verdict: after the clock, the sensor read
    and the inactivity check. *)
Definition before_switch (g : Game) : f32 * Z * Game :=
  let '(delta_time, current_time, g) := begin_frame env g in
  let '(r, g) :=
    if decide (state g = CONNECTING) then (0, g)
    else read_wii_balance_board_data env g in
  (delta_time, r, inactivity_check env current_time g).

End BlockPass.

(** ** Coin placement *)




Section CoinPlacement.

Variable env : Env.




End CoinPlacement.

(** ** The selection screens *)

(** The selection timer has reached [MENU_SELECT_TIME_REQUIRED]. *)
Definition held_long_enough (timer : f32) : bool :=
  (F64.of_f32 timer >=? MENU_SELECT_TIME_REQUIRED)%f64.

(** How a frame of a selection screen turns the timer [timer] into [timer']:
    back to zero when the choice has changed, [delta_time] more while a choice
    is held (a new choice starts at zero and gets the time of its first
    frame). *)
Definition timer_follows (changed held : bool) (timer delta_time timer' : f32)
    : Prop :=
  match changed, held with
  | true, false => timer' = #0%f32
  | true, true => timer' = (#0 + delta_time)%f32
  | false, true => timer' = (timer + delta_time)%f32
  | false, false => timer' = timer
  end.

(** What the selection screens leave alone while no choice is committed. *)
Definition but_menu (g : Game) :=
  (board g, shared g, dodge g, session g, trans g, locals g, world g).

(** ** Winning *)

(** What the win block reads of the state it is entered in. *)
Definition win_inputs (g : Game) :=
  (game_start_time g, win_record g, selected_player_index g, tick_calls g,
   confetti g).

(** A particle as [init_confetti] makes it for a burst at ([x0], [y0]). *)
Definition fresh_particle (x0 y0 : f32) (c : ConfettiParticle) : Prop :=
  cx c = x0 /\ cy c = y0 /\ lifetime c = CONFETTI_LIFETIME.

(** The confetti pool is the array of [NUM_CONFETTI] particles. *)
Definition confetti_pool (g : Game) : Prop :=
  length (confetti g) = Z.to_nat NUM_CONFETTI.

(** The whole confetti pool has just been launched at ([x0], [y0]). *)
Definition confetti_launched (x0 y0 : f32) (g : Game) : Prop :=
  confetti_pool g
  /\ forall i c, confetti g !! i = Some c -> fresh_particle x0 y0 c.

(** A player profile is selected, the win counter is below [INT_MAX], and the
    confetti pool has its size. *)
Definition ready_to_win (g : Game) : Prop :=
  0 <= selected_player_index g < num_players
  /\ INT_MIN <= total_wins g < INT_MAX
  /\ confetti_pool g.

(** The reading of the win handling that covers the three modes alike:
    whenever the [switch] takes a game that is [ready_to_win] from one of
    them into Winning, the win has been counted and the confetti launched at
    the avatar. *)
Definition win_counted_on_entering (env : Env) : Prop :=
  forall (fuel : nat) (delta_time : f32) (b : bool) (g g' : Game),
    state g = GAME_BALANCE_HOLD \/ state g = GAME_COIN_COLLECTOR
    \/ state g = GAME_DODGE ->
    ready_to_win g ->
    switch_state env fuel delta_time g = Some (b, g') ->
    state g' = WINNING ->
    total_wins g' = total_wins g + 1
    /\ confetti_launched (x (player g')) (y (player g')) g'.

(** ** The avatar *)


(** The middle of the window, at rest. *)
Definition centre : PlayerObject :=
  {| x := (#WINDOW_WIDTH / #2)%f32; y := (#WINDOW_HEIGHT / #2)%f32;
     velocity_x := #0%f32; velocity_y := #0%f32 |}.


(** ** Connecting *)

(** Every step of a connection attempt goes well. *)
Definition attempt_succeeds (a : ConnectAttempt) : bool :=
  board_found a && iface_created a && (0 <=? got_fd a)
  && fcntl_ok a && open_ok a && watch_ok a.

(** What a connection attempt leaves alone: everything but the device
    handle, its descriptor and the cursor of the attempts. *)
Definition but_device (g : Game) :=
  (poll_timeout_count g, current_total_weight g, shared g, dodge g, menu g,
   session g, trans g, locals g,
   rand_calls g, tick_calls g, poll_calls g, trace g).

(** What the frame logic outside the [switch] leaves alone when it does not
    fall back to the connecting screen. *)
Definition but_input_time (g : Game) :=
  (board g, shared g, dodge g, menu g, session g, trans g, world g,
   state g, player g, sample g, last_frame_time g, pulse_timer g).

(** ** Falling back *)

(** The inactivity check is in force: the game is past the transition
    screen and the weight on the board is below the threshold. *)
Definition nobody_on_board (g : Game) : bool :=
  negb (bool_decide (state g = CONNECTING))
  && negb (bool_decide (state g = TRANSITIONING))
  && (current_total_weight g <? MIN_TOTAL_WEIGHT)%f32.

(** The last input is more than [INACTIVITY_TIMEOUT_SECONDS] old. *)
Definition input_expired (current_time : Z) (g : Game) : bool :=
  u32 (current_time - last_input_time g) >? INACTIVITY_TIMEOUT_SECONDS * 1000.

(** The win animation has been shown for more than
    [WIN_ANIMATION_DURATION]. *)
Definition animation_over (now : Z) (g : Game) : bool :=
  u32 (now - win_message_start_time g) >? WIN_ANIMATION_DURATION.

(** ** The block pool *)

(** The block that [spawn_dodge_block] puts into a free slot: just beyond
    the right edge, at the height the random number [r] gives. *)
Definition new_block (r : Z) (block_speed : f32) : DodgeBlock :=
  {| bx := #(WINDOW_WIDTH + BLOCK_WIDTH)%f32;
     by_ := #(r `rem` (WINDOW_HEIGHT - BLOCK_HEIGHT))%f32;
     speed := block_speed; active := true |}.

(** Slot [i] is the first free slot of the pool. *)
Definition first_free (pool : list DodgeBlock) (i : nat) : Prop :=
  (i < Z.to_nat MAX_DODGE_BLOCKS)%nat
  /\ (exists b, pool !! i = Some b /\ active b = false)
  /\ forall j b, (j < i)%nat -> pool !! j = Some b -> active b = true.

(** No slot of the pool is free. *)
Definition pool_full (pool : list DodgeBlock) : Prop :=
  forall j b, (j < Z.to_nat MAX_DODGE_BLOCKS)%nat ->
    pool !! j = Some b -> active b = true.

(** The number of active blocks. *)
Fixpoint active_blocks (pool : list DodgeBlock) : nat :=
  match pool with
  | [] => 0
  | b :: pool' => (if active b then 1 else 0) + active_blocks pool'
  end.

(** ** Confetti *)

(** A particle leaves the burst with a speed of at most half
    [CONFETTI_SPREAD] on each axis and one of the three colours. *)
Definition burst_particle (x0 y0 : f32) (c : ConfettiParticle) : Prop :=
  cx c = x0 /\ cy c = y0 /\ lifetime c = CONFETTI_LIFETIME
  /\ (#(-150) <=? cvx c)%f32 && (cvx c <? #150)%f32 = true
  /\ (#(-150) <=? cvy c)%f32 && (cvy c <? #150)%f32 = true
  /\ 0 <= color c < 3.

(** One frame of a particle: a live particle moves with its velocity, falls
    with [CONFETTI_GRAVITY] and ages; a dead one stays as it is. *)
Definition particle_step (delta_time : f32) (c : ConfettiParticle)
    : ConfettiParticle :=
  if (lifetime c >? #0)%f32 then
    {| cx := (cx c + cvx c * delta_time)%f32;
       cy := (cy c + cvy c * delta_time)%f32;
       cvx := cvx c;
       cvy := (cvy c + CONFETTI_GRAVITY * delta_time)%f32;
       lifetime := (lifetime c - delta_time)%f32;
       color := color c |}
  else c.

(** ** Balance-Hold *)

(** The speed of the target on each axis, by difficulty. *)
Definition target_speed (d : Difficulty) : f32 :=
  match d with
  | EASY => BH_TARGET_MOVEMENT_SPEED_EASY
  | MEDIUM => BH_TARGET_MOVEMENT_SPEED_MEDIUM
  | HARD => BH_TARGET_MOVEMENT_SPEED_HARD
  end.

(** A fresh target lies a whole avatar away from every edge of the window. *)
Definition target_in_bounds (t : TargetObject) : bool :=
  (#GAME_OBJECT_SIZE <=? tx t)%f32
  && (tx t <? #(WINDOW_WIDTH - GAME_OBJECT_SIZE))%f32
  && (#GAME_OBJECT_SIZE <=? ty t)%f32
  && (ty t <? #(WINDOW_HEIGHT - GAME_OBJECT_SIZE))%f32.

(** The target after the move of one frame, its velocity reversed on an axis
    on which it has come within [BH_GRACE_ZONE_RADIUS] of an edge. *)
Definition target_after (delta_time : f32) (t : TargetObject) : TargetObject :=
  let nx := (tx t + tvelocity_x t * delta_time)%f32 in
  let ny := (ty t + tvelocity_y t * delta_time)%f32 in
  {| tx := nx; ty := ny;
     tvelocity_x :=
       if (nx <? #BH_GRACE_ZONE_RADIUS)%f32
          || (nx >? #(WINDOW_WIDTH - BH_GRACE_ZONE_RADIUS))%f32
       then (tvelocity_x t * #(-1))%f32 else tvelocity_x t;
     tvelocity_y :=
       if (ny <? #BH_GRACE_ZONE_RADIUS)%f32
          || (ny >? #(WINDOW_HEIGHT - BH_GRACE_ZONE_RADIUS))%f32
       then (tvelocity_y t * #(-1))%f32 else tvelocity_y t |}.

(** A board that connects at the first attempt. *)
Definition board_connects : ConnectAttempt :=
  {| board_found := true; iface_created := true; got_fd := 5;
     fcntl_ok := true; open_ok := true; watch_ok := true |}.

(** Overlap of two rectangles with positive area, as SDL computes it. *)
Definition rects_overlap (A B : SDL_Rect) : bool :=
  (0 <? rw A) && (0 <? rh A) && (0 <? rw B) && (0 <? rh B)
  && (Z.max (rx A) (rx B) <? Z.min (rx A + rw A) (rx B + rw B))
  && (Z.max (ry A) (ry B) <? Z.min (ry A + rh A) (ry B + rh B)).

(** [hypotf] through a double-precision square root. *)
Definition hypot_sqrt (a b : f32) : f32 :=
  F64.to_f32
    (SFsqrt 53 1024
       (F64.of_f32 a * F64.of_f32 a + F64.of_f32 b * F64.of_f32 b)%f64).

(** Somebody standing evenly on the board: 4000 units of weight, centre of
    balance in the middle. *)
Definition standing_centred : xwii_event := XWII_EVENT_BALANCE_BOARD 1000 1000 1000 1000.

(** Somebody leaning to the right. *)
Definition leaning_right : xwii_event := XWII_EVENT_BALANCE_BOARD 2000 2000 500 500.

(** An outside world in which the clock advances by [tick] milliseconds at
    every reading and the board answers every poll as [polls] says; there
    are no saved files. *)
Definition world_of (tick : Z) (polls : nat -> PollOutcome) : Env :=
  {| rand_seq := fun n => (N.of_nat n * 7919 + 13)%N;
     ticks_seq := fun n => Z.of_nat n * tick;
     poll_seq := polls;
     connect_seq := fun _ => board_connects;
     hypot := hypot_sqrt;
     SDL_HasIntersection := rects_overlap;
     score_file := fun _ => None;
     wins_file := fun _ => None;
     dodge_score_file := fun _ => None;
     target_sound_loaded := true |}.

Definition slow_clock_centred : Env :=
  world_of 3000 (fun _ => PollReady [standing_centred]).

(** The globals with a connected board. *)
Definition connected : Game := set_fd 5 (set_iface true rest_at_centre).

(** The Winning screen after a Dodge round lost before any block was passed,
    the spawn interval already down to one second. *)
Definition lost_round : Game :=
  set_dynamic_block_spawn_interval #1%f32 (set_state WINNING connected).

(** A Dodge round in which the block of slot 0 is about to leave the window
    (its right edge is at 10), far above the avatar. *)
Definition block_leaving : DodgeBlock :=
  {| bx := #(-40)%f32; by_ := #100%f32; speed := #300%f32; active := true |}.

Definition dodge_round : Game :=
  set_dodge_blocks (<[0%nat := block_leaving]> (dodge_blocks connected))
    (set_state GAME_DODGE connected).

(** A Dodge round of the second profile in which the blocks of slots 0 and 2
    are about to leave the window and slot 1 is free. *)
Definition two_blocks_leaving : Game :=
  set_selected_player_index 1
    (set_dodge_blocks
       (<[2%nat := block_leaving]>
          (<[0%nat := block_leaving]> (dodge_blocks connected)))
       (set_state GAME_DODGE connected)).


(** The player screen with somebody standing in the middle for 1.4 s. *)
Definition player_screen : Game :=
  set_menu_select_timer (#14 / #10)%f32
    (set_player_selection_choice 2
       (set_current_total_weight #4000%f32
          (set_state PLAYER_SELECTION connected))).

(** A Dodge round of the second profile in which the block of slot 0
    reaches the avatar within the next three seconds. *)
Definition block_approaching : DodgeBlock :=
  {| bx := #1900%f32; by_ := #500%f32; speed := #300%f32; active := true |}.

Definition dodge_collision : Game :=
  set_selected_player_index 1
    (set_dodge_blocks (<[0%nat := block_approaching]> (dodge_blocks connected))
       (set_state GAME_DODGE connected)).

(** Balance-Hold played by the second profile, nine targets out of ten
    done, the avatar resting on the tenth for 1.4 s; the round started at
    3 s and the clock has been read five times. *)
Definition hold_last_target : Game :=
  set_tick_calls 5
    (set_game_start_time 3000
       (set_hold_timer (#14 / #10)%f32
          (set_coins 9
             (set_current_game_target 10
                (set_balance_hold_target
                   {| tx := #960%f32; ty := #540%f32;
                      tvelocity_x := #0%f32; tvelocity_y := #0%f32 |}
                   (set_selected_player_index 1
                      (set_state GAME_BALANCE_HOLD connected))))))).

(** Hard Coin-Collector, the second profile playing, three coins collected,
    a tenth of a second left on the countdown. *)
Definition coin_countdown : Game :=
  set_coin_timer (#1 / #10)%f32
    (set_coins 3
       (set_selected_player_index 1
          (set_current_difficulty HARD
             (set_current_game_target 30
                (set_state GAME_COIN_COLLECTOR connected))))).

(** A light touch on the board: 400 units of weight, under the gate. *)
Definition light_touch : xwii_event := XWII_EVENT_BALANCE_BOARD 100 100 100 100.

Definition fast_clock_touched : Env :=
  world_of 16 (fun _ => PollReady [light_touch]).

(** A board that has stopped answering. *)
Definition fast_clock_silent : Env := world_of 16 (fun _ => PollTimedOut).

(** The main menu with 99 polls in a row already timed out. *)
Definition menu_after_99_timeouts : Game :=
  set_poll_timeout_count 99 (set_state MAIN_MENU connected).

(** The main menu with the board handle gone. *)
Definition menu_without_board : Game :=
  set_state MAIN_MENU rest_at_centre.

(** * Tactics *)

(** Projections of the setters compute. *)
Ltac game_simpl :=
  cbn [fst snd
       board with_board iface set_iface fd set_fd poll_timeout_count
       set_poll_timeout_count current_total_weight
       set_current_total_weight shared with_shared confetti set_confetti
       lowest_time_to_win set_lowest_time_to_win total_wins
       set_total_wins trail_points set_trail_points trail_head
       set_trail_head coin_collector_coins set_coin_collector_coins
       coin_timer set_coin_timer dodge with_dodge dodge_blocks
       set_dodge_blocks block_spawn_timer set_block_spawn_timer
       current_block_speed set_current_block_speed dodge_score
       set_dodge_score dodge_high_score set_dodge_high_score
       dynamic_block_spawn_interval set_dynamic_block_spawn_interval
       menu with_menu menu_select_timer set_menu_select_timer
       selected_game set_selected_game current_difficulty
       set_current_difficulty difficulty_selection
       set_difficulty_selection selected_player_index
       set_selected_player_index player_selection_choice
       set_player_selection_choice session with_session
       current_game_target set_current_game_target hold_timer
       set_hold_timer coins set_coins game_start_time
       set_game_start_time win_message_start_time
       set_win_message_start_time beeps_played set_beeps_played
       balance_hold_target set_balance_hold_target trans with_trans
       transition_start_time set_transition_start_time shake_intensity
       set_shake_intensity connection_start_time
       set_connection_start_time locals with_locals state set_state
       player set_player x_cob set_x_cob y_cob set_y_cob last_frame_time
       set_last_frame_time last_input_time set_last_input_time
       pulse_timer set_pulse_timer world with_world rand_calls
       set_rand_calls tick_calls set_tick_calls poll_calls
       set_poll_calls connect_calls set_connect_calls trace set_trace] in *.

(** Equalities between the tuple-valued projections, component by component. *)
Ltac open_tuples :=
  repeat match goal with
         | H : (_, _) = (_, _) |- _ => injection H as H ?
         end.

Ltac tuple_eq :=
  open_tuples;
  repeat match goal with
         | |- (_, _) = (_, _) => apply f_equal2
         end;
  try assumption; try congruence.

(** [f] is one of the elementary state updates. *)
Ltac is_update f :=
  lazymatch f with
  | set_iface _ => idtac
  | set_fd _ => idtac
  | set_poll_timeout_count _ => idtac
  | set_current_total_weight _ => idtac
  | set_confetti _ => idtac
  | set_lowest_time_to_win _ => idtac
  | set_total_wins _ => idtac
  | set_trail_points _ => idtac
  | set_trail_head _ => idtac
  | set_coin_collector_coins _ => idtac
  | set_coin_timer _ => idtac
  | set_dodge_blocks _ => idtac
  | set_block_spawn_timer _ => idtac
  | set_current_block_speed _ => idtac
  | set_dodge_score _ => idtac
  | set_dodge_high_score _ => idtac
  | set_dynamic_block_spawn_interval _ => idtac
  | set_menu_select_timer _ => idtac
  | set_selected_game _ => idtac
  | set_current_difficulty _ => idtac
  | set_difficulty_selection _ => idtac
  | set_selected_player_index _ => idtac
  | set_player_selection_choice _ => idtac
  | set_current_game_target _ => idtac
  | set_hold_timer _ => idtac
  | set_coins _ => idtac
  | set_game_start_time _ => idtac
  | set_win_message_start_time _ => idtac
  | set_beeps_played _ => idtac
  | set_balance_hold_target _ => idtac
  | set_transition_start_time _ => idtac
  | set_shake_intensity _ => idtac
  | set_connection_start_time _ => idtac
  | set_state _ => idtac
  | set_player _ => idtac
  | set_x_cob _ => idtac
  | set_y_cob _ => idtac
  | set_last_frame_time _ => idtac
  | set_last_input_time _ => idtac
  | set_pulse_timer _ => idtac
  | set_rand_calls _ => idtac
  | set_tick_calls _ => idtac
  | set_poll_calls _ => idtac
  | set_connect_calls _ => idtac
  | set_trace _ => idtac
  | emit _ => idtac
  end.

(** [peel] strips the outermost state update from [P (f X) = _] when [P]
    does not look at what [f] writes.  The fact is stated for a variable
    state and then used by rewriting, so that no large term is compared by
    computation. *)
Ltac peel :=
  match goal with
  | |- ?p (?c (?f ?X)) = _ =>
      lazymatch type of X with Game => idtac end;
      lazymatch type of (f X) with Game => idtac end;
      lazymatch type of (c (f X)) with Game => fail | _ => idtac end;
      is_update f;
      let H := fresh in
      assert (H : forall s, p (c (f s)) = p (c s)) by (intro; reflexivity);
      rewrite (H X); clear H
  | |- ?P (?f ?X) = _ =>
      lazymatch type of X with Game => idtac end;
      is_update f;
      let H := fresh in
      assert (H : forall s, P (f s) = P s) by (intro; reflexivity);
      rewrite (H X); clear H
  end.

(** [hit] reads a field through the update that has just written it. *)
Ltac hit :=
  match goal with
  | |- ?p (?c (?f ?X)) = ?v =>
      lazymatch type of X with Game => idtac end;
      lazymatch type of (f X) with Game => idtac end;
      lazymatch type of (c (f X)) with Game => fail | _ => idtac end;
      is_update f;
      let H := fresh in
      assert (H : forall s, p (c (f s)) = v) by (intro; reflexivity);
      rewrite (H X); clear H
  | |- ?P (?f ?X) = ?v =>
      lazymatch type of X with Game => idtac end;
      is_update f;
      let H := fresh in
      assert (H : forall s, P (f s) = v) by (intro; reflexivity);
      rewrite (H X); clear H
  end.


(** The tuple-valued projections, unfolded. *)
Ltac unfold_tuples :=
  unfold but_avatar, but_dodge_round, but_coin_slots, but_hold_target,
    but_coin_round, but_confetti, but_win, but_hold_step, but_coin_step,
    but_game_case, but_reset, but_block_pass, but_spawned_block,
    locals_but_cob, world_but_polls in *;
  unfold avatar, sample, win_record in *.

(** [peel_with lem] strips a procedure call [f X] for which
    [lem : forall s, Q (f s) = Q s] is known, when what the goal reads is
    part of [Q]. *)
Ltac peel_with lem :=
  match goal with
  | |- ?p (?c (?f ?X)) = _ =>
      lazymatch type of X with Game => idtac end;
      lazymatch type of (f X) with Game => idtac end;
      lazymatch type of (c (f X)) with Game => fail | _ => idtac end;
      let H := fresh in
      assert (H : forall s, p (c (f s)) = p (c s))
        by (let s := fresh "s" in let K := fresh "K" in
            intro s; pose proof (lem s) as K;
            revert K; generalize (f s); intros ? K;
            unfold_tuples; open_tuples;
            first [assumption | congruence]);
      rewrite (H X); clear H
  | |- ?P (?f ?X) = _ =>
      lazymatch type of X with Game => idtac end;
      let H := fresh in
      assert (H : forall s, P (f s) = P s)
        by (let s := fresh "s" in let K := fresh "K" in
            intro s; pose proof (lem s) as K;
            revert K; generalize (f s); intros ? K;
            unfold_tuples; open_tuples;
            first [assumption | congruence]);
      rewrite (H X); clear H
  end.

(** Splits [P (...) = P g] for a tuple [P] into its components. *)
Ltac by_components :=
  unfold_tuples;
  repeat match goal with
         | |- (_, _) = (_, _) => apply f_equal2
         end.

(** Walks down a chain of updates and branches. *)
Ltac keep_steps :=
  repeat first
    [ match goal with |- ?a = ?a => reflexivity end
    | match goal with
      | |- _ (_ (if ?b then _ else _)) = _ => destruct b
      | |- _ (if ?b then _ else _) = _ => destruct b
      end
    | peel ].

(** One stage of a procedure: a short chain of updates, branches and known
    calls applied to a state variable. *)
Ltac stage known :=
  unfold rand, SDL_GetTicks, emit; cbn [fst snd]; cbv zeta;
  by_components;
  repeat first [ progress keep_steps | known ].

(** Walks through a procedure written as a sequence of [let]s, one stage at
    a time; each intermediate state becomes a variable of which only
    [P s = P g] is remembered. *)
Ltac walk known :=
  lazymatch goal with
  | |- ?P (let x := ?E in @?B x) = ?P ?g =>
      lazymatch type of E with
      | Game =>
          let H := fresh "K" in
          assert (H : P E = P g) by (stage known);
          rewrite <- H; clear H;
          let e := fresh "g" in
          generalize E; intro e;
          lazymatch goal with
          | |- ?P' (let x := ?v in @?B' x) = ?R =>
              change (P' (B' v) = R); cbv beta
          end;
          walk known
      | _ =>
          let e := fresh "v" in
          generalize E; intro e;
          lazymatch goal with
          | |- ?P' (let x := ?v in @?B' x) = ?R =>
              change (P' (B' v) = R); cbv beta
          end;
          walk known
      end
  | |- ?P (let '(_, _) := ?F in _) = ?P ?g =>
      let H := fresh "K" in
      assert (H : P (snd F) = P g) by (stage known);
      rewrite <- H; clear H;
      let r := fresh "r" in
      let e := fresh "g" in
      destruct F as [r e]; cbn [snd]; cbv beta iota;
      walk known
  | |- ?P (if ?c then _ else _) = _ => destruct c; walk known
  | |- _ => stage known
  end.

(** * Properties *)

(** ** Facts about the floating-point operations *)

Section FloatFacts.

Lemma SFcompare_swap (a b : spec_float) :
  SFcompare b a = option_map CompOpp (SFcompare a b).
Proof.
  destruct a as [sa|sa| |sa ma ea], b as [sb|sb| |sb mb eb]; simpl;
    try reflexivity; try (destruct sa, sb; reflexivity);
    try (destruct sa; reflexivity); try (destruct sb; reflexivity).
  destruct sa, sb; simpl; try reflexivity;
    rewrite (Z.compare_antisym ea eb);
    destruct (ea ?= eb)%Z; simpl; try reflexivity;
    rewrite (Pos.compare_cont_antisym ma mb Eq); reflexivity.
Qed.

(** [a < b] excludes [b < a]. *)
Lemma ltb_asym (a b : f32) : (a <? b)%f32 = true -> (b <? a)%f32 = false.
Proof.
  unfold F32.ltb, SFltb. rewrite (SFcompare_swap a b).
  destruct (SFcompare a b) as [[]|]; simpl; congruence.
Qed.

Lemma sub_diag (s : bool) (m : positive) (e : Z) :
  (S754_finite s m e - S754_finite s m e)%f32 = S754_zero false.
Proof.
  unfold F32.sub, SFsub. rewrite Z.min_id. unfold shl_align.
  replace (IntDef.Z.sub e e) with 0 by (symmetry; apply Z.sub_diag).
  simpl fst.
  replace (IntDef.Z.sub (cond_Zopp s (Z.pos m)) (cond_Zopp s (Z.pos m))) with 0
    by (symmetry; apply Z.sub_diag).
  reflexivity.
Qed.

Lemma mul_zero_l (a b : f32) :
  F32.is_zero a = true -> F32.is_finite b = true -> F32.is_zero (a * b)%f32 = true.
Proof. destruct a, b; simpl; congruence. Qed.

Lemma sub_zero_zero (a b : f32) :
  F32.is_zero a = true -> F32.is_zero b = true -> F32.is_zero (a - b)%f32 = true.
Proof. destruct a as [[]| | |], b as [[]| | |]; simpl; congruence. Qed.

Lemma add_zero_zero (a b : f32) :
  F32.is_zero a = true -> F32.is_zero b = true -> F32.is_zero (a + b)%f32 = true.
Proof. destruct a as [[]| | |], b as [[]| | |]; simpl; congruence. Qed.

Lemma add_zero_r (s : bool) (m : positive) (e : Z) (z : f32) :
  F32.is_zero z = true -> (S754_finite s m e + z)%f32 = S754_finite s m e.
Proof. destruct z; simpl; congruence. Qed.

Lemma is_zero_finite (a : f32) : F32.is_zero a = true -> F32.is_finite a = true.
Proof. destruct a; simpl; congruence. Qed.

End FloatFacts.

(** ** C1: the motion smoother and the size of the time step *)

Lemma player_update_player_position (tx ty dt : f32) (g : Game) :
  player (update_player_position tx ty dt g) = spring_step (player g) tx ty dt.
Proof. reflexivity. Qed.

Lemma player_iter_update (tx ty dt : f32) (n : nat) (g : Game) :
  player (Nat.iter n (update_player_position tx ty dt) g)
  = Nat.iter n (fun p => spring_step p tx ty dt) (player g).
Proof.
  induction n as [|n IH]; [reflexivity|].
  now rewrite !Nat.iter_succ, player_update_player_position, IH.
Qed.

(** At rest on the target and inside the field, a step of any finite size
    leaves the position where it is and the avatar at rest. *)
Lemma spring_step_rest (p : PlayerObject) (dt : f32) :
  inside_play_field p = true -> at_rest p = true -> F32.is_finite dt = true ->
  let p' := spring_step p (x p) (y p) dt in
  x p' = x p /\ y p' = y p /\ at_rest p' = true.
Proof.
  destruct p as [px py vx vy]. unfold inside_play_field, at_rest.
  cbn [x y velocity_x velocity_y].
  rewrite !andb_true_iff, !negb_true_iff.
  intros [[[[[Fx Lx] Hx] Fy] Ly] Hy] [Zx Zy] Fdt.
  destruct px as [sx| | |sx mx ex]; try discriminate Fx;
    [vm_compute in Lx; discriminate Lx|].
  destruct py as [sy| | |sy my ey]; try discriminate Fy;
    [vm_compute in Ly; discriminate Ly|].
  unfold spring_step. cbn [x y velocity_x velocity_y].
  rewrite !sub_diag.
  assert (Kfin : F32.is_finite SPRING_CONSTANT = true) by reflexivity.
  assert (Dfin : F32.is_finite DAMPING_FACTOR = true) by reflexivity.
  set (fx := (S754_zero false * SPRING_CONSTANT - vx * DAMPING_FACTOR)%f32).
  set (fy := (S754_zero false * SPRING_CONSTANT - vy * DAMPING_FACTOR)%f32).
  assert (Zfx : F32.is_zero fx = true).
  { apply sub_zero_zero; apply mul_zero_l; auto. }
  assert (Zfy : F32.is_zero fy = true).
  { apply sub_zero_zero; apply mul_zero_l; auto. }
  set (vx' := (vx + fx * dt)%f32). set (vy' := (vy + fy * dt)%f32).
  assert (Zvx' : F32.is_zero vx' = true).
  { apply add_zero_zero; [|apply mul_zero_l]; auto. }
  assert (Zvy' : F32.is_zero vy' = true).
  { apply add_zero_zero; [|apply mul_zero_l]; auto. }
  rewrite (add_zero_r sx mx ex) by (apply mul_zero_l; auto).
  rewrite (add_zero_r sy my ey) by (apply mul_zero_l; auto).
  rewrite Lx, Ly. cbv zeta. rewrite Hx, Hy. simpl.
  rewrite Zvx', Zvy'. auto.
Qed.

Lemma inside_play_field_ext (p q : PlayerObject) :
  x p = x q -> y p = y q -> inside_play_field p = inside_play_field q.
Proof. unfold inside_play_field. now intros -> ->. Qed.

Lemma spring_steps_rest (p : PlayerObject) (dt : f32) (n : nat) :
  inside_play_field p = true -> at_rest p = true -> F32.is_finite dt = true ->
  let p' := Nat.iter n (fun q => spring_step q (x p) (y p) dt) p in
  x p' = x p /\ y p' = y p /\ at_rest p' = true.
Proof.
  intros Hin Hrest Hdt. induction n as [|n IH]; [now cbn|].
  cbn zeta in *. rewrite Nat.iter_succ.
  set (q := Nat.iter n _ p) in *. destruct IH as (Hx & Hy & Hrest').
  assert (Hin' : inside_play_field q = true)
    by now rewrite (inside_play_field_ext q p).
  destruct (spring_step_rest q dt Hin' Hrest' Hdt) as (Hx' & Hy' & Hr').
  rewrite Hx, Hy in Hx', Hy', Hr'. auto.
Qed.

(** C1, counterexample.  One step of the motion smoother with [dt = 0.1] and
    ten steps with [dt = 0.01] do not lead to the same position, even up to
    five pixels: from rest at the centre (960, 540) with the target 100
    pixels to the right, one step lands on x = 970 and ten steps on
    x = 964.71. *)
Lemma step_size_matters :
  ~ (forall (g : Game) (target_x target_y : f32),
       step_size_independent #5%f32 g target_x target_y).
Proof.
  intros H.
  specialize (H rest_at_centre #1060%f32 #540%f32).
  vm_compute in H. discriminate H.
Qed.

(** C1, amended.  [update_player_position] takes one explicit-Euler step of
    the spring-damper scaled by the real [dt]; the outcome depends on the
    step size, except at the fixed point: when the avatar is at rest on its
    target inside the play field, one step with [dt = 0.1] and ten steps with
    [dt = 0.01] give exactly the same position, namely the target. *)
Theorem smoother_at_rest_ignores_step_size (g : Game) :
  inside_play_field (player g) = true ->
  at_rest (player g) = true ->
  step_size_independent #0%f32 g (x (player g)) (y (player g))
  /\ x (player (update_player_position (x (player g)) (y (player g)) dt_tenth g))
     = x (player g)
  /\ y (player (update_player_position (x (player g)) (y (player g)) dt_tenth g))
     = y (player g).
Proof.
  intros Hin Hrest.
  assert (F1 : F32.is_finite dt_tenth = true) by reflexivity.
  assert (F2 : F32.is_finite dt_hundredth = true) by reflexivity.
  pose proof (spring_steps_rest (player g) dt_tenth 1 Hin Hrest F1) as (X1 & Y1 & _).
  pose proof (spring_steps_rest (player g) dt_hundredth 10 Hin Hrest F2) as (X2 & Y2 & _).
  cbn zeta in X1, Y1, X2, Y2.
  rewrite <- player_iter_update in X1, Y1, X2, Y2.
  change (Nat.iter 1 ?f ?a) with (f a) in X1, Y1.
  split; [|split; assumption].
  unfold step_size_independent, same_position_within.
  rewrite X1, Y1, X2, Y2.
  unfold inside_play_field in Hin.
  rewrite !andb_true_iff, !negb_true_iff in Hin.
  destruct Hin as [[[[[Fx Lx] _] Fy] Ly] _].
  destruct (x (player g)) as [sx| | |sx mx ex]; try discriminate Fx;
    [vm_compute in Lx; discriminate Lx|].
  destruct (y (player g)) as [sy| | |sy my ey]; try discriminate Fy;
    [vm_compute in Ly; discriminate Ly|].
  now rewrite !sub_diag.
Qed.

Lemma smoother_at_rest_witness :
  inside_play_field (player rest_at_centre) = true
  /\ at_rest (player rest_at_centre) = true
  /\ step_size_independent #0%f32 rest_at_centre
       (x (player rest_at_centre)) (y (player rest_at_centre)).
Proof.
  split; [reflexivity|]. split; [reflexivity|].
  apply (smoother_at_rest_ignores_step_size rest_at_centre); reflexivity.
Defined.

(** ** The sensor reader: C6 (weight gate and dead zone), C4 (time-outs) *)

Section SensorReader.

Variable env : Env.

(** A weight strictly below the threshold is in particular not above it. *)
Lemma below_threshold_gated (abs0 abs1 abs2 abs3 : Z) :
  (event_total_weight abs0 abs1 abs2 abs3 <? MIN_TOTAL_WEIGHT)%f32 = true ->
  gated (XWII_EVENT_BALANCE_BOARD abs0 abs1 abs2 abs3) = true.
Proof. intros H. simpl. now rewrite (ltb_asym _ _ H). Qed.

Lemma dead_zone_is_filtered (v : f32) : dead_zone_filtered (dead_zone v).
Proof.
  unfold dead_zone_filtered, dead_zone.
  destruct (F64.of_f32 (F32.abs v) <? DEAD_ZONE)%f64 eqn:E; auto.
Qed.

Lemma balance_board_event_gated abs0 abs1 abs2 abs3 (g : Game) :
  gated (XWII_EVENT_BALANCE_BOARD abs0 abs1 abs2 abs3) = true ->
  balance_board_event abs0 abs1 abs2 abs3 g
  = (false, set_current_total_weight (event_total_weight abs0 abs1 abs2 abs3) g).
Proof.
  unfold gated, balance_board_event. rewrite negb_true_iff.
  cbn [current_total_weight board set_current_total_weight with_board].
  unfold event_total_weight. now intros ->.
Qed.

(** An event that passes the gate reports each component through the dead
    zone, one axis independently of the other. *)
Lemma balance_board_event_passed abs0 abs1 abs2 abs3 (g : Game) :
  gated (XWII_EVENT_BALANCE_BOARD abs0 abs1 abs2 abs3) = false ->
  let r := balance_board_event abs0 abs1 abs2 abs3 g in
  fst r = true
  /\ x_cob (snd r) = dead_zone (event_raw_x abs0 abs1 abs2 abs3)
  /\ y_cob (snd r) = dead_zone (event_raw_y abs0 abs1 abs2 abs3).
Proof.
  unfold gated, balance_board_event. rewrite negb_false_iff.
  cbn [current_total_weight board set_current_total_weight with_board].
  unfold event_total_weight. intros ->.
  cbn [x_cob y_cob locals set_x_cob set_y_cob with_locals].
  unfold dead_zone.
  fold (event_raw_x abs0 abs1 abs2 abs3). fold (event_raw_y abs0 abs1 abs2 abs3).
  destruct (F64.of_f32 (F32.abs (event_raw_x abs0 abs1 abs2 abs3)) <? DEAD_ZONE)%f64;
    cbn [x_cob y_cob locals set_x_cob set_y_cob with_locals];
    destruct (F64.of_f32 (F32.abs (event_raw_y abs0 abs1 abs2 abs3)) <? DEAD_ZONE)%f64;
    cbn [x_cob y_cob locals set_x_cob set_y_cob with_locals fst snd]; auto.
Qed.

Lemma dispatch_loop_gated (events : list xwii_event) :
  Forall (fun ev => gated ev = true) events ->
  forall (got_data : bool) (g : Game),
    let r := dispatch_loop events got_data g in
    fst r = got_data /\ x_cob (snd r) = x_cob g /\ y_cob (snd r) = y_cob g.
Proof.
  induction 1 as [|ev events Hev _ IH]; intros got_data g; [now cbn|].
  destruct ev as [abs0 abs1 abs2 abs3|]; cbn [dispatch_loop].
  - rewrite (balance_board_event_gated _ _ _ _ g Hev). cbn [orb].
    apply (IH got_data (set_current_total_weight _ g)).
  - apply IH.
Qed.

Lemma dispatch_loop_filtered (events : list xwii_event) (got_data : bool) (g : Game) :
  (got_data = true -> dead_zone_filtered (x_cob g) /\ dead_zone_filtered (y_cob g)) ->
  let r := dispatch_loop events got_data g in
  fst r = true -> dead_zone_filtered (x_cob (snd r)) /\ dead_zone_filtered (y_cob (snd r)).
Proof.
  revert got_data g.
  induction events as [|ev events IH]; intros got_data g Hg; [exact Hg|].
  destruct ev as [abs0 abs1 abs2 abs3|]; cbn [dispatch_loop]; [|now apply IH].
  destruct (gated (XWII_EVENT_BALANCE_BOARD abs0 abs1 abs2 abs3)) eqn:Hev.
  - rewrite (balance_board_event_gated _ _ _ _ g Hev). cbn [orb].
    apply IH. exact Hg.
  - destruct (balance_board_event_passed _ _ _ _ g Hev) as (Hgot & Hx & Hy).
    destruct (balance_board_event abs0 abs1 abs2 abs3 g) as [got g1].
    cbn [fst snd] in Hgot, Hx, Hy. subst got. cbn [orb].
    apply IH. intros _. rewrite Hx, Hy. split; apply dead_zone_is_filtered.
Qed.

(** C6.  When the descriptor is readable (the dispatch loop runs), a poll in
    which no balance-board event passes the weight gate reports the centre of
    balance (0, 0) exactly; and whatever a poll reports has gone through the
    dead zone axis by axis: an event that passes the gate yields on each axis
    the raw component, or zero when that component's magnitude is below
    [DEAD_ZONE], whatever the other axis does, so that each reported
    component is zero or not below the dead zone. *)
Theorem weight_gate_and_dead_zone (g : Game) (events : list xwii_event) :
  iface g = true -> 0 <= fd g ->
  poll_seq env (poll_calls g) = PollReady events ->
  let r := read_wii_balance_board_data env g in
  fst r = 0
  /\ (Forall (fun ev => gated ev = true) events ->
      x_cob (snd r) = #0%f32 /\ y_cob (snd r) = #0%f32)
  /\ dead_zone_filtered (x_cob (snd r)) /\ dead_zone_filtered (y_cob (snd r))
  /\ (forall abs0 abs1 abs2 abs3 (g0 : Game),
        gated (XWII_EVENT_BALANCE_BOARD abs0 abs1 abs2 abs3) = false ->
        x_cob (snd (balance_board_event abs0 abs1 abs2 abs3 g0))
        = dead_zone (event_raw_x abs0 abs1 abs2 abs3)
        /\ y_cob (snd (balance_board_event abs0 abs1 abs2 abs3 g0))
           = dead_zone (event_raw_y abs0 abs1 abs2 abs3)).
Proof.
  intros Hif Hfd Hpoll. unfold read_wii_balance_board_data.
  rewrite Hif. replace (fd g <? 0) with false by (symmetry; apply Z.ltb_ge; lia).
  cbn [negb orb]. rewrite Hpoll.
  set (g1 := set_poll_timeout_count 0 (set_poll_calls (S (poll_calls g)) g)).
  pose proof (dispatch_loop_filtered events false g1) as Hfilt.
  pose proof (fun H => dispatch_loop_gated events H false g1) as Hgate.
  destruct (dispatch_loop events false g1) as [got g2]. cbn [fst snd] in *.
  assert (Hzero : dead_zone_filtered #0%f32) by (now left).
  refine (conj _ (conj _ (conj _ (conj _ _)))).
  - now destruct got.
  - intros H. destruct got; [now destruct (Hgate H)|now split].
  - destruct got; [apply Hfilt; [discriminate|reflexivity]|exact Hzero].
  - destruct got; [apply Hfilt; [discriminate|reflexivity]|exact Hzero].
  - intros abs0 abs1 abs2 abs3 g0 H.
    split; apply (balance_board_event_passed _ _ _ _ g0 H).
Qed.

Lemma read_timed_out (g : Game) :
  iface g = true -> 0 <= fd g ->
  poll_seq env (poll_calls g) = PollTimedOut ->
  read_wii_balance_board_data env g
  = (if poll_timeout_count g + 1 >=? POLL_TIMEOUT_THRESHOLD then -1 else 0,
     set_poll_timeout_count (poll_timeout_count g + 1)
       (set_poll_calls (S (poll_calls g)) g)).
Proof.
  intros Hif Hfd Hpoll. unfold read_wii_balance_board_data.
  rewrite Hif. replace (fd g <? 0) with false by (symmetry; apply Z.ltb_ge; lia).
  cbn [negb orb]. rewrite Hpoll.
  cbn [poll_timeout_count board set_poll_timeout_count with_board
       set_poll_calls with_world].
  now destruct (poll_timeout_count g + 1 >=? POLL_TIMEOUT_THRESHOLD).
Qed.

(** While the count stays below the threshold, timed-out polls return 0 and
    are counted. *)
Lemma reads_timed_out (n : nat) : forall (g : Game),
  iface g = true -> 0 <= fd g ->
  poll_timeout_count g + Z.of_nat n < POLL_TIMEOUT_THRESHOLD ->
  (forall j, (j < n)%nat -> poll_seq env (poll_calls g + j)%nat = PollTimedOut) ->
  let r := reads env n g in
  fst r = replicate n 0
  /\ iface (snd r) = true /\ fd (snd r) = fd g
  /\ poll_timeout_count (snd r) = poll_timeout_count g + Z.of_nat n
  /\ poll_calls (snd r) = (poll_calls g + n)%nat
  /\ locals (snd r) = locals g.
Proof.
  induction n as [|n IH]; intros g Hif Hfd Hlt Hseq.
  - cbn. repeat split; auto with lia.
  - cbn [reads]. rewrite (read_timed_out g Hif Hfd).
    2:{ specialize (Hseq O). rewrite Nat.add_0_r in Hseq. apply Hseq. lia. }
    replace (poll_timeout_count g + 1 >=? POLL_TIMEOUT_THRESHOLD) with false
      by (rewrite Z.geb_leb; symmetry; apply Z.leb_gt; lia).
    set (g1 := set_poll_timeout_count _ _).
    specialize (IH g1).
    destruct IH as (Hr & Hif' & Hfd' & Hc & Hp & Hl).
    + exact Hif.
    + exact Hfd.
    + subst g1. cbn [poll_timeout_count board set_poll_timeout_count with_board
                     set_poll_calls with_world]. lia.
    + intros j Hj. specialize (Hseq (S j)).
      subst g1. cbn [poll_calls world set_poll_timeout_count with_board
                     set_poll_calls with_world].
      replace (S (poll_calls g) + j)%nat with (poll_calls g + S j)%nat by lia.
      apply Hseq. lia.
    + destruct (reads env n g1) as [rs g2]. cbn [fst snd] in *.
      repeat split; auto.
      * now rewrite Hr.
      * rewrite Hc. subst g1.
        cbn [poll_timeout_count board set_poll_timeout_count with_board
             set_poll_calls with_world]. lia.
      * rewrite Hp. subst g1.
        cbn [poll_calls world set_poll_timeout_count with_board
             set_poll_calls with_world]. lia.
Qed.

Lemma reset_game_state_cleared (g : Game) : session_cleared (reset_game_state g).
Proof. unfold session_cleared, reset_game_state. now destruct (iface g). Qed.

Lemma back_to_connecting_cleared (g : Game) :
  state (back_to_connecting env g) = CONNECTING
  /\ session_cleared (back_to_connecting env g).
Proof.
  unfold back_to_connecting, session_cleared, reset_game_state.
  now destruct (iface g).
Qed.

(** A frame whose sensor read fails goes back to the connecting screen. *)
Lemma frame_disconnected (fuel : nat) (g : Game) :
  state g <> CONNECTING ->
  fst (read_wii_balance_board_data env (snd (begin_frame env g))) <> 0 ->
  frame env fuel g
  = Some (back_to_connecting env
            (snd (read_wii_balance_board_data env (snd (begin_frame env g))))).
Proof.
  intros Hst Hr. unfold frame.
  destruct (begin_frame env g) as [[delta_time current_time] g1] eqn:Hb.
  assert (Hst1 : state g1 = state g).
  { unfold begin_frame, SDL_GetTicks in Hb. injection Hb as _ _ <-. reflexivity. }
  cbn [snd] in Hr |- *.
  destruct (decide (state g1 = CONNECTING)) as [E|_]; [congruence|].
  destruct (read_wii_balance_board_data env g1) as [r g2]. cbn [fst snd] in *.
  destruct (Z.eqb_spec r 0); [contradiction|reflexivity].
Qed.

Lemma reads_snoc (n : nat) : forall (g : Game),
  reads env (S n) g
  = let '(rs, g1) := reads env n g in
    let '(r, g2) := read_wii_balance_board_data env g1 in
    (rs ++ [r], g2).
Proof.
  induction n as [|n IH]; intros g.
  - cbn. now destruct (read_wii_balance_board_data env g).
  - change (reads env (S (S n)) g)
      with (let '(r, g) := read_wii_balance_board_data env g in
            let '(rs, g) := reads env (S n) g in (r :: rs, g)).
    cbn [reads] in IH |- *.
    destruct (read_wii_balance_board_data env g) as [r0 g0].
    rewrite IH. destruct (reads env n g0) as [rs g1].
    now destruct (read_wii_balance_board_data env g1).
Qed.

(** C4.  A poll that times out is counted, and the call that brings the count
    of consecutive time-outs to [POLL_TIMEOUT_THRESHOLD] = 100 reports the
    disconnection: of 100 such calls in a row the first 99 return 0 and the
    last returns -1.  A frame that makes that call in any state other than
    [CONNECTING] ends in [CONNECTING] with the session context reset by
    [reset_game_state]: time-out counter, menu timer and selections, game
    target, hold timer, coin counter and beep counter cleared, player index
    back to -1, device handle dropped. *)
Theorem poll_timeouts_disconnect (fuel : nat) (g0 g : Game) :
  (* a reader with no time-out counted yet meets 100 time-outs in a row *)
  iface g0 = true -> 0 <= fd g0 -> poll_timeout_count g0 = 0 ->
  (forall j, (j < 100)%nat -> poll_seq env (poll_calls g0 + j)%nat = PollTimedOut) ->
  (* a frame starts outside CONNECTING with 99 time-outs counted and meets
     one more *)
  state g <> CONNECTING -> iface g = true -> 0 <= fd g ->
  poll_timeout_count g = POLL_TIMEOUT_THRESHOLD - 1 ->
  poll_seq env (poll_calls g) = PollTimedOut ->
  fst (reads env 100 g0) = replicate 99 0 ++ [-1]
  /\ exists g', frame env fuel g = Some g'
                /\ state g' = CONNECTING /\ session_cleared g'.
Proof.
  intros Hif0 Hfd0 Hc0 Hseq0 Hst Hif Hfd Hc Hpoll. split.
  - rewrite (reads_snoc 99 g0).
    destruct (reads_timed_out 99 g0 Hif0 Hfd0) as (Hr & Hif' & Hfd' & Hc' & Hp & _).
    { rewrite Hc0. reflexivity. }
    { intros j Hj. apply Hseq0. lia. }
    destruct (reads env 99 g0) as [rs g1]. cbn [fst snd] in *.
    rewrite (read_timed_out g1); [|congruence|lia|].
    + rewrite Hc', Hc0, Hr. reflexivity.
    + rewrite Hp. apply Hseq0. lia.
  - assert (Hb : exists dt ct g1, begin_frame env g = (dt, ct, g1)
                   /\ board g1 = board g /\ poll_calls g1 = poll_calls g
                   /\ state g1 = state g).
    { unfold begin_frame, SDL_GetTicks. eexists _, _, _. split; [reflexivity|].
      now cbn. }
    destruct Hb as (dt & ct & g1 & Hb & Hboard & Hcalls & Hst1).
    pose proof (frame_disconnected fuel g Hst) as Hframe.
    rewrite Hb in Hframe. cbn [snd] in Hframe.
    rewrite (read_timed_out g1) in Hframe.
    + replace (poll_timeout_count g1) with (POLL_TIMEOUT_THRESHOLD - 1) in Hframe
        by (now rewrite Hboard).
      cbn [fst snd] in Hframe. eexists. split; [apply Hframe; discriminate|].
      apply back_to_connecting_cleared.
    + now rewrite Hboard.
    + now rewrite Hboard.
    + now rewrite Hcalls.
Qed.

End SensorReader.

(** ** Loops keep what their bodies keep *)

Section LoopFacts.

Context {St A : Type} (P : St -> A).

Lemma for_loop_keeps (body : nat -> St -> St) :
  (forall i s, P (body i s) = P s) ->
  forall n i s, P (for_loop n i body s) = P s.
Proof.
  intros Hbody. induction n as [|n IH]; intros i s; [reflexivity|].
  cbn [for_loop]. now rewrite IH.
Qed.

Lemma for_loop_break_keeps (body : nat -> St -> St * bool) :
  (forall i s, P (fst (body i s)) = P s) ->
  forall n i s, P (for_loop_break n i body s) = P s.
Proof.
  intros Hbody. induction n as [|n IH]; intros i s; [reflexivity|].
  cbn [for_loop_break]. specialize (Hbody i s).
  destruct (body i s) as [s' []]; cbn [fst] in Hbody; [assumption|].
  now rewrite IH.
Qed.

Lemma for_loop_opt_keeps (body : nat -> St -> option St) :
  (forall i s s', body i s = Some s' -> P s' = P s) ->
  forall n i s s', for_loop_opt n i body s = Some s' -> P s' = P s.
Proof.
  intros Hbody. induction n as [|n IH]; intros i s s' H; cbn [for_loop_opt] in H.
  - now injection H as <-.
  - destruct (body i s) as [s1|] eqn:E; [|discriminate].
    rewrite (IH _ _ _ H). eauto.
Qed.

End LoopFacts.

Section LoopOverField.

Context {St A : Type}.

(** A loop that only rewrites one field is a loop on that field. *)
Lemma for_loop_field (get : St -> A) (body : nat -> St -> St) (fbody : nat -> A -> A) :
  (forall i s, get (body i s) = fbody i (get s)) ->
  forall n i s, get (for_loop n i body s) = for_loop n i fbody (get s).
Proof.
  intros Hbody. induction n as [|n IH]; intros i s; [reflexivity|].
  cbn [for_loop]. now rewrite IH, Hbody.
Qed.

End LoopOverField.

(** [for (k = i; k < i + n; k++) l[k] = f(l[k])]. *)
Lemma for_loop_alter {A : Type} (f : A -> A) (n : nat) :
  forall (i : nat) (l : list A) (j : nat),
    for_loop n i (fun k l => alter f k l) l !! j
    = if bool_decide (i <= j < i + n)%nat then f <$> l !! j else l !! j.
Proof.
  induction n as [|n IH]; intros i l j; cbn [for_loop].
  - rewrite bool_decide_eq_false_2 by lia. reflexivity.
  - rewrite IH. destruct (decide (j = i)) as [->|Hne].
    + rewrite bool_decide_eq_false_2 by lia.
      rewrite bool_decide_eq_true_2 by lia.
      apply list_lookup_alter_eq.
    + rewrite list_lookup_alter_ne by congruence.
      destruct (decide (S i <= j < S i + n)%nat).
      * rewrite !bool_decide_eq_true_2 by lia. reflexivity.
      * rewrite !bool_decide_eq_false_2 by lia. reflexivity.
Qed.

Lemma for_loop_alter_length {A : Type} (f : A -> A) (n : nat) :
  forall (i : nat) (l : list A),
    length (for_loop n i (fun k l => alter f k l) l) = length l.
Proof.
  induction n as [|n IH]; intros i l; cbn [for_loop]; [reflexivity|].
  now rewrite IH, length_alter.
Qed.

(** ** What the procedures leave alone *)

Section Footprints.

Variable env : Env.

Lemma reset_game_state_keeps (g : Game) :
  shared (reset_game_state g) = shared g
  /\ dodge (reset_game_state g) = dodge g
  /\ trans (reset_game_state g) = trans g
  /\ locals (reset_game_state g) = locals g.
Proof. unfold reset_game_state. now destruct (iface g). Qed.

Lemma back_to_connecting_keeps (g : Game) :
  shared (back_to_connecting env g) = shared g
  /\ dodge (back_to_connecting env g) = dodge g
  /\ player (back_to_connecting env g) = player g.
Proof. unfold back_to_connecting, reset_game_state. now destruct (iface g). Qed.

Lemma balance_board_event_keeps abs0 abs1 abs2 abs3 (g : Game) :
  let g' := snd (balance_board_event abs0 abs1 abs2 abs3 g) in
  shared g' = shared g /\ dodge g' = dodge g /\ menu g' = menu g
  /\ session g' = session g /\ trans g' = trans g /\ world g' = world g
  /\ locals_but_cob g' = locals_but_cob g
  /\ iface g' = iface g /\ fd g' = fd g.
Proof.
  unfold balance_board_event. repeat case_match; now cbn.
Qed.

Lemma dispatch_loop_keeps (events : list xwii_event) :
  forall (got_data : bool) (g : Game),
  let g' := snd (dispatch_loop events got_data g) in
  shared g' = shared g /\ dodge g' = dodge g /\ menu g' = menu g
  /\ session g' = session g /\ trans g' = trans g /\ world g' = world g
  /\ locals_but_cob g' = locals_but_cob g
  /\ iface g' = iface g /\ fd g' = fd g.
Proof.
  induction events as [|ev events IH]; intros got_data g; [now cbn|].
  destruct ev as [abs0 abs1 abs2 abs3|]; cbn [dispatch_loop]; [|apply IH].
  pose proof (balance_board_event_keeps abs0 abs1 abs2 abs3 g) as H.
  destruct (balance_board_event abs0 abs1 abs2 abs3 g) as [got g1].
  cbn [snd] in H. cbn zeta in H.
  specialize (IH (got || got_data) g1). cbn zeta in IH.
  destruct H as (? & ? & ? & ? & ? & ? & ? & ? & ?).
  destruct IH as (? & ? & ? & ? & ? & ? & ? & ? & ?).
  repeat split; congruence.
Qed.

Lemma read_wii_balance_board_data_keeps (g : Game) :
  let g' := snd (read_wii_balance_board_data env g) in
  shared g' = shared g /\ dodge g' = dodge g /\ menu g' = menu g
  /\ session g' = session g /\ trans g' = trans g
  /\ locals_but_cob g' = locals_but_cob g
  /\ world_but_polls g' = world_but_polls g.
Proof.
  unfold read_wii_balance_board_data.
  destruct (negb (iface g) || (fd g <? 0)); [now cbn|].
  destruct (poll_seq env (poll_calls g)) as [| |events]; [now cbn| |].
  - now destruct (_ >=? _).
  - set (g1 := set_poll_timeout_count 0 _).
    pose proof (dispatch_loop_keeps events false g1) as H.
    destruct (dispatch_loop events false g1) as [got g2]. cbn [snd] in H.
    cbn zeta in H. destruct H as (H1 & H2 & H3 & H4 & H5 & H6 & H7 & _).
    unfold locals_but_cob, world_but_polls in *.
    destruct got; cbn [snd]; cbn zeta;
      cbn [shared dodge menu session trans player state locals world tick_calls
           rand_calls connect_calls trace last_input_time last_frame_time
           pulse_timer set_x_cob set_y_cob with_locals];
      rewrite ?H1, ?H2, ?H3, ?H4, ?H5, ?H6, ?H7; now cbn.
Qed.

Lemma no_dodge_input_ext (g g' : Game) :
  sample g' = sample g -> no_dodge_input g' -> no_dodge_input g.
Proof.
  unfold sample, no_dodge_input. intros H. injection H as -> -> ->. auto.
Qed.

Lemma begin_frame_keeps (g : Game) :
  let g' := snd (begin_frame env g) in
  avatar g' = avatar g /\ sample g' = sample g /\ state g' = state g
  /\ dodge g' = dodge g.
Proof. unfold begin_frame, SDL_GetTicks. now cbn. Qed.

Lemma inactivity_check_keeps (current_time : Z) (g : Game) :
  let g' := inactivity_check env current_time g in
  avatar g' = avatar g /\ sample g' = sample g /\ dodge g' = dodge g
  /\ (state g' = state g \/ state g' = CONNECTING).
Proof.
  unfold inactivity_check, back_to_connecting, reset_game_state, SDL_GetTicks.
  repeat case_match; cbn; auto.
Qed.

Lemma case_CONNECTING_keeps (g : Game) :
  let g' := case_CONNECTING env g in
  avatar g' = avatar g /\ sample g' = sample g /\ dodge g' = dodge g.
Proof.
  unfold case_CONNECTING, init_xwiimote_non_blocking, SDL_GetTicks.
  repeat case_match; simplify_eq; cbn; auto.
Qed.

Lemma dodge_block_step_keeps (delta_time : f32) (i : nat) (g : Game) :
  let g' := fst (dodge_block_step env delta_time i g) in
  avatar g' = avatar g /\ sample g' = sample g.
Proof.
  unfold dodge_block_step, emit. repeat case_match; cbn; auto.
Qed.

Lemma dodge_blocks_loop_keeps (delta_time : f32) (g : Game) :
  let g' := dodge_blocks_loop env delta_time g in
  avatar g' = avatar g /\ sample g' = sample g.
Proof.
  unfold dodge_blocks_loop.
  split.
  - apply (for_loop_break_keeps avatar). intros i s. apply dodge_block_step_keeps.
  - apply (for_loop_break_keeps sample). intros i s. apply dodge_block_step_keeps.
Qed.

Lemma spawn_dodge_block_keeps (g : Game) :
  let g' := spawn_dodge_block env g in
  avatar g' = avatar g /\ sample g' = sample g.
Proof.
  unfold spawn_dodge_block.
  split.
  - apply (for_loop_break_keeps avatar). intros i s. unfold rand.
    repeat case_match; simplify_eq; now cbn.
  - apply (for_loop_break_keeps sample). intros i s. unfold rand.
    repeat case_match; simplify_eq; now cbn.
Qed.

Lemma case_GAME_DODGE_sample (delta_time : f32) (g : Game) :
  sample (case_GAME_DODGE env delta_time g) = sample g.
Proof.
  unfold case_GAME_DODGE. cbv zeta.
  match goal with
  | |- context [dodge_blocks_loop env delta_time ?a] => set (g1 := a)
  end.
  assert (H1 : sample g1 = sample g) by (subst g1; now case_match).
  destruct (dodge_blocks_loop_keeps delta_time g1) as [_ H2].
  set (g2 := dodge_blocks_loop env delta_time g1) in *.
  set (g3 := set_block_spawn_timer _ g2).
  destruct (spawn_dodge_block_keeps g3) as [_ H3].
  case_match; unfold sample in *; subst g3; game_simpl; congruence.
Qed.

(** Without input the Dodge case does not call [update_player_position], and
    nothing else in it touches the avatar or the trail. *)
Lemma case_GAME_DODGE_no_input (delta_time : f32) (g : Game) :
  no_dodge_input g ->
  avatar (case_GAME_DODGE env delta_time g) = avatar g.
Proof.
  intros Hno. unfold case_GAME_DODGE. cbv zeta.
  match goal with
  | |- context [dodge_blocks_loop env delta_time ?a] => set (g1 := a)
  end.
  assert (H1 : g1 = g).
  { subst g1. destruct Hno as [-> | [-> ->]]; [reflexivity|].
    now rewrite andb_false_r. }
  rewrite H1. clear g1 H1.
  destruct (dodge_blocks_loop_keeps delta_time g) as [H2 _].
  set (g2 := dodge_blocks_loop env delta_time g) in *.
  set (g3 := set_block_spawn_timer _ g2).
  destruct (spawn_dodge_block_keeps g3) as [H3 _].
  case_match; unfold avatar in *; subst g3; game_simpl; congruence.
Qed.

(** C9.  A Dodge frame always completes, and when the sample it works with
    carries no input (total weight not above [MIN_TOTAL_WEIGHT], or both
    components of the centre of balance not outside [DEAD_ZONE]) it leaves
    the avatar's position and velocity and the motion trail (points and head)
    as they were: [update_player_position] is not called. *)
Theorem dodge_frame_without_input (fuel : nat) (g : Game) :
  state g = GAME_DODGE ->
  exists g', frame env fuel g = Some g'
             /\ (no_dodge_input g' -> avatar g' = avatar g).
Proof.
  intros Hst. unfold frame.
  pose proof (begin_frame_keeps g) as Hb.
  destruct (begin_frame env g) as [[delta_time current_time] g1].
  cbn [snd] in Hb. cbn zeta in Hb. destruct Hb as (Ha1 & _ & Hs1 & _).
  destruct (decide (state g1 = CONNECTING)) as [E|_]; [congruence|].
  pose proof (read_wii_balance_board_data_keeps g1) as Hr.
  destruct (read_wii_balance_board_data env g1) as [r g2].
  cbn [snd] in Hr. cbn zeta in Hr.
  destruct Hr as (Hsh & _ & _ & _ & _ & Hl & _).
  assert (Ha2 : avatar g2 = avatar g).
  { rewrite <- Ha1. unfold avatar, locals_but_cob in *.
    cbn [trail_points trail_head] in *. rewrite Hsh. congruence. }
  assert (Hs2 : state g2 = GAME_DODGE)
    by (unfold locals_but_cob in Hl; congruence).
  destruct (negb (r =? 0)).
  { eexists. split; [reflexivity|]. intros _.
    destruct (back_to_connecting_keeps g2) as (Hsh' & _ & Hp').
    rewrite <- Ha2. unfold avatar. cbn [trail_points trail_head].
    now rewrite Hsh', Hp'. }
  pose proof (inactivity_check_keeps current_time g2) as Hi.
  set (g3 := inactivity_check env current_time g2) in *.
  cbn zeta in Hi. destruct Hi as (Ha3 & Hsm3 & _ & Hs3).
  unfold switch_state.
  destruct Hs3 as [Hs3|Hs3]; rewrite Hs3; [rewrite Hs2|].
  - pose proof (case_GAME_DODGE_sample delta_time g3) as Hsm.
    pose proof (case_GAME_DODGE_no_input delta_time g3) as Hav.
    revert Hsm Hav. generalize (case_GAME_DODGE env delta_time g3).
    intros g4 Hsm Hav. unfold SDL_GetTicks.
    eexists. split; [reflexivity|]. intros Hno.
    assert (Hno3 : no_dodge_input g3) by (apply (no_dodge_input_ext _ g4); assumption).
    specialize (Hav Hno3).
    transitivity (avatar g4); [reflexivity|congruence].
  - pose proof (case_CONNECTING_keeps g3) as (Ha4 & _).
    revert Ha4. generalize (case_CONNECTING env g3).
    intros g4 Ha4. unfold SDL_GetTicks.
    eexists. split; [reflexivity|]. intros _.
    transitivity (avatar g4); [reflexivity|congruence].
Qed.

End Footprints.

Section RoundStart.

Variable env : Env.

(** *** The Dodge variables outside the Dodge case *)

Lemma init_player_keeps (g : Game) : but_avatar (init_player g) = but_avatar g.
Proof.
  unfold init_player. cbv zeta. peel.
  rewrite (for_loop_keeps but_avatar) by reflexivity.
  reflexivity.
Qed.

Lemma init_dodge_game_keeps (g : Game) :
  but_dodge_round (init_dodge_game env g) = but_dodge_round g.
Proof.
  unfold init_dodge_game, SDL_GetTicks. cbv zeta beta iota.
  pose proof (init_player_keeps g) as H.
  revert H. generalize (init_player g). intros g1 H.
  peel. peel. peel. peel. peel.
  rewrite (for_loop_keeps but_dodge_round) by reflexivity.
  unfold but_avatar, but_dodge_round in *.
  assert (rand_calls g1 = rand_calls g /\ poll_calls g1 = poll_calls g
          /\ connect_calls g1 = connect_calls g /\ trace g1 = trace g)
    as (? & ? & ? & ?).
  { assert (W : world g1 = world g) by congruence. now rewrite W. }
  assert (dynamic_block_spawn_interval g1 = dynamic_block_spawn_interval g
          /\ dodge_high_score g1 = dodge_high_score g) as (? & ?).
  { assert (W : dodge g1 = dodge g) by congruence. now rewrite W. }
  congruence.
Qed.

Lemma init_dodge_game_resets (g : Game) :
  let g' := init_dodge_game env g in
  block_spawn_timer g' = #0%f32
  /\ current_block_speed g' = BLOCK_INITIAL_SPEED
  /\ dodge_score g' = 0
  /\ (forall i b, (i < Z.to_nat MAX_DODGE_BLOCKS)%nat ->
        dodge_blocks g' !! i = Some b -> active b = false).
Proof.
  unfold init_dodge_game, SDL_GetTicks. cbv zeta beta iota.
  generalize (init_player g). intros g1.
  refine (conj _ (conj _ (conj _ _))).
  - do 4 peel. now hit.
  - do 3 peel. now hit.
  - do 2 peel. now hit.
  - intros i b Hi.
    match goal with
    | |- ?bs !! i = _ -> _ =>
        assert (E : bs = for_loop (Z.to_nat MAX_DODGE_BLOCKS) 0
                           (fun k l => alter deactivate_block k l) (dodge_blocks g1))
    end.
    { do 5 peel.
      now rewrite (for_loop_field (fun s : Game => dodge_blocks s) _
                     (fun k l => alter deactivate_block k l)) by reflexivity. }
    rewrite E, for_loop_alter.
    rewrite bool_decide_eq_true_2 by lia.
    destruct (dodge_blocks g1 !! i); cbn; [|discriminate].
    now intros [= <-].
Qed.

Lemma spawn_coin_keeps (fuel slot : nat) : forall (g g' : Game),
  spawn_coin env fuel slot g = Some g' -> but_coin_slots g' = but_coin_slots g.
Proof.
  induction fuel as [|fuel IH]; intros g g' H; [discriminate|].
  cbn [spawn_coin] in H. unfold rand in H. cbv beta iota zeta in H.
  match type of H with
  | (if ?c then _ else _) = _ => destruct c
  end.
  - injection H as <-. reflexivity.
  - apply IH in H. rewrite H. reflexivity.
Qed.

Lemma init_balance_hold_game_keeps (g : Game) :
  but_hold_target (init_balance_hold_game env g) = but_hold_target g.
Proof.
  unfold init_balance_hold_game, rand, SDL_GetTicks. cbv beta iota zeta.
  pose proof (init_player_keeps g) as H.
  revert H. generalize (init_player g). intros g1 H.
  do 9 peel.
  unfold but_avatar, but_hold_target in *.
  assert (W : world g1 = world g) by congruence.
  assert (S : session g1 = session g) by congruence.
  assert (poll_calls g1 = poll_calls g /\ connect_calls g1 = connect_calls g
          /\ trace g1 = trace g) as (? & ? & ?) by now rewrite W.
  assert (current_game_target g1 = current_game_target g /\ coins g1 = coins g
          /\ win_message_start_time g1 = win_message_start_time g)
    as (? & ? & ?) by now rewrite S.
  congruence.
Qed.

Lemma init_coin_collector_game_keeps (fuel : nat) (g g' : Game) :
  init_coin_collector_game env fuel g = Some g' ->
  but_coin_round g' = but_coin_round g.
Proof.
  unfold init_coin_collector_game. cbv zeta.
  pose proof (init_player_keeps g) as H.
  revert H. generalize (init_player g). intros g1 H.
  match goal with
  | |- match spawn_coin env fuel 0 ?X with _ => _ end = _ -> _ =>
      assert (H1 : but_coin_round X = but_coin_round g1)
        by (rewrite (for_loop_keeps but_coin_round) by reflexivity; reflexivity);
      revert H1; generalize X; intros g2 H1
  end.
  destruct (spawn_coin env fuel 0 g2) as [g3|] eqn:Hsp; [|discriminate].
  apply spawn_coin_keeps in Hsp. revert Hsp. generalize g3. clear g3. intros g3 Hsp.
  unfold SDL_GetTicks. cbv beta iota zeta. intros [= <-].
  assert (H3 : but_coin_round g3 = but_coin_round g2).
  { unfold but_coin_slots, but_coin_round, sample in *.
    assert (L : locals g3 = locals g2) by congruence.
    assert (S : session g3 = session g2) by congruence.
    assert (B : board g3 = board g2) by congruence.
    rewrite L, S, B. congruence. }
  assert (H0 : but_coin_round g1 = but_coin_round g).
  { unfold but_avatar, but_coin_round in *.
    assert (W : world g1 = world g) by congruence.
    assert (S : session g1 = session g) by congruence.
    rewrite W, S. congruence. }
  rewrite <- H0, <- H1, <- H3.
  destruct (decide (current_difficulty _ = HARD)); [peel|]; do 3 peel; reflexivity.
Qed.

Lemma init_confetti_keeps (x0 y0 : f32) (g : Game) :
  but_confetti (init_confetti env x0 y0 g) = but_confetti g.
Proof.
  unfold init_confetti.
  rewrite (for_loop_keeps but_confetti); [reflexivity|].
  intros i s. unfold rand. reflexivity.
Qed.

Lemma update_confetti_keeps (delta_time : f32) (g : Game) :
  but_confetti (update_confetti delta_time g) = but_confetti g
  /\ rand_calls (update_confetti delta_time g) = rand_calls g.
Proof.
  unfold update_confetti. split.
  - rewrite (for_loop_keeps but_confetti); [reflexivity|].
    intros i s. destruct (confetti s !! i) as [c|]; [|reflexivity].
    now destruct (lifetime c >? #0)%f32.
  - rewrite (for_loop_keeps (fun s : Game => rand_calls s)); [reflexivity|].
    intros i s. destruct (confetti s !! i) as [c|]; [|reflexivity].
    now destruct (lifetime c >? #0)%f32.
Qed.

Lemma win_handling_keeps (g : Game) :
  but_win (win_handling env g) = but_win g.
Proof.
  unfold win_handling, SDL_GetTicks, emit. cbv beta iota zeta.
  match goal with
  | |- but_win (init_confetti env ?a ?b ?X) = _ =>
      pose proof (init_confetti_keeps a b X) as H;
      revert H; generalize (init_confetti env a b X);
      assert (H1 : but_win X = but_win g);
      [|revert H1; generalize X]
  end.
  - do 2 peel. case_match; [do 2 peel|]; do 4 peel; reflexivity.
  - intros g1 H1 g2 H2. rewrite <- H1.
    unfold but_confetti, but_win in *. open_tuples.
    assert (S : session g2 = session g1) by assumption.
    rewrite S. tuple_eq.
Qed.

End RoundStart.

Section GameSteps.

Variable env : Env.

Lemma reset_game_state_but_reset (g : Game) :
  but_reset (reset_game_state g) = but_reset g.
Proof. unfold reset_game_state. now destruct (iface g). Qed.

Lemma update_player_position_keeps (tx ty dt : f32) (g : Game) :
  but_avatar (update_player_position tx ty dt g) = but_avatar g.
Proof. reflexivity. Qed.

Lemma balance_hold_step_keeps (delta_time : f32) (g : Game) :
  but_hold_step (balance_hold_step env delta_time g) = but_hold_step g.
Proof.
  cbv delta [balance_hold_step] beta.
  walk ltac:(idtac; peel_with (init_balance_hold_game_keeps env)).
Qed.

Lemma spawn_coin_coin_step (fuel slot : nat) (g g' : Game) :
  spawn_coin env fuel slot g = Some g' ->
  but_coin_step g' = but_coin_step g /\ state g' = state g /\ coins g' = coins g
  /\ trace g' = trace g /\ coin_timer g' = coin_timer g.
Proof.
  intros H. apply spawn_coin_keeps in H. unfold_tuples. open_tuples.
  repeat match goal with
         | K : locals _ = locals _ |- _ => rewrite K; clear K
         | K : session _ = session _ |- _ => rewrite K; clear K
         | K : board _ = board _ |- _ => rewrite K; clear K
         end.
  repeat split; try reflexivity; try assumption; tuple_eq; reflexivity.
Qed.

Lemma coin_slot_step_keeps (fuel i : nat) (g g' : Game) :
  coin_slot_step env fuel i g = Some g' -> but_coin_step g' = but_coin_step g.
Proof.
  cbv delta [coin_slot_step] beta.
  destruct (coin_collector_coins g !! i) as [c|]; [|now intros [= <-]].
  destruct (coin_active c); [|now intros [= <-]].
  destruct (is_in_zone _ _ _ _ _); [|now intros [= <-]].
  unfold emit. cbv zeta.
  match goal with |- (if ?b then _ else _) = _ -> _ => destruct b end;
    [|now intros [= <-]].
  match goal with
  | |- match spawn_coin env fuel ?s ?X with _ => _ end = _ -> _ =>
      destruct (spawn_coin env fuel s X) as [g2|] eqn:E; [|discriminate];
      apply spawn_coin_coin_step in E; destruct E as (E & _);
      assert (HX : but_coin_step X = but_coin_step g) by reflexivity;
      rewrite HX in E; clear HX; revert E; generalize g2; clear g2
  end.
  intros g2 E [= <-]. rewrite <- E.
  destruct (decide _); reflexivity.
Qed.

Lemma coin_slots_loop_keeps (fuel n i : nat) (g g' : Game) :
  for_loop_opt n i (coin_slot_step env fuel) g = Some g' ->
  but_coin_step g' = but_coin_step g.
Proof.
  apply (for_loop_opt_keeps but_coin_step). intros j s s'.
  apply coin_slot_step_keeps.
Qed.

Ltac known_game_steps :=
  match goal with
  | |- context [win_handling ?e _] => peel_with (win_handling_keeps e)
  | |- context [balance_hold_step ?e ?a _] => peel_with (balance_hold_step_keeps a)
  | |- context [update_player_position ?a ?b ?c _] =>
      peel_with (update_player_position_keeps a b c)
  | |- context [reset_game_state _] => peel_with reset_game_state_but_reset
  end.

(** Concludes [Some (b0, X) = Some (b, g') -> P g' = P g] from [P X = P g],
    proved by [tac], without looking into [X] again. *)
Ltac result_keeps tac :=
  lazymatch goal with
  | |- Some (_, ?X) = Some (_, ?g') -> ?P ?g' = ?P ?g =>
      let H := fresh "K" in
      assert (H : P X = P g) by tac;
      revert H; generalize X;
      let x := fresh "g" in
      intros x H [= <- <-]; exact H
  end.

Lemma case_GAME_general_keeps (fuel : nat) (delta_time : f32) (b : bool) (g g' : Game) :
  case_GAME_general env fuel delta_time g = Some (b, g') ->
  but_game_case g' = but_game_case g.
Proof.
  cbv delta [case_GAME_general] beta zeta.
  match goal with
  | |- context [update_player_position ?a ?b ?c g] =>
      generalize a b; intros target_x target_y
  end.
  destruct (decide (state (update_player_position _ _ _ g) = GAME_BALANCE_HOLD)).
  - cbv beta iota.
    result_keeps ltac:(by_components;
                       repeat first [progress keep_steps | known_game_steps]).
  - match goal with
    | |- match (if ?c then _ else _) with _ => _ end = _ -> _ => destruct c
    end.
    + cbv beta iota.
      result_keeps ltac:(by_components;
                         repeat first [progress keep_steps | known_game_steps]).
    + match goal with
      | |- context [for_loop_opt ?n ?i ?f ?X] =>
          destruct (for_loop_opt n i f X) as [g2|] eqn:E; [|discriminate];
          apply coin_slots_loop_keeps in E;
          assert (HX : but_game_case X = but_game_case g)
            by (by_components;
                repeat first [progress keep_steps | known_game_steps]);
          revert E HX; generalize X
      end.
      intros g1 E HX.
      assert (H2 : but_game_case g2 = but_game_case g1).
      { clear HX. unfold_tuples. open_tuples. tuple_eq; congruence. }
      rewrite <- HX, <- H2. clear. cbv beta iota.
      result_keeps ltac:(by_components;
                         repeat first [progress keep_steps | known_game_steps]).
Qed.

End GameSteps.

(** ** Counters and profile files *)

(** An [int] counter that stays in range is not changed by the wrap. *)
Lemma int32_in_range (z : Z) : INT_MIN <= z <= INT_MAX -> int32 z = z.
Proof.
  unfold int32, INT_MIN, INT_MAX. intros H.
  rewrite Z.mod_small by lia. lia.
Qed.

(** With a profile selected the write goes to that profile's file. *)
Lemma to_profile_file_valid (player_index : Z) (w : Z -> Effect) :
  0 <= player_index < num_players ->
  to_profile_file player_index w = w player_index.
Proof.
  intros H. unfold to_profile_file, get_profile_filename.
  destruct (Z.leb_spec 0 player_index); [|lia].
  destruct (Z.ltb_spec player_index num_players); [reflexivity|lia].
Qed.

Section Screens.

Variable env : Env.

(** ** The screens outside play and the Dodge variables *)

Lemma init_dodge_game_interval (g : Game) :
  dynamic_block_spawn_interval (init_dodge_game env g)
  = dynamic_block_spawn_interval g.
Proof.
  pose proof (init_dodge_game_keeps env g) as K. revert K.
  generalize (init_dodge_game env g). intros g' K.
  unfold_tuples. open_tuples. assumption.
Qed.

Lemma init_dodge_game_score (g : Game) : dodge_score (init_dodge_game env g) = 0.
Proof. exact (proj1 (proj2 (proj2 (init_dodge_game_resets env g)))). Qed.

Lemma case_TRANSITIONING_dodge (g : Game) :
  dodge (case_TRANSITIONING env g) = dodge g.
Proof.
  cbv delta [case_TRANSITIONING] beta. walk ltac:(idtac; fail).
Qed.

Lemma select_player_dodge (delta_time : f32) (g : Game) :
  dodge (select_player delta_time g) = dodge g.
Proof. cbv delta [select_player] beta. walk ltac:(idtac; fail). Qed.

Lemma commit_player_dodge (g : Game) : dodge (commit_player env g) = dodge g.
Proof. reflexivity. Qed.

Lemma case_PLAYER_SELECTION_dodge (delta_time : f32) (g : Game) :
  dodge (case_PLAYER_SELECTION env delta_time g) = dodge g.
Proof.
  unfold case_PLAYER_SELECTION. cbv zeta.
  destruct (_ >=? _)%f64;
    [rewrite commit_player_dodge|]; apply select_player_dodge.
Qed.

Lemma select_game_dodge (delta_time : f32) (g : Game) :
  dodge (select_game delta_time g) = dodge g.
Proof. cbv delta [select_game] beta. walk ltac:(idtac; fail). Qed.

Lemma commit_game_carried (g : Game) : dodge_carried g (commit_game env g).
Proof.
  unfold commit_game, dodge_carried. cbv zeta.
  destruct (bool_decide (selected_game g = DODGE)).
  - split; [|intros _]; do 2 peel.
    + now rewrite init_dodge_game_interval.
    + apply init_dodge_game_score.
  - split; [reflexivity|]. intros H. exact H.
Qed.

Lemma dodge_carried_of_dodge (g g' : Game) : dodge g' = dodge g -> dodge_carried g g'.
Proof. unfold dodge_carried. intros ->. now split. Qed.

Lemma dodge_carried_trans (g1 g2 g3 : Game) :
  dodge_carried g1 g2 -> dodge_carried g2 g3 -> dodge_carried g1 g3.
Proof.
  unfold dodge_carried. intros [A B] [C D]. split; [congruence|auto].
Qed.

Lemma case_MAIN_MENU_carried (delta_time : f32) (g : Game) :
  dodge_carried g (case_MAIN_MENU env delta_time g).
Proof.
  unfold case_MAIN_MENU. cbv zeta.
  pose proof (select_game_dodge delta_time g) as K. revert K.
  generalize (select_game delta_time g). intros g1 K.
  apply dodge_carried_of_dodge in K.
  destruct (_ >=? _)%f64; [|exact K].
  exact (dodge_carried_trans _ _ _ K (commit_game_carried g1)).
Qed.

Lemma select_difficulty_dodge (delta_time : f32) (g : Game) :
  dodge (select_difficulty delta_time g) = dodge g.
Proof. cbv delta [select_difficulty] beta. walk ltac:(idtac; fail). Qed.

Lemma start_selected_game_carried (fuel : nat) (g g' : Game) :
  start_selected_game env fuel g = Some g' -> dodge_carried g g'.
Proof.
  unfold start_selected_game.
  destruct (selected_game g); cbv zeta.
  - intros [= <-]. apply dodge_carried_of_dodge. reflexivity.
  - match goal with
    | |- Some (set_coins 0 (init_balance_hold_game env ?X)) = _ -> _ =>
        pose proof (init_balance_hold_game_keeps env X) as K;
        assert (HX : dodge X = dodge g) by reflexivity;
        revert K; generalize (init_balance_hold_game env X)
    end.
    intros g1 K [= <-]. apply dodge_carried_of_dodge.
    unfold_tuples. open_tuples.
    transitivity (dodge g1); [reflexivity|congruence].
  - match goal with
    | |- match init_coin_collector_game env fuel ?X with _ => _ end = _ -> _ =>
        destruct (init_coin_collector_game env fuel X) as [g1|] eqn:E;
        [|discriminate];
        apply init_coin_collector_game_keeps in E;
        assert (HX : dodge X = dodge g) by reflexivity;
        revert E; generalize g1; clear g1
    end.
    intros g1 K [= <-]. apply dodge_carried_of_dodge.
    unfold_tuples. open_tuples.
    transitivity (dodge g1); [reflexivity|congruence].
  - match goal with
    | |- Some (init_dodge_game env ?X) = _ -> _ =>
        pose proof (init_dodge_game_interval X) as K1;
        pose proof (init_dodge_game_score X) as K2;
        revert K1 K2; generalize (init_dodge_game env X)
    end.
    intros g1 K1 K2 [= <-]. split; [exact K1|]. intros _. exact K2.
Qed.

Lemma commit_difficulty_carried (fuel : nat) (g g' : Game) :
  commit_difficulty env fuel g = Some g' -> dodge_carried g g'.
Proof.
  unfold commit_difficulty. cbv zeta.
  match goal with
  | |- match start_selected_game env fuel ?X with _ => _ end = _ -> _ =>
      assert (HX : dodge X = dodge g)
        by (repeat match goal with
                   | |- context [if ?b then _ else _] => destruct b
                   end; reflexivity);
      revert HX; generalize X
  end.
  intros g0 H0.
  destruct (start_selected_game env fuel g0) as [g1|] eqn:E; [|discriminate].
  apply start_selected_game_carried in E. revert E. generalize g1. clear g1.
  intros g1 E [= <-].
  apply dodge_carried_of_dodge in H0.
  apply (dodge_carried_trans _ _ _ H0).
  apply (dodge_carried_trans _ _ _ E).
  apply dodge_carried_of_dodge. reflexivity.
Qed.

Lemma case_DIFFICULTY_SELECTION_carried (fuel : nat) (delta_time : f32)
    (g g' : Game) :
  case_DIFFICULTY_SELECTION env fuel delta_time g = Some g' -> dodge_carried g g'.
Proof.
  unfold case_DIFFICULTY_SELECTION. cbv zeta.
  pose proof (select_difficulty_dodge delta_time g) as K. revert K.
  generalize (select_difficulty delta_time g). intros g1 K.
  apply dodge_carried_of_dodge in K.
  destruct (_ >=? _)%f64.
  - intros E. apply commit_difficulty_carried in E.
    exact (dodge_carried_trans _ _ _ K E).
  - now intros [= <-].
Qed.

Lemma winning_cleanup_zero (g : Game) :
  (dodge_score g >? 0) = false -> dodge (winning_cleanup g) = dodge g.
Proof.
  intros H. unfold winning_cleanup. rewrite H. cbv zeta.
  peel_with init_player_keeps. peel.
  apply reset_game_state_keeps.
Qed.

Lemma winning_cleanup_positive (g : Game) :
  (dodge_score g >? 0) = true ->
  dynamic_block_spawn_interval (winning_cleanup g) = BLOCK_SPAWN_INTERVAL
  /\ dodge_score (winning_cleanup g) = 0.
Proof.
  intros H. unfold winning_cleanup. rewrite H. cbv zeta.
  split.
  - peel_with init_player_keeps. peel. peel_with reset_game_state_but_reset.
    peel.
    match goal with
    | |- _ (_ (for_loop ?n ?i ?body ?X)) = _ =>
        rewrite (for_loop_keeps
                   (fun s : Game => dynamic_block_spawn_interval s) body
                   (fun _ _ => eq_refl) n i X)
    end.
    reflexivity.
  - peel_with init_player_keeps. peel. peel_with reset_game_state_but_reset.
    match goal with
    | |- _ (_ (set_dodge_score 0 ?X)) = _ => generalize X
    end.
    reflexivity.
Qed.

(** What a Winning frame does to the Dodge variables: with a score of zero
    they are all kept; the spawn interval changes only when the clean-up finds
    a positive score. *)
Lemma case_WINNING_carried (delta_time : f32) (g : Game) :
  let g' := case_WINNING env delta_time g in
  (dodge_score g = 0 -> dodge g' = dodge g)
  /\ (dynamic_block_spawn_interval g' = dynamic_block_spawn_interval g
      \/ (0 < dodge_score g
          /\ dynamic_block_spawn_interval g' = BLOCK_SPAWN_INTERVAL)).
Proof.
  cbv zeta. unfold case_WINNING. cbv zeta.
  destruct (update_confetti_keeps delta_time g) as [K _]. revert K.
  generalize (update_confetti delta_time g). intros g1 K.
  assert (K1 : dodge g1 = dodge g) by (unfold_tuples; open_tuples; assumption).
  clear K. unfold SDL_GetTicks.
  match goal with
  | |- context [if ?c then winning_cleanup ?X else _] =>
      assert (K2 : dodge X = dodge g) by (rewrite <- K1; reflexivity);
      revert K2; generalize c; generalize X
  end.
  clear g1 K1. intros g2 c K2. destruct c.
  - destruct (dodge_score g2 >? 0) eqn:E.
    + destruct (winning_cleanup_positive g2 E) as [A B].
      revert A B. generalize (winning_cleanup g2). intros g3 A B.
      assert (0 < dodge_score g) by (rewrite <- K2; lia).
      split; [lia|right; now split].
    + pose proof (winning_cleanup_zero g2 E) as A.
      revert A. generalize (winning_cleanup g2). intros g3 A.
      rewrite K2 in A. split; [easy|left; now rewrite A].
  - split; [easy|left; now rewrite K2].
Qed.

(** ** Dodge frames *)

Lemma dodge_block_step_pass (delta_time : f32) (i : nat) (g : Game) :
  but_block_pass (fst (dodge_block_step env delta_time i g)) = but_block_pass g.
Proof.
  unfold dodge_block_step, emit. repeat case_match; reflexivity.
Qed.

Lemma dodge_blocks_loop_pass (delta_time : f32) (g : Game) :
  but_block_pass (dodge_blocks_loop env delta_time g) = but_block_pass g.
Proof.
  unfold dodge_blocks_loop.
  apply (for_loop_break_keeps but_block_pass). intros i s.
  apply dodge_block_step_pass.
Qed.

Lemma spawn_dodge_block_spawned (g : Game) :
  but_spawned_block (spawn_dodge_block env g) = but_spawned_block g.
Proof.
  unfold spawn_dodge_block.
  apply (for_loop_break_keeps but_spawned_block). intros i s. unfold rand.
  repeat case_match; simplify_eq; reflexivity.
Qed.

(** Line 1285: every Dodge frame shortens the spawn interval, down to half a
    second. *)
Lemma case_GAME_DODGE_interval (delta_time : f32) (g : Game) :
  dynamic_block_spawn_interval (case_GAME_DODGE env delta_time g)
  = F32.fmax (#1 / #2)%f32
      (dynamic_block_spawn_interval g - (#1 / #100) * delta_time)%f32.
Proof.
  unfold case_GAME_DODGE. cbv zeta.
  match goal with
  | |- _ (_ (set_dynamic_block_spawn_interval
               (F32.fmax ?a (F32.sub (dynamic_block_spawn_interval (dodge ?X)) ?b))
               ?Y)) = _ =>
      assert (K : dynamic_block_spawn_interval X = dynamic_block_spawn_interval g);
      [|let s := fresh "s" in
        revert K; generalize X; intros s K;
        change (F32.fmax a (dynamic_block_spawn_interval s - b)%f32
                = F32.fmax a (dynamic_block_spawn_interval g - b)%f32);
        now rewrite K]
  end.
  repeat first
    [ match goal with |- ?a = ?a => reflexivity end
    | match goal with
      | |- _ (_ (if ?b then _ else _)) = _ => destruct b
      end
    | peel
    | peel_with spawn_dodge_block_spawned
    | peel_with (dodge_blocks_loop_pass delta_time)
    | peel_with (update_player_position_keeps
                   (F64.to_f32 (F64.of_f32 (#WINDOW_WIDTH / #2)%f32
                      + F64.of_f32 (x_cob g) * COB_SCALE_DODGE * F64.of_Z WINDOW_WIDTH)%f64)
                   (F64.to_f32 (F64.of_f32 (#WINDOW_HEIGHT / #2)%f32
                      + F64.of_f32 (y_cob g) * F64.opp COB_SCALE_DODGE * F64.of_Z WINDOW_HEIGHT)%f64)
                   delta_time) ].
Qed.

(** ** Frames that start outside Dodge *)

Lemma switch_state_outside_dodge (fuel : nat) (delta_time : f32) (b : bool)
    (g g' : Game) :
  state g <> GAME_DODGE ->
  switch_state env fuel delta_time g = Some (b, g') ->
  (dodge_score g = 0 -> dodge_carried g g')
  /\ (dynamic_block_spawn_interval g' = dynamic_block_spawn_interval g
      \/ restored_by_cleanup g g').
Proof.
  intros Hst. unfold switch_state.
  assert (from_dodge : forall s : Game, dodge s = dodge g ->
            (dodge_score g = 0 -> dodge_carried g s)
            /\ (dynamic_block_spawn_interval s = dynamic_block_spawn_interval g
                \/ restored_by_cleanup g s)).
  { intros s K. split; [intros _; now apply dodge_carried_of_dodge|].
    left. now rewrite K. }
  assert (from_carried : forall s : Game, dodge_carried g s ->
            (dodge_score g = 0 -> dodge_carried g s)
            /\ (dynamic_block_spawn_interval s = dynamic_block_spawn_interval g
                \/ restored_by_cleanup g s)).
  { intros s K. split; [easy|]. left. apply K. }
  destruct (state g) eqn:Es; try congruence.
  - pose proof (case_CONNECTING_keeps env g) as (_ & _ & K). revert K.
    generalize (case_CONNECTING env g). intros s K [= <- <-]. auto.
  - pose proof (case_TRANSITIONING_dodge g) as K. revert K.
    generalize (case_TRANSITIONING env g). intros s K [= <- <-]. auto.
  - pose proof (case_PLAYER_SELECTION_dodge delta_time g) as K. revert K.
    generalize (case_PLAYER_SELECTION env delta_time g). intros s K [= <- <-].
    auto.
  - pose proof (case_MAIN_MENU_carried delta_time g) as K. revert K.
    generalize (case_MAIN_MENU env delta_time g). intros s K [= <- <-]. auto.
  - destruct (case_DIFFICULTY_SELECTION env fuel delta_time g) as [s|] eqn:E;
      [|discriminate].
    apply case_DIFFICULTY_SELECTION_carried in E. intros [= <- <-]. auto.
  - intros E. apply case_GAME_general_keeps in E. apply from_dodge.
    unfold_tuples. open_tuples. assumption.
  - intros E. apply case_GAME_general_keeps in E. apply from_dodge.
    unfold_tuples. open_tuples. assumption.
  - pose proof (case_WINNING_carried delta_time g) as K. revert K.
    generalize (case_WINNING env delta_time g). cbv zeta.
    intros s [K1 K2] [= <- <-]. split.
    + intros H0. apply dodge_carried_of_dodge. auto.
    + destruct K2 as [K2|[K2 K3]]; [now left|right].
      unfold restored_by_cleanup. auto.
Qed.

Lemma frame_outside_dodge (fuel : nat) (g g' : Game) :
  state g <> GAME_DODGE ->
  frame env fuel g = Some g' ->
  (dodge_score g = 0 -> dodge_carried g g')
  /\ (dynamic_block_spawn_interval g' = dynamic_block_spawn_interval g
      \/ restored_by_cleanup g g').
Proof.
  intros Hst. unfold frame.
  pose proof (begin_frame_keeps env g) as Hb.
  destruct (begin_frame env g) as [[delta_time current_time] g1].
  cbn [snd] in Hb. cbn zeta in Hb. destruct Hb as (_ & _ & Hs1 & Hd1).
  assert (H2 : forall r g2,
            (if decide (state g1 = CONNECTING) then (0, g1)
             else read_wii_balance_board_data env g1) = (r, g2) ->
            state g2 = state g /\ dodge g2 = dodge g).
  { intros r g2. destruct (decide _).
    - intros [= <- <-]. auto.
    - pose proof (read_wii_balance_board_data_keeps env g1) as Hr.
      destruct (read_wii_balance_board_data env g1) as [r' g2'].
      cbn [snd] in Hr. cbn zeta in Hr.
      destruct Hr as (_ & Hd & _ & _ & _ & Hl & _).
      intros [= <- <-]. unfold locals_but_cob in Hl. split; congruence. }
  destruct (if decide (state g1 = CONNECTING) then _ else _) as [r g2].
  destruct (H2 r g2 eq_refl) as [Hs2 Hd2]. clear H2.
  destruct (negb (r =? 0)).
  { destruct (back_to_connecting_keeps env g2) as (_ & K & _). revert K.
    generalize (back_to_connecting env g2). intros s K [= <-].
    assert (Kd : dodge s = dodge g) by congruence.
    split; [intros _; now apply dodge_carried_of_dodge|left; now rewrite Kd]. }
  pose proof (inactivity_check_keeps env current_time g2) as Hi.
  revert Hi. generalize (inactivity_check env current_time g2). cbv zeta.
  intros g3 (_ & _ & Hd3 & Hs3).
  assert (Hst3 : state g3 <> GAME_DODGE)
    by (destruct Hs3 as [-> | ->]; congruence).
  assert (Hd : dodge g3 = dodge g) by congruence.
  destruct (switch_state env fuel delta_time g3) as [[b g4]|] eqn:E;
    [|discriminate].
  apply (switch_state_outside_dodge _ _ _ _ _ Hst3) in E.
  assert (E' : (dodge_score g = 0 -> dodge_carried g g4)
               /\ (dynamic_block_spawn_interval g4 = dynamic_block_spawn_interval g
                   \/ restored_by_cleanup g g4)).
  { destruct E as [E1 E2]. unfold dodge_carried, restored_by_cleanup in *.
    rewrite Hd in *.
    split; [exact E1|].
    destruct E2 as [E2|(E2 & E3 & E4)]; [now left|right].
    repeat split; try assumption.
    destruct Hs3 as [Hs3|Hs3]; congruence. }
  clear E. revert E'. generalize g4. clear g4. intros g4 E'.
  destruct b.
  - now intros [= <-].
  - unfold SDL_GetTicks. intros [= <-]. exact E'.
Qed.

Lemma frames_outside_dodge (fuel : nat) (n : nat) : forall (g : Game),
  stays_outside_dodge env fuel n g = true ->
  dodge_score g = 0 ->
  exists g', frames env fuel n g = Some g' /\ dodge_carried g g'.
Proof.
  induction n as [|n IH]; intros g Hout H0.
  - exists g. split; [reflexivity|]. now apply dodge_carried_of_dodge.
  - cbn [stays_outside_dodge] in Hout. cbn [frames].
    apply andb_prop in Hout. destruct Hout as [Hst Hout].
    apply negb_true_iff, bool_decide_eq_false in Hst.
    destruct (frame env fuel g) as [g1|] eqn:E; [|discriminate].
    destruct (frame_outside_dodge _ _ _ Hst E) as [K _].
    specialize (K H0).
    destruct (IH g1 Hout (proj2 K H0)) as (g' & F & K').
    exists g'. split; [exact F|].
    exact (dodge_carried_trans _ _ _ K K').
Qed.

(** C10: [init_dodge_game] resets the block pool, the block speed, the spawn
    timer and the score, and leaves the dynamic spawn interval as it finds
    it.  A Dodge frame shortens the interval (never below half a second).
    The Winning clean-up gives the interval its initial value back when the
    Dodge score is positive, and a frame that starts outside Dodge changes
    the interval in no other way.  Hence, after a round lost with a score of
    zero, the shortened interval is still there when the frames that follow
    lead into the next Dodge round. *)
Theorem spawn_interval_survives_lost_round :
  (forall g : Game,
     let g' := init_dodge_game env g in
     block_spawn_timer g' = #0%f32
     /\ current_block_speed g' = BLOCK_INITIAL_SPEED
     /\ dodge_score g' = 0
     /\ (forall i b, (i < Z.to_nat MAX_DODGE_BLOCKS)%nat ->
           dodge_blocks g' !! i = Some b -> active b = false)
     /\ dynamic_block_spawn_interval g' = dynamic_block_spawn_interval g)
  /\ (forall (delta_time : f32) (g : Game),
        dynamic_block_spawn_interval (case_GAME_DODGE env delta_time g)
        = F32.fmax (#1 / #2)%f32
            (dynamic_block_spawn_interval g - (#1 / #100) * delta_time)%f32)
  /\ (forall g : Game,
        (dodge_score g >? 0) = true ->
        dynamic_block_spawn_interval (winning_cleanup g) = BLOCK_SPAWN_INTERVAL)
  /\ (forall (fuel : nat) (g g' : Game),
        state g <> GAME_DODGE ->
        frame env fuel g = Some g' ->
        dynamic_block_spawn_interval g' = dynamic_block_spawn_interval g
        \/ restored_by_cleanup g g')
  /\ (forall (fuel n : nat) (g : Game),
        stays_outside_dodge env fuel n g = true ->
        dodge_score g = 0 ->
        exists g', frames env fuel n g = Some g'
                   /\ dynamic_block_spawn_interval g'
                      = dynamic_block_spawn_interval g
                   /\ dodge_score g' = 0).
Proof.
  refine (conj _ (conj _ (conj _ (conj _ _)))).
  - intros g. cbv zeta.
    destruct (init_dodge_game_resets env g) as (A & B & C & D).
    pose proof (init_dodge_game_interval g) as E.
    revert A B C D E. generalize (init_dodge_game env g). cbv zeta.
    intros g' A B C D E. auto.
  - apply case_GAME_DODGE_interval.
  - intros g H. apply (winning_cleanup_positive g H).
  - intros fuel g g' Hst E. apply (frame_outside_dodge fuel g g' Hst E).
  - intros fuel n g Hout H0.
    destruct (frames_outside_dodge fuel n g Hout H0) as (g' & F & K1 & K2).
    exists g'. auto.
Qed.

End Screens.

Section DodgeScoring.

Variable env : Env.

(** ** Scoring in Dodge *)

Lemma dodge_block_step_skips (delta_time : f32) (i : nat) (g : Game) :
  (forall b, dodge_blocks g !! i = Some b -> active b = false) ->
  dodge_block_step env delta_time i g = (g, false).
Proof.
  intros H. unfold dodge_block_step.
  destruct (dodge_blocks g !! i) as [b|]; [|reflexivity].
  now rewrite (H b eq_refl).
Qed.

Lemma dodge_block_step_visits (delta_time : f32) (i : nat) (g : Game) (b : DodgeBlock) :
  dodge_blocks g !! i = Some b -> active b = true ->
  let g' := fst (dodge_block_step env delta_time i g) in
  let hit := snd (dodge_block_step env delta_time i g) in
  let retired := off_screen (moved_block delta_time b) in
  let score := int32 (dodge_score g + 1) in
  let record := retired && (score >? dodge_high_score g) in
  dodge_blocks g' = <[i := block_pass delta_time b]> (dodge_blocks g)
  /\ dodge_score g' = (if retired then score else dodge_score g)
  /\ dodge_high_score g' = (if record then score else dodge_high_score g)
  /\ hit = collides env delta_time (player g) (dodge_blocks g) i
  /\ state g' = (if hit then WINNING else state g)
  /\ player g' = player g
  /\ trace g'
     = trace g
       ++ (if record
           then [to_profile_file (selected_player_index g)
                   (fun file => write_dodge_high_score file score)]
           else [])
       ++ (if hit then [Mix_PlayChannel reset_sound] else []).
Proof.
  intros Hb Ha. cbv zeta. unfold dodge_block_step, block_pass, collides.
  rewrite Hb, Ha. cbv zeta.
  unfold off_screen, moved_block, emit, block_rect, player_rect.
  cbn [bx by_ speed active andb]. rewrite Ha.
  destruct (_ <? _)%f32; game_simpl.
  - destruct (int32 (dodge_score g + 1) >? dodge_high_score g); game_simpl;
      destruct (SDL_HasIntersection env _ _); game_simpl;
      rewrite ?list_insert_insert_eq; cbn [andb fst snd];
      rewrite <- ?app_assoc, ?app_nil_r; repeat split.
  - destruct (SDL_HasIntersection env _ _); game_simpl; cbn [andb fst snd];
      rewrite <- ?app_assoc, ?app_nil_r; repeat split.
Qed.

(** One step of the pass, slot by slot. *)
Lemma dodge_block_step_slots (delta_time : f32) (i : nat) (g : Game) :
  let g' := fst (dodge_block_step env delta_time i g) in
  let hit := snd (dodge_block_step env delta_time i g) in
  (forall j, dodge_blocks g' !! j
             = if decide (j = i) then block_pass delta_time <$> dodge_blocks g !! j
               else dodge_blocks g !! j)
  /\ dodge_score g'
     = (if 0 <? retired_at delta_time (dodge_blocks g) i
        then int32 (dodge_score g + 1) else dodge_score g)
  /\ dodge_high_score g'
     = (if 0 <? retired_at delta_time (dodge_blocks g) i
        then Z.max (dodge_high_score g) (int32 (dodge_score g + 1))
        else dodge_high_score g)
  /\ hit = collides env delta_time (player g) (dodge_blocks g) i
  /\ state g' = (if hit then WINNING else state g)
  /\ player g' = player g.
Proof.
  cbv zeta. unfold retired_at, retires.
  destruct (dodge_blocks g !! i) as [b|] eqn:Hb.
  - destruct (active b) eqn:Ha.
    + destruct (dodge_block_step_visits delta_time i g b Hb Ha)
        as (A & B & H & C & D & E & _).
      revert A B H C D E. destruct (dodge_block_step env delta_time i g) as [g' hit].
      cbv zeta. cbn [fst snd]. intros A B H C D E.
      refine (conj _ (conj _ (conj _ (conj C (conj D E))))).
      * intros j. rewrite A. destruct (decide (j = i)) as [->|Hne].
        -- rewrite Hb. apply list_lookup_insert_eq.
           now apply lookup_lt_Some in Hb.
        -- now apply list_lookup_insert_ne.
      * rewrite B. cbn [andb].
        now destruct (off_screen (moved_block delta_time b)).
      * rewrite H. cbn [andb].
        destruct (off_screen (moved_block delta_time b)); cbn [andb];
          [|reflexivity].
        change (0 <? 1) with true. cbv iota.
        destruct (Z.gtb_spec (int32 (dodge_score g + 1)) (dodge_high_score g));
          lia.
    + rewrite dodge_block_step_skips by (intros b' Hb'; congruence).
      unfold collides. rewrite Hb, Ha. cbn [fst snd andb].
      refine (conj _ (conj eq_refl (conj eq_refl
                (conj eq_refl (conj eq_refl eq_refl))))).
      intros j. destruct (decide (j = i)) as [->|]; [|reflexivity].
      rewrite Hb. cbn [fmap option_fmap option_map].
      unfold block_pass. now rewrite Ha.
  - rewrite dodge_block_step_skips by (intros b' Hb'; congruence).
    unfold collides. rewrite Hb. cbn [fst snd].
    refine (conj _ (conj eq_refl (conj eq_refl
              (conj eq_refl (conj eq_refl eq_refl))))).
    intros j. destruct (decide (j = i)) as [->|]; [|reflexivity].
    now rewrite Hb.
Qed.

Lemma retired_at_bounds (delta_time : f32) (pool : list DodgeBlock) (i : nat) :
  0 <= retired_at delta_time pool i <= 1.
Proof.
  unfold retired_at. destruct (pool !! i) as [b|]; [|lia].
  destruct (retires delta_time b); lia.
Qed.

Lemma retired_from_bounds (delta_time : f32) (pool : list DodgeBlock) (n : nat) :
  forall i, 0 <= retired_from delta_time pool i n <= Z.of_nat n.
Proof.
  induction n as [|n IH]; intros i; cbn [retired_from]; [lia|].
  pose proof (retired_at_bounds delta_time pool i).
  pose proof (IH (S i)). lia.
Qed.

Lemma retired_from_ext (delta_time : f32) (pool pool' : list DodgeBlock) (n : nat) :
  forall i, (forall j, (i <= j)%nat -> pool' !! j = pool !! j) ->
  retired_from delta_time pool' i n = retired_from delta_time pool i n.
Proof.
  induction n as [|n IH]; intros i H; [reflexivity|].
  cbn [retired_from]. unfold retired_at. rewrite (H i) by lia.
  rewrite IH; [reflexivity|]. intros j Hj. apply H. lia.
Qed.

Lemma collides_ext (delta_time : f32) (p : PlayerObject)
    (pool pool' : list DodgeBlock) (j : nat) :
  pool' !! j = pool !! j ->
  collides env delta_time p pool' j = collides env delta_time p pool j.
Proof. unfold collides. now intros ->. Qed.

Lemma slots_visited_ext (delta_time : f32) (p : PlayerObject)
    (pool pool' : list DodgeBlock) (n : nat) :
  forall i, (forall j, (i <= j)%nat -> pool' !! j = pool !! j) ->
  slots_visited env delta_time p pool' i n
  = slots_visited env delta_time p pool i n
  /\ pass_collides env delta_time p pool' i n
     = pass_collides env delta_time p pool i n.
Proof.
  induction n as [|n IH]; intros i H; [now split|].
  cbn [slots_visited pass_collides].
  rewrite (collides_ext delta_time p pool pool' i) by (apply H; lia).
  destruct (IH (S i)) as [-> ->]; [intros j Hj; apply H; lia|].
  now split.
Qed.

Lemma slots_visited_le (delta_time : f32) (p : PlayerObject)
    (pool : list DodgeBlock) (n : nat) :
  forall i, (slots_visited env delta_time p pool i n <= n)%nat
            /\ (pass_collides env delta_time p pool i n = false ->
                slots_visited env delta_time p pool i n = n).
Proof.
  induction n as [|n IH]; intros i; cbn [slots_visited pass_collides];
    [now split|].
  destruct (collides env delta_time p pool i); cbn [orb].
  - split; [lia|discriminate].
  - destruct (IH (S i)) as [A B]. split; [lia|]. intros H. now rewrite B.
Qed.

(** A pass that collides stops right after the first colliding slot. *)
Lemma slots_visited_first (delta_time : f32) (p : PlayerObject)
    (pool : list DodgeBlock) (n : nat) :
  forall i, pass_collides env delta_time p pool i n = true ->
  exists c, slots_visited env delta_time p pool i n = S c /\ (c < n)%nat
            /\ collides env delta_time p pool (i + c) = true
            /\ forall j, (j < c)%nat ->
                 collides env delta_time p pool (i + j) = false.
Proof.
  induction n as [|n IH]; intros i; cbn [slots_visited pass_collides];
    [discriminate|].
  destruct (collides env delta_time p pool i) eqn:E; cbn [orb].
  - intros _. exists 0%nat. rewrite Nat.add_0_r.
    refine (conj eq_refl (conj _ (conj E _))); [lia|]. intros j Hj. lia.
  - intros H. destruct (IH (S i) H) as (c & A & B & C & D).
    exists (S c). rewrite A.
    refine (conj eq_refl (conj _ (conj _ _))); [lia| |].
    + now replace (i + S c)%nat with (S i + c)%nat by lia.
    + intros [|j] Hj; [now rewrite Nat.add_0_r|].
      replace (i + S j)%nat with (S i + j)%nat by lia. apply D. lia.
Qed.

(** The high score after a run of retirements that has added [count] to the
    score: untouched when nothing retired, otherwise the larger of the old
    high score and the new score. *)
Lemma high_score_chain (high score r c h1 h' : Z) :
  0 <= r <= 1 -> 0 <= c ->
  h1 = (if 0 <? r then Z.max high (score + 1) else high) ->
  h' = (if 0 <? c then Z.max h1 (score + r + c) else h1) ->
  h' = (if 0 <? r + c then Z.max high (score + (r + c)) else high).
Proof.
  intros Hr Hc -> ->.
  destruct (Z.ltb_spec 0 r), (Z.ltb_spec 0 c), (Z.ltb_spec 0 (r + c)); lia.
Qed.

(** The pass visits the slots [i], [i+1], ... in order and stops after the
    first collision: the slots it has visited are passed, the others are as
    before, and the score has grown by the number of visited blocks that
    retired. *)
Lemma for_loop_break_pass (delta_time : f32) (n : nat) : forall (i : nat) (g : Game),
  INT_MIN <= dodge_score g -> dodge_score g + Z.of_nat n <= INT_MAX ->
  let g' := for_loop_break n i (dodge_block_step env delta_time) g in
  let k := slots_visited env delta_time (player g) (dodge_blocks g) i n in
  let count := retired_from delta_time (dodge_blocks g) i k in
  (forall j, (i <= j < i + k)%nat ->
     dodge_blocks g' !! j = block_pass delta_time <$> dodge_blocks g !! j)
  /\ (forall j, (j < i \/ i + k <= j)%nat ->
        dodge_blocks g' !! j = dodge_blocks g !! j)
  /\ dodge_score g' = dodge_score g + count
  /\ dodge_high_score g'
     = (if 0 <? count then Z.max (dodge_high_score g) (dodge_score g + count)
        else dodge_high_score g)
  /\ state g'
     = (if pass_collides env delta_time (player g) (dodge_blocks g) i n
        then WINNING else state g)
  /\ player g' = player g.
Proof.
  induction n as [|n IH]; intros i g Hlo Hhi; cbv zeta.
  - cbn [for_loop_break slots_visited pass_collides retired_from].
    change (0 <? 0) with false. cbv iota.
    refine (conj _ (conj _ (conj _ (conj eq_refl (conj eq_refl eq_refl)))));
      [intros j ?; lia|auto|lia].
  - cbn [for_loop_break slots_visited pass_collides].
    destruct (dodge_block_step_slots delta_time i g) as (A & B & H & C & D & E).
    destruct (dodge_block_step env delta_time i g) as [g1 stop].
    cbn [fst snd] in A, B, H, C, D, E. rewrite <- C.
    pose proof (retired_at_bounds delta_time (dodge_blocks g) i) as Hr.
    assert (B' : dodge_score g1
                 = dodge_score g + retired_at delta_time (dodge_blocks g) i).
    { rewrite B. destruct (Z.ltb_spec 0 (retired_at delta_time (dodge_blocks g) i)).
      - rewrite int32_in_range by lia. lia.
      - lia. }
    assert (H' : dodge_high_score g1
                 = (if 0 <? retired_at delta_time (dodge_blocks g) i
                    then Z.max (dodge_high_score g) (dodge_score g + 1)
                    else dodge_high_score g)).
    { rewrite H. destruct (Z.ltb_spec 0 (retired_at delta_time (dodge_blocks g) i)).
      - rewrite int32_in_range by lia. reflexivity.
      - reflexivity. }
    clear B H. destruct stop.
    + cbn [orb retired_from].
      refine (conj _ (conj _ (conj _ (conj _ (conj D E))))); [| |lia|].
      * intros j Hj. rewrite A. destruct (decide (j = i)); [reflexivity|lia].
      * intros j Hj. rewrite A. destruct (decide (j = i)); [lia|reflexivity].
      * rewrite H', Z.add_0_r.
        destruct (Z.ltb_spec 0 (retired_at delta_time (dodge_blocks g) i));
          [|reflexivity].
        f_equal. lia.
    + cbn [orb].
      assert (Hext : forall j, (S i <= j)%nat ->
                       dodge_blocks g1 !! j = dodge_blocks g !! j).
      { intros j Hj. rewrite A. destruct (decide (j = i)); [lia|reflexivity]. }
      destruct (slots_visited_ext delta_time (player g) (dodge_blocks g)
                  (dodge_blocks g1) n (S i) Hext) as [Ek Ec].
      specialize (IH (S i) g1). cbv zeta in IH. rewrite E, Ek, Ec in IH.
      destruct IH as (IC & ID & IE & IH & IS & IG); [lia|lia|].
      revert IC ID IE IH IS IG.
      generalize (for_loop_break n (S i) (dodge_block_step env delta_time) g1).
      generalize (slots_visited env delta_time (player g) (dodge_blocks g) (S i) n).
      intros k g' IC ID IE IH IS IG. cbn [retired_from].
      rewrite (retired_from_ext delta_time (dodge_blocks g) (dodge_blocks g1))
        in IE, IH by exact Hext.
      pose proof (retired_from_bounds delta_time (dodge_blocks g) k (S i)) as Hc.
      refine (conj _ (conj _ (conj _ (conj _ (conj _ _))))).
      * intros j Hj. destruct (decide (j = i)) as [->|Hne].
        -- rewrite ID by lia. rewrite A. now destruct (decide (i = i)).
        -- rewrite IC by lia. rewrite A. now destruct (decide (j = i)).
      * intros j Hj. rewrite ID by lia. rewrite A.
        destruct (decide (j = i)); [lia|reflexivity].
      * rewrite IE, B'. lia.
      * rewrite B' in IH.
        exact (high_score_chain _ _ _ _ _ _ Hr (proj1 Hc) H' IH).
      * rewrite IS, D. reflexivity.
      * exact IG.
Qed.

Lemma dodge_blocks_loop_pass_spec (delta_time : f32) (g : Game) :
  score_in_range g ->
  let g' := dodge_blocks_loop env delta_time g in
  let n := Z.to_nat MAX_DODGE_BLOCKS in
  let k := slots_visited env delta_time (player g) (dodge_blocks g) 0 n in
  let hit := pass_collides env delta_time (player g) (dodge_blocks g) 0 n in
  let count := retired_from delta_time (dodge_blocks g) 0 k in
  (forall j, (j < k)%nat ->
     dodge_blocks g' !! j = block_pass delta_time <$> dodge_blocks g !! j)
  /\ (forall j, (k <= j)%nat -> dodge_blocks g' !! j = dodge_blocks g !! j)
  /\ dodge_score g' = dodge_score g + count
  /\ dodge_high_score g'
     = (if 0 <? count then Z.max (dodge_high_score g) (dodge_score g + count)
        else dodge_high_score g)
  /\ state g' = (if hit then WINNING else state g)
  /\ (hit = false -> k = n)
  /\ (hit = true ->
      exists c, k = S c /\ (c < n)%nat
                /\ collides env delta_time (player g) (dodge_blocks g) c = true
                /\ forall j, (j < c)%nat ->
                     collides env delta_time (player g) (dodge_blocks g) j
                     = false).
Proof.
  intros [Hlo Hhi]. cbv zeta. unfold dodge_blocks_loop.
  destruct (for_loop_break_pass delta_time (Z.to_nat MAX_DODGE_BLOCKS) 0 g)
    as (A & B & C & H & D & _); [exact Hlo|exact Hhi|].
  revert A B C H D.
  generalize (for_loop_break (Z.to_nat MAX_DODGE_BLOCKS) 0
                (dodge_block_step env delta_time) g).
  intros g' A B C H D.
  refine (conj _ (conj _ (conj C (conj H (conj D (conj _ _)))))).
  - intros j Hj. apply A. lia.
  - intros j Hj. apply B. lia.
  - apply slots_visited_le.
  - apply (slots_visited_first delta_time (player g) (dodge_blocks g)
             (Z.to_nat MAX_DODGE_BLOCKS) 0).
Qed.

(** In the Dodge case only the pass changes the score, the high score and
    the state, and it runs on the state that the movement update has left. *)
Lemma case_GAME_DODGE_score (delta_time : f32) (g : Game) :
  score_in_range g ->
  let g' := case_GAME_DODGE env delta_time g in
  let p := player (moved_in_dodge delta_time g) in
  let n := Z.to_nat MAX_DODGE_BLOCKS in
  let k := slots_visited env delta_time p (dodge_blocks g) 0 n in
  let hit := pass_collides env delta_time p (dodge_blocks g) 0 n in
  let count := retired_from delta_time (dodge_blocks g) 0 k in
  dodge_score g' = dodge_score g + count
  /\ dodge_high_score g'
     = (if 0 <? count then Z.max (dodge_high_score g) (dodge_score g + count)
        else dodge_high_score g)
  /\ state g' = (if hit then WINNING else state g)
  /\ (hit = false -> k = n)
  /\ (hit = true ->
      exists c, k = S c /\ (c < n)%nat
                /\ collides env delta_time p (dodge_blocks g) c = true
                /\ forall j, (j < c)%nat ->
                     collides env delta_time p (dodge_blocks g) j = false).
Proof.
  intros Hr. cbv zeta. unfold case_GAME_DODGE. cbv zeta.
  fold (dodge_target_x g). fold (dodge_target_y g). fold (dodge_input g).
  fold (moved_in_dodge delta_time g).
  assert (KX : dodge (moved_in_dodge delta_time g) = dodge g
               /\ state (moved_in_dodge delta_time g) = state g).
  { unfold moved_in_dodge. destruct (dodge_input g); [|now split].
    pose proof (update_player_position_keeps (dodge_target_x g)
                  (dodge_target_y g) delta_time g) as K.
    revert K. generalize (update_player_position (dodge_target_x g)
                            (dodge_target_y g) delta_time g).
    intros s K. unfold_tuples. open_tuples. now split. }
  revert KX. generalize (moved_in_dodge delta_time g). intros g1 [K1 K2].
  assert (Hr1 : score_in_range g1) by (unfold score_in_range in *; now rewrite K1).
  destruct (dodge_blocks_loop_pass_spec delta_time g1 Hr1)
    as (_ & _ & C & H & D & F & G).
  revert C H D. generalize (dodge_blocks_loop env delta_time g1). intros g2 C H D.
  rewrite K1 in C, H, F, G. rewrite K1, K2 in D.
  rewrite <- C at 1. rewrite <- H. rewrite <- D.
  refine (conj _ (conj _ (conj _ (conj F G))));
  repeat first
    [ match goal with |- ?a = ?a => reflexivity end
    | match goal with
      | |- _ (_ (if ?b then _ else _)) = _ => destruct b
      end
    | peel
    | peel_with (spawn_dodge_block_spawned env) ].
Qed.

Lemma retired_block_stays_out (delta_time delta_time' : f32) (b : DodgeBlock) :
  retires delta_time b = true ->
  active (block_pass delta_time b) = false
  /\ retires delta_time' (block_pass delta_time b) = false.
Proof.
  unfold retires, block_pass. intros H. apply andb_prop in H.
  destruct H as [-> ->]. now split.
Qed.

(** A visited active block, with the score below [INT_MAX] and a player
    profile selected. *)
Lemma dodge_block_step_retires (delta_time : f32) (i : nat) (g : Game)
    (b : DodgeBlock) :
  dodge_blocks g !! i = Some b -> active b = true ->
  INT_MIN <= dodge_score g < INT_MAX ->
  0 <= selected_player_index g < num_players ->
  let g' := fst (dodge_block_step env delta_time i g) in
  let retired := off_screen (moved_block delta_time b) in
  let record := retired && (dodge_score g + 1 >? dodge_high_score g) in
  let hit := collides env delta_time (player g) (dodge_blocks g) i in
  dodge_blocks g' !! i = Some (block_pass delta_time b)
  /\ active (block_pass delta_time b) = negb retired
  /\ dodge_score g' = dodge_score g + (if retired then 1 else 0)
  /\ dodge_high_score g'
     = (if record then dodge_score g + 1 else dodge_high_score g)
  /\ trace g'
     = trace g
       ++ (if record
           then [write_dodge_high_score (selected_player_index g)
                   (dodge_score g + 1)]
           else [])
       ++ (if hit then [Mix_PlayChannel reset_sound] else []).
Proof.
  intros Hb Ha Hs Hp. cbv zeta.
  destruct (dodge_block_step_visits delta_time i g b Hb Ha)
    as (A & B & C & D & _ & _ & T).
  revert A B C D T. destruct (dodge_block_step env delta_time i g) as [g' hit].
  cbv zeta. cbn [fst snd]. rewrite int32_in_range by lia.
  rewrite to_profile_file_valid by exact Hp.
  intros A B C D T. subst hit.
  refine (conj _ (conj _ (conj _ (conj C T)))).
  - rewrite A. apply list_lookup_insert_eq. now apply lookup_lt_Some in Hb.
  - unfold block_pass. rewrite Ha.
    destruct (off_screen (moved_block delta_time b)); [reflexivity|exact Ha].
  - rewrite B. destruct (off_screen (moved_block delta_time b)); lia.
Qed.

Lemma before_switch_reaches (g : Game) (delta_time : f32) (r : Z) (g3 : Game) :
  state g = GAME_DODGE ->
  before_switch env g = (delta_time, r, g3) ->
  dodge g3 = dodge g
  /\ (state g3 = GAME_DODGE \/ state g3 = CONNECTING)
  /\ exists g2,
       dodge g2 = dodge g
       /\ forall fuel,
            frame env fuel g
            = if negb (r =? 0) then Some (back_to_connecting env g2)
              else match switch_state env fuel delta_time g3 with
                   | Some (true, s) => Some s
                   | Some (false, s) => Some (snd (SDL_GetTicks env s))
                   | None => None
                   end.
Proof.
  intros Hst. unfold before_switch, frame.
  pose proof (begin_frame_keeps env g) as Hb.
  destruct (begin_frame env g) as [[dt current_time] g1].
  cbn [snd] in Hb. cbn zeta in Hb. destruct Hb as (_ & _ & Hs1 & Hd1).
  destruct (decide (state g1 = CONNECTING)) as [E|_]; [congruence|].
  pose proof (read_wii_balance_board_data_keeps env g1) as Hr.
  destruct (read_wii_balance_board_data env g1) as [r' g2].
  cbn [snd] in Hr. cbn zeta in Hr.
  destruct Hr as (_ & Hd2 & _ & _ & _ & Hl & _).
  assert (Hs2 : state g2 = GAME_DODGE)
    by (unfold locals_but_cob in Hl; congruence).
  pose proof (inactivity_check_keeps env current_time g2) as Hi.
  revert Hi. generalize (inactivity_check env current_time g2).
  intros s Hi E. cbn zeta in Hi. destruct Hi as (_ & _ & Hd3 & Hs3).
  assert (E1 : dt = delta_time) by congruence.
  assert (E2 : r' = r) by congruence.
  assert (E3 : s = g3) by congruence.
  subst dt r' s. clear E.
  refine (conj _ (conj _ _)).
  - congruence.
  - destruct Hs3 as [Hs3|Hs3]; [left|right]; congruence.
  - exists g2. split; [congruence|]. intros fuel.
    destruct (negb (r =? 0)); [reflexivity|].
    destruct (switch_state env fuel delta_time g3) as [[[|] s]|]; reflexivity.
Qed.

(** A frame that starts in the Dodge state. *)
Lemma dodge_frame_score (fuel : nat) (g : Game) (delta_time : f32) (r : Z)
    (g3 : Game) :
  state g = GAME_DODGE -> score_in_range g ->
  before_switch env g = (delta_time, r, g3) ->
  exists g',
    frame env fuel g = Some g'
    /\ (r = 0 -> state g3 = GAME_DODGE ->
        let p := player (moved_in_dodge delta_time g3) in
        let n := Z.to_nat MAX_DODGE_BLOCKS in
        let k := slots_visited env delta_time p (dodge_blocks g) 0 n in
        let hit := pass_collides env delta_time p (dodge_blocks g) 0 n in
        let count := retired_from delta_time (dodge_blocks g) 0 k in
        dodge_score g' = dodge_score g + count
        /\ dodge_high_score g'
           = (if 0 <? count
              then Z.max (dodge_high_score g) (dodge_score g + count)
              else dodge_high_score g)
        /\ state g' = (if hit then WINNING else GAME_DODGE)
        /\ (hit = false -> k = n)
        /\ (hit = true ->
            exists c, k = S c /\ (c < n)%nat
                      /\ collides env delta_time p (dodge_blocks g) c = true
                      /\ forall j, (j < c)%nat ->
                           collides env delta_time p (dodge_blocks g) j
                           = false))
    /\ (r <> 0 \/ state g3 <> GAME_DODGE ->
        dodge_score g' = dodge_score g
        /\ dodge_high_score g' = dodge_high_score g).
Proof.
  intros Hst Hr Hbs.
  destruct (before_switch_reaches g delta_time r g3 Hst Hbs)
    as (Hd3 & Hs3 & g2 & Hd2 & Hf).
  rewrite (Hf fuel). clear Hf Hbs.
  destruct (Z.eqb_spec r 0) as [Hr0|Hr0]; cbn [negb].
  - unfold switch_state. destruct Hs3 as [Hs3|Hs3]; rewrite Hs3.
    + assert (Hr3 : score_in_range g3)
        by (unfold score_in_range in *; now rewrite Hd3).
      pose proof (case_GAME_DODGE_score delta_time g3 Hr3) as K.
      cbv zeta in K. rewrite Hd3, Hs3 in K. revert K.
      generalize (case_GAME_DODGE env delta_time g3). intros g4 K.
      eexists. split; [reflexivity|]. split.
      * intros _ _. cbv zeta. exact K.
      * intros [H|H]; [lia|congruence].
    + pose proof (case_CONNECTING_keeps env g3) as (_ & _ & K).
      revert K. generalize (case_CONNECTING env g3). intros g4 K.
      eexists. split; [reflexivity|]. split.
      * intros _ H. congruence.
      * intros _. change (dodge (snd (SDL_GetTicks env g4))) with (dodge g4).
        rewrite K, Hd3. now split.
  - pose proof (back_to_connecting_keeps env g2) as (_ & K & _).
    revert K. generalize (back_to_connecting env g2). intros g4 K.
    eexists. split; [reflexivity|]. split.
    + intros H. contradiction.
    + intros _. rewrite K, Hd2. now split.
Qed.

(** C8: in the pass over the block pool of a Dodge frame a visited active
    block is moved, and when it has then fully left the window on the left
    ([x + BLOCK_WIDTH < 0]) it is deactivated in that same step, the score
    grows by one, and a score above the high score becomes the high score and
    is written to the selected player's file.  Inactive slots are skipped and
    a retired block is inactive, so it is not counted again.  The pass visits
    the slots in order, all [MAX_DODGE_BLOCKS] of them unless a block
    collides with the avatar, and then those up to the first colliding one;
    over the pass, and over every frame that starts in the Dodge state, the
    score grows by exactly the number of visited blocks that retired (by
    nothing when the frame does not reach the Dodge case), and the high score
    ends as the larger of its old value and the new score when a block
    retired.  The score is taken below the point where an [int] overflows. *)
Theorem dodge_score_counts_retired_blocks :
  (forall (delta_time : f32) (i : nat) (g : Game) (b : DodgeBlock),
     dodge_blocks g !! i = Some b -> active b = true ->
     INT_MIN <= dodge_score g < INT_MAX ->
     0 <= selected_player_index g < num_players ->
     let g' := fst (dodge_block_step env delta_time i g) in
     let retired := off_screen (moved_block delta_time b) in
     let record := retired && (dodge_score g + 1 >? dodge_high_score g) in
     let hit := collides env delta_time (player g) (dodge_blocks g) i in
     dodge_blocks g' !! i = Some (block_pass delta_time b)
     /\ active (block_pass delta_time b) = negb retired
     /\ dodge_score g' = dodge_score g + (if retired then 1 else 0)
     /\ dodge_high_score g'
        = (if record then dodge_score g + 1 else dodge_high_score g)
     /\ trace g'
        = trace g
          ++ (if record
              then [write_dodge_high_score (selected_player_index g)
                      (dodge_score g + 1)]
              else [])
          ++ (if hit then [Mix_PlayChannel reset_sound] else []))
  /\ (forall (delta_time : f32) (i : nat) (g : Game),
        (forall b, dodge_blocks g !! i = Some b -> active b = false) ->
        dodge_block_step env delta_time i g = (g, false))
  /\ (forall (delta_time delta_time' : f32) (b : DodgeBlock),
        retires delta_time b = true ->
        active (block_pass delta_time b) = false
        /\ retires delta_time' (block_pass delta_time b) = false)
  /\ (forall (delta_time : f32) (g : Game),
        score_in_range g ->
        let g' := dodge_blocks_loop env delta_time g in
        let n := Z.to_nat MAX_DODGE_BLOCKS in
        let k := slots_visited env delta_time (player g) (dodge_blocks g) 0 n in
        let hit := pass_collides env delta_time (player g) (dodge_blocks g) 0 n in
        let count := retired_from delta_time (dodge_blocks g) 0 k in
        (forall j, (j < k)%nat ->
           dodge_blocks g' !! j = block_pass delta_time <$> dodge_blocks g !! j)
        /\ (forall j, (k <= j)%nat ->
              dodge_blocks g' !! j = dodge_blocks g !! j)
        /\ dodge_score g' = dodge_score g + count
        /\ dodge_high_score g'
           = (if 0 <? count
              then Z.max (dodge_high_score g) (dodge_score g + count)
              else dodge_high_score g)
        /\ state g' = (if hit then WINNING else state g)
        /\ (hit = false -> k = n)
        /\ (hit = true ->
            exists c, k = S c /\ (c < n)%nat
                      /\ collides env delta_time (player g) (dodge_blocks g) c
                         = true
                      /\ forall j, (j < c)%nat ->
                           collides env delta_time (player g) (dodge_blocks g) j
                           = false))
  /\ (forall (fuel : nat) (g : Game) (delta_time : f32) (r : Z) (g3 : Game),
        state g = GAME_DODGE -> score_in_range g ->
        before_switch env g = (delta_time, r, g3) ->
        exists g',
          frame env fuel g = Some g'
          /\ (r = 0 -> state g3 = GAME_DODGE ->
              let p := player (moved_in_dodge delta_time g3) in
              let n := Z.to_nat MAX_DODGE_BLOCKS in
              let k := slots_visited env delta_time p (dodge_blocks g) 0 n in
              let hit := pass_collides env delta_time p (dodge_blocks g) 0 n in
              let count := retired_from delta_time (dodge_blocks g) 0 k in
              dodge_score g' = dodge_score g + count
              /\ dodge_high_score g'
                 = (if 0 <? count
                    then Z.max (dodge_high_score g) (dodge_score g + count)
                    else dodge_high_score g)
              /\ state g' = (if hit then WINNING else GAME_DODGE)
              /\ (hit = false -> k = n)
              /\ (hit = true ->
                  exists c, k = S c /\ (c < n)%nat
                            /\ collides env delta_time p (dodge_blocks g) c
                               = true
                            /\ forall j, (j < c)%nat ->
                                 collides env delta_time p (dodge_blocks g) j
                                 = false))
          /\ (r <> 0 \/ state g3 <> GAME_DODGE ->
              dodge_score g' = dodge_score g
              /\ dodge_high_score g' = dodge_high_score g)).
Proof.
  refine (conj _ (conj _ (conj _ (conj _ _)))).
  - apply dodge_block_step_retires.
  - apply dodge_block_step_skips.
  - apply retired_block_stays_out.
  - apply dodge_blocks_loop_pass_spec.
  - apply dodge_frame_score.
Qed.

End DodgeScoring.

Section CoinSpawn.

Variable env : Env.

(** ** Coin placement *)









End CoinSpawn.

Section Selection.

Variable env : Env.

(** ** The selection screens *)

Lemma select_player_spec (delta_time : f32) (g : Game) :
  let s := select_player delta_time g in
  player_selection_choice s
  = (if (current_total_weight g >? MIN_TOTAL_WEIGHT)%f32
     then zone_choice (x_cob g) 1 2 3 0 else 0)
  /\ timer_follows
       (negb (player_selection_choice s =? player_selection_choice g))
       (negb (player_selection_choice s =? 0))
       (menu_select_timer g) delta_time (menu_select_timer s)
  /\ but_menu s = but_menu g
  /\ selected_game s = selected_game g
  /\ current_difficulty s = current_difficulty g
  /\ difficulty_selection s = difficulty_selection g
  /\ selected_player_index s = selected_player_index g.
Proof.
  cbv zeta. unfold select_player. cbv zeta. game_simpl.
  destruct (current_total_weight g >? MIN_TOTAL_WEIGHT)%f32; game_simpl;
  match goal with
  | |- context [negb (?c =? player_selection_choice (menu g))] =>
      destruct (negb (c =? player_selection_choice g)) eqn:E1; game_simpl;
      destruct (negb (c =? 0)) eqn:E2; game_simpl;
      rewrite ?E1, ?E2
  end; repeat split.
Qed.

Lemma select_game_spec (delta_time : f32) (g : Game) :
  let s := select_game delta_time g in
  selected_game s
  = (if (current_total_weight g >? MIN_TOTAL_WEIGHT)%f32
     then zone_choice (x_cob g) BALANCE_HOLD DODGE COIN_COLLECTOR NO_GAME_SELECTED
     else NO_GAME_SELECTED)
  /\ timer_follows
       (negb (bool_decide (selected_game s = selected_game g)))
       (negb (bool_decide (selected_game s = NO_GAME_SELECTED)))
       (menu_select_timer g) delta_time (menu_select_timer s)
  /\ but_menu s = but_menu g
  /\ player_selection_choice s = player_selection_choice g
  /\ current_difficulty s = current_difficulty g
  /\ difficulty_selection s = difficulty_selection g
  /\ selected_player_index s = selected_player_index g.
Proof.
  cbv zeta. unfold select_game. cbv zeta. game_simpl.
  destruct (current_total_weight g >? MIN_TOTAL_WEIGHT)%f32; game_simpl;
  match goal with
  | |- context [negb (bool_decide (?c = selected_game (menu g)))] =>
      destruct (negb (bool_decide (c = selected_game g))) eqn:E1; game_simpl;
      destruct (negb (bool_decide (c = NO_GAME_SELECTED))) eqn:E2; game_simpl;
      rewrite ?E1, ?E2
  end; repeat split.
Qed.

Lemma select_difficulty_spec (delta_time : f32) (g : Game) :
  let s := select_difficulty delta_time g in
  difficulty_selection s
  = (if (current_total_weight g >? MIN_TOTAL_WEIGHT)%f32
     then zone_choice (x_cob g) 1 2 3 0 else 0)
  /\ timer_follows
       (negb (difficulty_selection s =? difficulty_selection g))
       (negb (difficulty_selection s =? 0))
       (menu_select_timer g) delta_time (menu_select_timer s)
  /\ but_menu s = but_menu g
  /\ player_selection_choice s = player_selection_choice g
  /\ current_difficulty s = current_difficulty g
  /\ selected_game s = selected_game g
  /\ selected_player_index s = selected_player_index g.
Proof.
  cbv zeta. unfold select_difficulty. cbv zeta. game_simpl.
  destruct (current_total_weight g >? MIN_TOTAL_WEIGHT)%f32; game_simpl;
  match goal with
  | |- context [negb (?c =? difficulty_selection (menu g))] =>
      destruct (negb (c =? difficulty_selection g)) eqn:E1; game_simpl;
      destruct (negb (c =? 0)) eqn:E2; game_simpl;
      rewrite ?E1, ?E2
  end; repeat split.
Qed.

Lemma commit_player_spec (g : Game) :
  let g' := commit_player env g in
  state g' = MAIN_MENU
  /\ selected_player_index g' = player_selection_choice g - 1
  /\ lowest_time_to_win g' = read_lowest_time env (player_selection_choice g - 1)
  /\ total_wins g' = read_total_wins env (player_selection_choice g - 1)
  /\ menu_select_timer g' = #0%f32
  /\ trace g' = trace g ++ [Mix_PlayChannel select_sound].
Proof. repeat split. Qed.

Lemma commit_game_spec (g : Game) :
  let g' := commit_game env g in
  state g' = (if bool_decide (selected_game g = DODGE)
              then GAME_DODGE else DIFFICULTY_SELECTION)
  /\ selected_game g' = selected_game g
  /\ menu_select_timer g' = #0%f32
  /\ trace g' = trace g ++ [Mix_PlayChannel select_sound].
Proof.
  cbv zeta. unfold commit_game. cbv zeta.
  destruct (bool_decide (selected_game g = DODGE)); [|repeat split].
  match goal with
  | |- context [init_dodge_game env ?X] =>
      pose proof (init_dodge_game_keeps env X) as K;
      assert (KX : state X = GAME_DODGE /\ menu X = menu g /\ trace X = trace g)
        by (repeat split);
      revert K KX; generalize X; intro s;
      generalize (init_dodge_game env s)
  end.
  intros s' K (K1 & K2 & K3). unfold_tuples. open_tuples.
  unfold emit. game_simpl.
  refine (conj _ (conj _ (conj eq_refl _))); congruence.
Qed.

Lemma start_selected_game_spec (fuel : nat) (g g' : Game) :
  start_selected_game env fuel g = Some g' ->
  state g' = match selected_game g with
             | BALANCE_HOLD => GAME_BALANCE_HOLD
             | COIN_COLLECTOR => GAME_COIN_COLLECTOR
             | DODGE => GAME_DODGE
             | NO_GAME_SELECTED => state g
             end
  /\ menu g' = menu g /\ trace g' = trace g.
Proof.
  unfold start_selected_game.
  destruct (selected_game g); cbv zeta.
  - intros [= <-]. repeat split.
  - match goal with
    | |- Some (set_coins 0 (init_balance_hold_game env ?X)) = _ -> _ =>
        pose proof (init_balance_hold_game_keeps env X) as K;
        assert (KX : state X = GAME_BALANCE_HOLD /\ menu X = menu g
                     /\ trace X = trace g) by (repeat split);
        revert K KX; generalize X; intro s;
        generalize (init_balance_hold_game env s)
    end.
    intros s' K (K1 & K2 & K3) [= <-]. unfold_tuples. open_tuples.
    game_simpl. repeat split; congruence.
  - match goal with
    | |- match init_coin_collector_game env fuel ?X with _ => _ end = _ -> _ =>
        destruct (init_coin_collector_game env fuel X) as [s'|] eqn:E;
        [|discriminate];
        apply init_coin_collector_game_keeps in E;
        assert (KX : state X = GAME_COIN_COLLECTOR /\ menu X = menu g
                     /\ trace X = trace g) by (repeat split);
        revert E KX; generalize X; intro s; generalize s'; clear s'
    end.
    intros s' K (K1 & K2 & K3) [= <-]. unfold_tuples. open_tuples.
    game_simpl. repeat split; congruence.
  - match goal with
    | |- Some (init_dodge_game env ?X) = _ -> _ =>
        pose proof (init_dodge_game_keeps env X) as K;
        assert (KX : state X = GAME_DODGE /\ menu X = menu g
                     /\ trace X = trace g) by (repeat split);
        revert K KX; generalize X; intro s;
        generalize (init_dodge_game env s)
    end.
    intros s' K (K1 & K2 & K3) [= <-]. unfold_tuples. open_tuples.
    repeat split; congruence.
Qed.

Lemma start_selected_game_returns (fuel : nat) (g : Game) :
  selected_game g <> COIN_COLLECTOR ->
  exists g', start_selected_game env fuel g = Some g'.
Proof.
  unfold start_selected_game. intros H.
  destruct (selected_game g); try congruence; cbv zeta; eexists; reflexivity.
Qed.

(** The difficulty that the commit of the difficulty screen sets. *)
Lemma commit_difficulty_spec (fuel : nat) (g g' : Game) :
  commit_difficulty env fuel g = Some g' ->
  current_difficulty g'
  = (if difficulty_selection g =? 1 then EASY
     else if difficulty_selection g =? 2 then MEDIUM
     else if difficulty_selection g =? 3 then HARD
     else current_difficulty g)
  /\ state g' = match selected_game g with
                | BALANCE_HOLD => GAME_BALANCE_HOLD
                | COIN_COLLECTOR => GAME_COIN_COLLECTOR
                | DODGE => GAME_DODGE
                | NO_GAME_SELECTED => state g
                end
  /\ selected_game g' = selected_game g
  /\ menu_select_timer g' = #0%f32
  /\ trace g' = trace g ++ [Mix_PlayChannel select_sound].
Proof.
  unfold commit_difficulty. cbv zeta.
  match goal with
  | |- match start_selected_game env fuel ?X with _ => _ end = _ -> _ =>
      assert (KX : current_difficulty X
                   = (if difficulty_selection g =? 1 then EASY
                      else if difficulty_selection g =? 2 then MEDIUM
                      else if difficulty_selection g =? 3 then HARD
                      else current_difficulty g)
                   /\ selected_game X = selected_game g
                   /\ state X = state g /\ trace X = trace g)
        by (repeat match goal with
                   | |- context [if ?b then _ else _] => destruct b
                   end; repeat split);
      revert KX; generalize X
  end.
  intros s (K1 & K2 & K3 & K4).
  destruct (start_selected_game env fuel s) as [s'|] eqn:E; [|discriminate].
  apply start_selected_game_spec in E. destruct E as (E1 & E2 & E3).
  revert E1 E2 E3. generalize s'. clear s'. intros s' E1 E2 E3 [= <-].
  unfold emit. game_simpl. rewrite E2, E3, K4, <- K1, <- K2, <- K3.
  refine (conj eq_refl (conj _ (conj eq_refl (conj eq_refl eq_refl)))).
  exact E1.
Qed.

Lemma commit_difficulty_returns (fuel : nat) (g : Game) :
  selected_game g <> COIN_COLLECTOR ->
  exists g', commit_difficulty env fuel g = Some g'.
Proof.
  intros H. unfold commit_difficulty. cbv zeta.
  match goal with
  | |- context [start_selected_game env fuel ?X] =>
      assert (KX : selected_game X = selected_game g)
        by (repeat match goal with
                   | |- context [if ?b then _ else _] => destruct b
                   end; reflexivity);
      revert KX; generalize X
  end.
  intros s K. rewrite <- K in H.
  destruct (start_selected_game_returns fuel s H) as [s' ->].
  eexists. reflexivity.
Qed.

Lemma but_menu_state_trace (s g : Game) :
  but_menu s = but_menu g -> state s = state g /\ trace s = trace g.
Proof.
  unfold but_menu. intros H. open_tuples.
  split; congruence.
Qed.

(** C5: on each of the three selection screens the choice is the zone of the
    centre of balance when the weight is above the threshold and empty
    otherwise; the timer goes back to zero in a frame whose choice differs
    from that of the frame before, and grows by [delta_time] exactly when the
    choice is not empty (so a new choice ends its first frame at
    [0 + delta_time]).  When the timer has then reached
    [MENU_SELECT_TIME_REQUIRED] the choice is committed: the screen's value
    is stored, the state moves on, the timer is zero again and the selection
    sound is played once.  Otherwise the frame changes nothing else. *)
Theorem selection_timer_semantics :
  (forall (delta_time : f32) (g : Game),
     let s := select_player delta_time g in
     let g' := case_PLAYER_SELECTION env delta_time g in
     player_selection_choice s
     = (if (current_total_weight g >? MIN_TOTAL_WEIGHT)%f32
        then zone_choice (x_cob g) 1 2 3 0 else 0)
     /\ timer_follows
          (negb (player_selection_choice s =? player_selection_choice g))
          (negb (player_selection_choice s =? 0))
          (menu_select_timer g) delta_time (menu_select_timer s)
     /\ (held_long_enough (menu_select_timer s) = true ->
           state g' = MAIN_MENU
           /\ selected_player_index g' = player_selection_choice s - 1
           /\ menu_select_timer g' = #0%f32
           /\ trace g' = trace g ++ [Mix_PlayChannel select_sound])
     /\ (held_long_enough (menu_select_timer s) = false ->
           g' = s /\ state g' = state g /\ trace g' = trace g
           /\ selected_player_index g' = selected_player_index g))
  /\ (forall (delta_time : f32) (g : Game),
        let s := select_game delta_time g in
        let g' := case_MAIN_MENU env delta_time g in
        selected_game s
        = (if (current_total_weight g >? MIN_TOTAL_WEIGHT)%f32
           then zone_choice (x_cob g) BALANCE_HOLD DODGE COIN_COLLECTOR
                  NO_GAME_SELECTED
           else NO_GAME_SELECTED)
        /\ timer_follows
             (negb (bool_decide (selected_game s = selected_game g)))
             (negb (bool_decide (selected_game s = NO_GAME_SELECTED)))
             (menu_select_timer g) delta_time (menu_select_timer s)
        /\ (held_long_enough (menu_select_timer s) = true ->
              state g' = (if bool_decide (selected_game s = DODGE)
                          then GAME_DODGE else DIFFICULTY_SELECTION)
              /\ selected_game g' = selected_game s
              /\ menu_select_timer g' = #0%f32
              /\ trace g' = trace g ++ [Mix_PlayChannel select_sound])
        /\ (held_long_enough (menu_select_timer s) = false ->
              g' = s /\ state g' = state g /\ trace g' = trace g))
  /\ (forall (fuel : nat) (delta_time : f32) (g : Game),
        let s := select_difficulty delta_time g in
        let r := case_DIFFICULTY_SELECTION env fuel delta_time g in
        difficulty_selection s
        = (if (current_total_weight g >? MIN_TOTAL_WEIGHT)%f32
           then zone_choice (x_cob g) 1 2 3 0 else 0)
        /\ timer_follows
             (negb (difficulty_selection s =? difficulty_selection g))
             (negb (difficulty_selection s =? 0))
             (menu_select_timer g) delta_time (menu_select_timer s)
        /\ (held_long_enough (menu_select_timer s) = true ->
              (selected_game g <> COIN_COLLECTOR -> exists g', r = Some g')
              /\ forall g', r = Some g' ->
                   current_difficulty g'
                   = (if difficulty_selection s =? 1 then EASY
                      else if difficulty_selection s =? 2 then MEDIUM
                      else if difficulty_selection s =? 3 then HARD
                      else current_difficulty g)
                   /\ state g' = match selected_game g with
                                 | BALANCE_HOLD => GAME_BALANCE_HOLD
                                 | COIN_COLLECTOR => GAME_COIN_COLLECTOR
                                 | DODGE => GAME_DODGE
                                 | NO_GAME_SELECTED => state g
                                 end
                   /\ menu_select_timer g' = #0%f32
                   /\ trace g' = trace g ++ [Mix_PlayChannel select_sound])
        /\ (held_long_enough (menu_select_timer s) = false ->
              r = Some s /\ state s = state g /\ trace s = trace g
              /\ current_difficulty s = current_difficulty g)).
Proof.
  refine (conj _ (conj _ _)).
  - intros delta_time g. cbv zeta. unfold case_PLAYER_SELECTION. cbv zeta.
    destruct (select_player_spec delta_time g) as (A & B & C & _ & _ & _ & D).
    revert A B C D. generalize (select_player delta_time g). cbv zeta.
    intros s A B C D. fold (held_long_enough (menu_select_timer s)).
    destruct (but_menu_state_trace s g C) as [Cs Ct].
    refine (conj A (conj B (conj _ _))); intros H; rewrite H.
    + destruct (commit_player_spec s) as (E1 & E2 & _ & _ & E3 & E4).
      revert E1 E2 E3 E4. generalize (commit_player env s). cbv zeta.
      intros g' E1 E2 E3 E4. rewrite <- Ct. auto.
    + auto.
  - intros delta_time g. cbv zeta. unfold case_MAIN_MENU. cbv zeta.
    destruct (select_game_spec delta_time g) as (A & B & C & _).
    revert A B C. generalize (select_game delta_time g). cbv zeta.
    intros s A B C. fold (held_long_enough (menu_select_timer s)).
    destruct (but_menu_state_trace s g C) as [Cs Ct].
    refine (conj A (conj B (conj _ _))); intros H; rewrite H.
    + destruct (commit_game_spec s) as (E1 & E2 & E3 & E4).
      revert E1 E2 E3 E4. generalize (commit_game env s). cbv zeta.
      intros g' E1 E2 E3 E4. rewrite <- Ct. auto.
    + auto.
  - intros fuel delta_time g. cbv zeta. unfold case_DIFFICULTY_SELECTION.
    cbv zeta.
    destruct (select_difficulty_spec delta_time g) as (A & B & C & _ & D & E & _).
    revert A B C D E. generalize (select_difficulty delta_time g). cbv zeta.
    intros s A B C D E. fold (held_long_enough (menu_select_timer s)).
    destruct (but_menu_state_trace s g C) as [Cs Ct].
    refine (conj A (conj B (conj _ _))); intros H; rewrite H.
    + split.
      * intros Hg. apply commit_difficulty_returns. congruence.
      * intros g' Hc. apply commit_difficulty_spec in Hc.
        destruct Hc as (F1 & F2 & _ & F3 & F4).
        rewrite <- D, <- E, <- Cs, <- Ct. auto.
    + auto.
Qed.

End Selection.

Section Winning.

Variable env : Env.

(** ** The win block *)

(** A loop whose step [i] overwrites particle [i]. *)
Lemma for_loop_fills (P : ConfettiParticle -> Prop) (body : nat -> Game -> Game) :
  (forall i s, exists c, P c /\ confetti (body i s) = <[i := c]> (confetti s)) ->
  forall (n i0 : nat) (g : Game),
    length (confetti (for_loop n i0 body g)) = length (confetti g)
    /\ (forall j, (j < i0 \/ i0 + n <= j)%nat ->
          confetti (for_loop n i0 body g) !! j = confetti g !! j)
    /\ (forall j c, (i0 <= j < i0 + n)%nat ->
          confetti (for_loop n i0 body g) !! j = Some c -> P c).
Proof.
  intros Hbody. induction n as [|n IH]; intros i0 g.
  - cbn [for_loop]. split; [reflexivity|]. split; [reflexivity|].
    intros j c Hj. lia.
  - cbn [for_loop]. destruct (IH (S i0) (body i0 g)) as (IH0 & IH1 & IH2).
    destruct (Hbody i0 g) as (c0 & Hc0 & E).
    revert IH0 IH1 IH2 E. generalize (for_loop n (S i0) body (body i0 g)).
    generalize (body i0 g). intros s s' IH0 IH1 IH2 E.
    split; [rewrite IH0, E; apply length_insert|]. split.
    + intros j Hj. rewrite IH1 by lia. rewrite E.
      apply list_lookup_insert_ne. lia.
    + intros j c Hj Hc. destruct (decide (j = i0)) as [->|Hne].
      * rewrite IH1 in Hc by lia. rewrite E in Hc.
        apply list_lookup_insert_Some in Hc.
        destruct Hc as [(_ & <- & _)|(Hc & _)]; [assumption|congruence].
      * apply (IH2 j c); [lia|assumption].
Qed.

Lemma init_confetti_launched (x0 y0 : f32) (g : Game) :
  confetti_pool g ->
  confetti_launched x0 y0 (init_confetti env x0 y0 g).
Proof.
  unfold confetti_launched, confetti_pool, init_confetti. intros Hlen.
  match goal with
  | |- context [for_loop ?n 0 ?body g] =>
      assert (Hbody : forall i s, exists c,
                fresh_particle x0 y0 c
                /\ confetti (body i s) = <[i := c]> (confetti s))
        by (intros j s; unfold rand; cbv beta iota zeta;
            eexists; split; [|reflexivity]; repeat split);
      destruct (for_loop_fills (fresh_particle x0 y0) body Hbody n 0%nat g)
        as (L0 & _ & L2);
      revert L0 L2; generalize (for_loop n 0 body g)
  end.
  intros s L0 L2. split; [congruence|].
  intros i c Hc. apply (L2 i c); [|exact Hc].
  apply lookup_lt_Some in Hc. lia.
Qed.

(** What the win block computes from the state [g] it is entered in and the
    clock reading it takes. *)
Lemma win_handling_spec (g : Game) :
  let g' := win_handling env g in
  let now := u32 (ticks_seq env (tick_calls g)) in
  let win_time := (#(u32 (now - game_start_time g)) / #1000)%f32 in
  let improved := (lowest_time_to_win g =? #(-1))%f32
                  || (win_time <? lowest_time_to_win g)%f32 in
  let wins := int32 (total_wins g + 1) in
  win_message_start_time g' = now
  /\ lowest_time_to_win g'
     = (if improved then win_time else lowest_time_to_win g)
  /\ total_wins g' = wins
  /\ trace g'
     = trace g ++ [Mix_HaltChannel; Mix_PlayChannel win_sound]
       ++ (if improved
           then [to_profile_file (selected_player_index g)
                   (fun file => write_lowest_time file win_time)]
           else [])
       ++ [to_profile_file (selected_player_index g)
             (fun file => write_total_wins file wins)]
  /\ (confetti_pool g ->
      confetti_launched (x (player g)) (y (player g)) g').
Proof.
  cbv zeta. unfold win_handling, SDL_GetTicks, emit. cbv beta iota zeta.
  match goal with
  | |- context [init_confetti env ?a ?b ?X] =>
      pose proof (init_confetti_keeps env a b X) as K;
      pose proof (init_confetti_launched a b X) as L;
      assert (Ka : a = x (player g)) by (game_simpl; now case_match);
      assert (Kb : b = y (player g)) by (game_simpl; now case_match);
      revert K L; generalize (init_confetti env a b X);
      revert Ka Kb; generalize a b;
      assert (KX :
        win_message_start_time X = u32 (ticks_seq env (tick_calls g))
        /\ lowest_time_to_win X
           = (if (lowest_time_to_win g =? #(-1))%f32
                 || (#(u32 (u32 (ticks_seq env (tick_calls g)) - game_start_time g))
                     / #1000 <? lowest_time_to_win g)%f32
              then (#(u32 (u32 (ticks_seq env (tick_calls g)) - game_start_time g))
                    / #1000)%f32
              else lowest_time_to_win g)
        /\ total_wins X = int32 (total_wins g + 1)
        /\ trace X
           = trace g ++ [Mix_HaltChannel; Mix_PlayChannel win_sound]
             ++ (if (lowest_time_to_win g =? #(-1))%f32
                    || (#(u32 (u32 (ticks_seq env (tick_calls g)) - game_start_time g))
                        / #1000 <? lowest_time_to_win g)%f32
                 then [to_profile_file (selected_player_index g)
                         (fun file => write_lowest_time file
                            (#(u32 (u32 (ticks_seq env (tick_calls g)) - game_start_time g))
                             / #1000)%f32)]
                 else [])
             ++ [to_profile_file (selected_player_index g)
                   (fun file => write_total_wins file (int32 (total_wins g + 1)))]
        /\ confetti X = confetti g);
      [|revert KX; generalize X]
  end.
  { game_simpl.
    destruct ((lowest_time_to_win g =? #(-1))%f32 || _); game_simpl;
      rewrite <- ?app_assoc; repeat split. }
  intros s (K1 & K2 & K3 & K4 & K5) a b -> -> s' K L.
  unfold but_confetti, win_record in K. open_tuples.
  assert (S : session s' = session s) by assumption.
  refine (conj _ (conj _ (conj _ (conj _ _)))); [congruence..|].
  intros Hlen. apply L. unfold confetti_pool in *. now rewrite K5.
Qed.

(** A Balance-Hold step that ends in Winning has not restarted the target,
    so the start time and the clock cursor are those of the frame. *)
Lemma balance_hold_step_wins (delta_time : f32) (g : Game) :
  state g <> WINNING ->
  state (balance_hold_step env delta_time g) = WINNING ->
  win_inputs (balance_hold_step env delta_time g) = win_inputs g.
Proof.
  intros Hst. unfold balance_hold_step, emit. cbv zeta.
  repeat match goal with
         | |- context [(if ?c then ?a else _)] =>
             lazymatch type of a with Game => destruct c end
         end;
    intros Hw; try reflexivity; try (exfalso; apply Hst; exact Hw).
  all: exfalso; revert Hw;
    match goal with
    | |- context [init_balance_hold_game env ?X] =>
        pose proof (init_balance_hold_game_keeps env X) as K;
        assert (KX : state X = state g) by reflexivity;
        revert K KX; generalize (init_balance_hold_game env X); generalize X
    end;
    intros s s' K KX Hw; unfold_tuples; open_tuples;
    apply Hst; rewrite <- KX;
    match goal with H : state s' = state s |- _ => rewrite <- H end;
    exact Hw.
Qed.

Lemma Some_pair_eq {A B : Type} (a a' : A) (b b' : B) :
  Some (a, b) = Some (a', b') -> a = a' /\ b = b'.
Proof. intros [= -> ->]. now split. Qed.

Lemma case_GAME_general_wins (fuel : nat) (delta_time : f32) (g g' : Game) :
  state g = GAME_BALANCE_HOLD \/ state g = GAME_COIN_COLLECTOR ->
  case_GAME_general env fuel delta_time g = Some (false, g') ->
  state g' = WINNING ->
  exists s, g' = win_handling env s /\ win_inputs s = win_inputs g.
Proof.
  intros Hst. cbv delta [case_GAME_general] beta zeta.
  match goal with
  | |- context [update_player_position ?a ?b ?c g] =>
      pose proof (update_player_position_keeps a b c g) as K0;
      revert K0; generalize (update_player_position a b c g)
  end.
  intros g0 K0.
  assert (K1 : state g0 = state g /\ win_inputs g0 = win_inputs g).
  { unfold_tuples. unfold win_inputs, win_record. open_tuples.
    split; [assumption|]. congruence. }
  clear K0. destruct K1 as [K1 K2].
  destruct (decide (state g0 = GAME_BALANCE_HOLD)) as [Hb|Hb].
  - cbv beta iota.
    pose proof (balance_hold_step_wins delta_time g0) as W.
    revert W. generalize (balance_hold_step env delta_time g0).
    intros g1 W. destruct (decide (state g1 = WINNING)) as [Hw|Hw].
    + intros E _. apply Some_pair_eq in E. destruct E as [_ <-].
      exists g1. split; [reflexivity|].
      rewrite W; [assumption|congruence|assumption].
    + intros E Hw'. apply Some_pair_eq in E. destruct E as [_ <-].
      contradiction.
  - match goal with
    | |- match (if ?c then _ else _) with _ => _ end = _ -> _ => destruct c
    end; [cbv beta iota; discriminate|].
    match goal with
    | |- context [for_loop_opt ?n ?i ?f ?X] =>
        destruct (for_loop_opt n i f X) as [g2|] eqn:E; [|discriminate];
        apply coin_slots_loop_keeps in E;
        assert (HX : win_inputs X = win_inputs g0)
          by (destruct (decide _); reflexivity);
        revert E HX; generalize X
    end.
    intros g1 E HX. cbv beta iota.
    assert (K3 : win_inputs g2 = win_inputs g).
    { rewrite <- K2, <- HX. clear - E.
      unfold_tuples. unfold win_inputs, win_record. open_tuples. congruence. }
    clear E HX. revert K3. generalize g2. clear g2. intros g2 K3.
    destruct (decide (state g2 = WINNING)) as [Hw|Hw].
    + intros E _. apply Some_pair_eq in E. destruct E as [_ <-].
      exists g2. split; [reflexivity|assumption].
    + intros E Hw'. apply Some_pair_eq in E. destruct E as [_ <-].
      contradiction.
Qed.

(** The Dodge frame never runs the win block. *)
Lemma case_GAME_DODGE_no_win (delta_time : f32) (g : Game) :
  let g' := case_GAME_DODGE env delta_time g in
  session g' = session g /\ win_record g' = win_record g
  /\ confetti g' = confetti g.
Proof.
  cbv zeta.
  assert (K : (fun s : Game => (session s, win_record s, confetti s))
                (case_GAME_DODGE env delta_time g)
              = (session g, win_record g, confetti g));
    [|revert K; generalize (case_GAME_DODGE env delta_time g);
      intros s K; cbv beta in K; open_tuples;
      unfold win_record; repeat split; congruence].
  unfold case_GAME_DODGE. cbv zeta beta.
  by_components;
  repeat first
    [ match goal with |- ?a = ?a => reflexivity end
    | match goal with
      | |- _ (_ (if ?b then _ else _)) = _ => destruct b
      | |- _ (if ?b then _ else _) = _ => destruct b
      end
    | peel
    | peel_with (spawn_dodge_block_spawned env)
    | peel_with (dodge_blocks_loop_pass env delta_time)
    | peel_with (update_player_position_keeps
                   (F64.to_f32 (F64.of_f32 (#WINDOW_WIDTH / #2)%f32
                      + F64.of_f32 (x_cob g) * COB_SCALE_DODGE * F64.of_Z WINDOW_WIDTH)%f64)
                   (F64.to_f32 (F64.of_f32 (#WINDOW_HEIGHT / #2)%f32
                      + F64.of_f32 (y_cob g) * F64.opp COB_SCALE_DODGE * F64.of_Z WINDOW_HEIGHT)%f64)
                   delta_time) ].
Qed.

(** C2 (amended): the win block runs at the end of a Balance-Hold or
    Coin-Collector frame that has reached Winning.  With a player profile
    selected, the win counter below [INT_MAX] and the confetti pool of
    [NUM_CONFETTI] particles, it stores the clock reading as the start of the
    win message, takes the time since [game_start_time] in seconds, makes it
    the best time (and writes it to the profile's file) when there was none
    or it is shorter, adds one to the total wins and writes them, and
    launches the whole confetti pool at the avatar.  A Dodge frame, which
    enters Winning on a collision, runs none of this: it leaves the session
    variables, the win records and the confetti as they were. *)
Theorem win_block_after_hold_and_coins :
  (forall (fuel : nat) (delta_time : f32) (g g' : Game),
     state g = GAME_BALANCE_HOLD \/ state g = GAME_COIN_COLLECTOR ->
     ready_to_win g ->
     case_GAME_general env fuel delta_time g = Some (false, g') ->
     state g' = WINNING ->
     let now := u32 (ticks_seq env (tick_calls g)) in
     let win_time := (#(u32 (now - game_start_time g)) / #1000)%f32 in
     let improved := (lowest_time_to_win g =? #(-1))%f32
                     || (win_time <? lowest_time_to_win g)%f32 in
     win_message_start_time g' = now
     /\ lowest_time_to_win g'
        = (if improved then win_time else lowest_time_to_win g)
     /\ total_wins g' = total_wins g + 1
     /\ (exists before,
           trace g'
           = before ++ [Mix_HaltChannel; Mix_PlayChannel win_sound]
             ++ (if improved
                 then [write_lowest_time (selected_player_index g) win_time]
                 else [])
             ++ [write_total_wins (selected_player_index g) (total_wins g + 1)])
     /\ confetti_launched (x (player g')) (y (player g')) g')
  /\ (forall (delta_time : f32) (g : Game),
        let g' := case_GAME_DODGE env delta_time g in
        session g' = session g /\ win_record g' = win_record g
        /\ confetti g' = confetti g).
Proof.
  split; [|apply case_GAME_DODGE_no_win].
  intros fuel delta_time g g' Hst (Hp & Hw & Hc) H Hwin. cbv zeta.
  destruct (case_GAME_general_wins fuel delta_time g g' Hst H Hwin) as (s & -> & K).
  destruct (win_handling_spec s) as (A & B & C & D & E).
  pose proof (win_handling_keeps env s) as P.
  revert A B C D E P. generalize (win_handling env s). cbv zeta.
  intros g' A B C D E P.
  assert (Hpl : player g' = player s)
    by (unfold but_win in P; open_tuples; congruence).
  unfold win_inputs, win_record in K. open_tuples.
  unfold confetti_pool in E.
  repeat match goal with
         | H : _ s = _ g |- _ => rewrite H in *; clear H
         | H : _ (_ s) = _ (_ g) |- _ => rewrite H in *; clear H
         end.
  rewrite int32_in_range in C, D by lia.
  rewrite !to_profile_file_valid in D by exact Hp.
  rewrite Hpl.
  refine (conj A (conj B (conj C (conj _ (E Hc))))).
  exists (trace s). exact D.
Qed.

End Winning.

Section CoinTimeout.

Variable env : Env.

(** ** The countdown of Coin-Collector *)

Lemma read_without_board (g : Game) :
  iface g = false ->
  fst (read_wii_balance_board_data env g) = -1.
Proof. intros H. unfold read_wii_balance_board_data. now rewrite H. Qed.

(** C3: when the per-coin countdown of a Hard Coin-Collector round runs out,
    the frame calls [reset_game_state], sets the state to [MAIN_MENU] and
    leaves through [continue].  The coin counter is cleared, but so is the
    player: [selected_player_index] is -1 afterwards, and the board handle
    is dropped.  The frame that follows therefore finds no board and goes
    to [CONNECTING]: the game does not stay in the main menu. *)
Theorem coin_timeout_drops_player_and_board :
  (forall (fuel : nat) (delta_time : f32) (g : Game),
     state g = GAME_COIN_COLLECTOR ->
     current_difficulty g = HARD ->
     (coin_timer g - delta_time <=? #0)%f32 = true ->
     exists g1,
       case_GAME_general env fuel delta_time g = Some (true, g1)
       /\ state g1 = MAIN_MENU
       /\ coins g1 = 0
       /\ selected_player_index g1 = -1
       /\ iface g1 = false /\ fd g1 = -1)
  /\ (forall (fuel : nat) (g1 : Game),
        state g1 = MAIN_MENU ->
        iface g1 = false ->
        exists g2, frame env fuel g1 = Some g2
                   /\ state g2 = CONNECTING
                   /\ selected_player_index g2 = -1).
Proof.
  split.
  - intros fuel delta_time g Hst Hd Ht.
    cbv delta [case_GAME_general] beta zeta.
    match goal with
    | |- context [update_player_position ?a ?b ?c g] =>
        pose proof (update_player_position_keeps a b c g) as K0;
        revert K0; generalize (update_player_position a b c g)
    end.
    intros g0 K0.
    assert (K : state g0 = state g /\ current_difficulty g0 = current_difficulty g
                /\ coin_timer g0 = coin_timer g).
    { unfold_tuples. open_tuples. repeat split; congruence. }
    clear K0. destruct K as (K1 & K2 & K3).
    destruct (decide (state g0 = GAME_BALANCE_HOLD)) as [E|_]; [congruence|].
    destruct (decide (current_difficulty g0 = HARD)) as [_|E]; [|congruence].
    game_simpl. rewrite K3, Ht.
    rewrite bool_decide_eq_true_2 by congruence. cbn [andb]. cbv beta iota.
    eexists. split; [reflexivity|].
    destruct (reset_game_state_cleared (set_coin_timer (coin_timer g - delta_time)%f32 g0))
      as (A1 & A2 & _ & _ & _ & _ & A3 & _ & _ & _ & A4 & _).
    revert A1 A2 A3 A4.
    generalize (reset_game_state (set_coin_timer (coin_timer g - delta_time)%f32 g0)).
    intros s A1 A2 A3 A4. auto.
  - intros fuel g1 Hst Hif.
    assert (Hne : state g1 <> CONNECTING) by congruence.
    pose proof (frame_disconnected env fuel g1 Hne) as F.
    assert (Hb : iface (snd (begin_frame env g1)) = false)
      by (unfold begin_frame, SDL_GetTicks; exact Hif).
    revert F Hb. generalize (snd (begin_frame env g1)). intros s F Hb.
    rewrite F by (rewrite (read_without_board s Hb); discriminate).
    eexists. split; [reflexivity|].
    destruct (back_to_connecting_cleared env
                (snd (read_wii_balance_board_data env s)))
      as (B1 & _ & _ & _ & _ & _ & _ & B2 & _).
    auto.
Qed.

End CoinTimeout.

(** * Further properties of the procedures *)

(** ** The avatar and its trail *)

Section Avatar.





Lemma init_player_at_centre (g : Game) : player (init_player g) = centre.
Proof.
  unfold init_player. cbv zeta. peel.
  rewrite (for_loop_keeps (fun s : Game => player s)) by reflexivity.
  reflexivity.
Qed.


End Avatar.

(** ** Connecting to the board *)

Section Connecting.

Variable env : Env.

(** X3: [init_xwiimote_non_blocking] returns 0 exactly when every step of
    the attempt goes well, and -1 otherwise.  On success the handle is set
    and the descriptor is the non-negative one it was given; on a failure
    after the board was found the handle is dropped ([iface = NULL]), and
    when no board is found the handle is left as it was.  Nothing but the
    handle and the descriptor is written.  The connecting screen makes one
    such attempt per frame: a successful one takes the game to the
    transition screen and stamps its start with the clock; a failed one
    leaves the state and the clock cursor alone. *)
Theorem connecting_attempt_outcome (g : Game) :
  let a := connect_seq env (connect_calls g) in
  let r := fst (init_xwiimote_non_blocking env g) in
  let g1 := snd (init_xwiimote_non_blocking env g) in
  let g' := case_CONNECTING env g in
  (r = (if attempt_succeeds a then 0 else -1)
   /\ (attempt_succeeds a = true ->
         iface g1 = true /\ fd g1 = got_fd a /\ 0 <= fd g1)
   /\ (attempt_succeeds a = false ->
         iface g1 = (if board_found a then false else iface g))
   /\ connect_calls g1 = S (connect_calls g)
   /\ but_device g1 = but_device g)
  /\ (attempt_succeeds a = true ->
        state g' = TRANSITIONING
        /\ transition_start_time g' = u32 (ticks_seq env (tick_calls g))
        /\ tick_calls g' = S (tick_calls g)
        /\ iface g' = true /\ fd g' = got_fd a)
  /\ (attempt_succeeds a = false ->
        state g' = state g /\ tick_calls g' = tick_calls g
        /\ trans g' = trans g /\ board g' = board g1)
  /\ connect_calls g' = S (connect_calls g)
  /\ player g' = player g /\ menu g' = menu g /\ session g' = session g
  /\ trace g' = trace g.
Proof.
  cbv zeta.
  assert (H :
    fst (init_xwiimote_non_blocking env g)
    = (if attempt_succeeds (connect_seq env (connect_calls g)) then 0 else -1)
    /\ (attempt_succeeds (connect_seq env (connect_calls g)) = true ->
          iface (snd (init_xwiimote_non_blocking env g)) = true
          /\ fd (snd (init_xwiimote_non_blocking env g))
             = got_fd (connect_seq env (connect_calls g))
          /\ 0 <= fd (snd (init_xwiimote_non_blocking env g)))
    /\ (attempt_succeeds (connect_seq env (connect_calls g)) = false ->
          iface (snd (init_xwiimote_non_blocking env g))
          = (if board_found (connect_seq env (connect_calls g))
             then false else iface g))
    /\ connect_calls (snd (init_xwiimote_non_blocking env g))
       = S (connect_calls g)
    /\ but_device (snd (init_xwiimote_non_blocking env g)) = but_device g).
  { unfold init_xwiimote_non_blocking, attempt_succeeds. cbv zeta.
    game_simpl.
    destruct (connect_seq env (connect_calls g)) as [bf ic gf fo oo wo].
    cbn [board_found iface_created got_fd fcntl_ok open_ok watch_ok].
    destruct bf; cbn [negb andb fst snd]; [|repeat split; discriminate].
    destruct ic; cbn [negb andb fst snd]; [|repeat split; discriminate].
    rewrite Z.ltb_antisym.
    destruct (0 <=? gf) eqn:Hfd; cbn [negb andb fst snd];
      [|repeat split; discriminate].
    apply Z.leb_le in Hfd.
    destruct fo; cbn [negb andb fst snd]; [|repeat split; discriminate].
    destruct oo; cbn [negb andb fst snd]; [|repeat split; discriminate].
    destruct wo; cbn [negb andb fst snd]; [|repeat split; discriminate].
    repeat split; try discriminate; assumption. }
  split; [exact H|].
  unfold case_CONNECTING. destruct H as (A & B & C & D & E).
  revert A B C D E.
  destruct (init_xwiimote_non_blocking env g) as [r g1]. cbv zeta.
  cbn [fst snd]. intros A B C D E.
  unfold but_device in E. open_tuples.
  destruct (attempt_succeeds (connect_seq env (connect_calls g))).
  - subst r. cbn [Z.eqb]. unfold SDL_GetTicks. cbv beta iota zeta. game_simpl.
    destruct (B eq_refl) as (B1 & B2 & _).
    repeat split; try discriminate; try congruence.
  - subst r. cbn [Z.eqb].
    repeat split; try discriminate; try congruence.
Qed.

(** X4: the transition screen lasts [TRANSITION_DURATION]: once the time
    since its start has reached it the game moves to the player screen (and
    nothing else changes but the clock cursor); before that the state stays,
    the shake intensity follows the triangle of the elapsed share, and the
    two render offsets draw one random number each. *)
Theorem case_TRANSITIONING_outcome (g : Game) :
  let now := u32 (ticks_seq env (tick_calls g)) in
  let elapsed := (#(u32 (now - transition_start_time g)) / #1000)%f32 in
  let share := F64.to_f32 (F64.of_f32 elapsed / TRANSITION_DURATION)%f64 in
  let g' := case_TRANSITIONING env g in
  tick_calls g' = S (tick_calls g)
  /\ (if (F64.of_f32 elapsed >=? TRANSITION_DURATION)%f64
      then state g' = PLAYER_SELECTION
           /\ shake_intensity g' = shake_intensity g
           /\ rand_calls g' = rand_calls g
      else state g' = state g
           /\ shake_intensity g'
              = (if (share <? #1 / #2)%f32 then share * #2 * #20
                 else (#1 - share) * #2 * #20)%f32
           /\ rand_calls g' = S (S (rand_calls g)))
  /\ board g' = board g /\ shared g' = shared g /\ dodge g' = dodge g
  /\ menu g' = menu g /\ session g' = session g /\ player g' = player g
  /\ trace g' = trace g.
Proof.
  cbv zeta. unfold case_TRANSITIONING, SDL_GetTicks, rand.
  cbv beta iota zeta. game_simpl.
  destruct (_ >=? _)%f64; game_simpl; repeat split.
Qed.

End Connecting.

(** ** Falling back to the connecting screen, and leaving the win screen *)

Section FallingBack.

Variable env : Env.

Lemma back_to_connecting_spec (g : Game) :
  let g' := back_to_connecting env g in
  state g' = CONNECTING /\ session_cleared g'
  /\ connection_start_time g' = u32 (ticks_seq env (tick_calls g))
  /\ player g' = player g /\ shared g' = shared g /\ dodge g' = dodge g.
Proof.
  cbv zeta.
  destruct (back_to_connecting_cleared env g) as [A B].
  destruct (back_to_connecting_keeps env g) as (C & D & E).
  refine (conj A (conj B (conj _ (conj E (conj C D))))).
  assert (K : tick_calls (reset_game_state g) = tick_calls g)
    by (unfold reset_game_state; now destruct (iface g)).
  unfold back_to_connecting, SDL_GetTicks. cbv beta iota zeta.
  rewrite <- K. generalize (reset_game_state g). reflexivity.
Qed.

(** X5: the inactivity check.  While somebody is on the board, and on the
    connecting and transition screens, it only records the time of the
    frame as the last input.  With nobody on the board it leaves the state
    alone until the last input is more than fifteen seconds old, and then
    falls back to the connecting screen with the session reset. *)
Theorem inactivity_check_outcome (current_time : Z) (g : Game) :
  let g' := inactivity_check env current_time g in
  (nobody_on_board g = false ->
     last_input_time g' = current_time /\ but_input_time g' = but_input_time g)
  /\ (nobody_on_board g = true -> input_expired current_time g = false ->
        g' = g)
  /\ (nobody_on_board g = true -> input_expired current_time g = true ->
        state g' = CONNECTING /\ session_cleared g'
        /\ connection_start_time g' = u32 (ticks_seq env (tick_calls g))
        /\ last_input_time g' = last_input_time g).
Proof.
  cbv zeta. unfold inactivity_check.
  fold (nobody_on_board g). fold (input_expired current_time g).
  destruct (nobody_on_board g).
  - destruct (input_expired current_time g).
    + refine (conj _ (conj _ _)); try discriminate. intros _ _.
      destruct (back_to_connecting_spec g) as (A & B & C & _).
      refine (conj A (conj B (conj C _))).
      unfold back_to_connecting, SDL_GetTicks, reset_game_state.
      now destruct (iface g).
    + refine (conj _ (conj _ _)); try discriminate. reflexivity.
  - refine (conj _ (conj _ _)); try discriminate. intros _. now split.
Qed.

(** X6: a frame that starts outside the connecting screen without a usable
    board handle ends on the connecting screen with the session reset and
    the centre of balance at (0, 0); the avatar is not touched. *)
Theorem frame_without_board (fuel : nat) (g : Game) :
  state g <> CONNECTING ->
  iface g = false \/ fd g < 0 ->
  exists g', frame env fuel g = Some g'
             /\ state g' = CONNECTING /\ session_cleared g'
             /\ x_cob g' = #0%f32 /\ y_cob g' = #0%f32
             /\ player g' = player g.
Proof.
  intros Hst Hno.
  pose proof (frame_disconnected env fuel g Hst) as F.
  assert (Hb : (iface (snd (begin_frame env g)) = false
                \/ fd (snd (begin_frame env g)) < 0)
               /\ player (snd (begin_frame env g)) = player g)
    by (unfold begin_frame, SDL_GetTicks; split; [exact Hno|reflexivity]).
  revert F Hb. generalize (snd (begin_frame env g)). intros s F [Hb Hp].
  assert (R : read_wii_balance_board_data env s
              = (-1, set_y_cob #0%f32 (set_x_cob #0%f32 s))).
  { unfold read_wii_balance_board_data.
    destruct Hb as [-> | Hb]; [reflexivity|].
    apply Z.ltb_lt in Hb. rewrite Hb. now rewrite orb_true_r. }
  rewrite R in F. cbn [fst snd] in F. rewrite F by discriminate.
  eexists. split; [reflexivity|].
  destruct (back_to_connecting_spec (set_y_cob #0%f32 (set_x_cob #0%f32 s)))
    as (A & B & _ & C & _).
  refine (conj A (conj B (conj _ (conj _ _)))).
  - unfold back_to_connecting, SDL_GetTicks, reset_game_state.
    cbv beta iota zeta. game_simpl. now destruct (iface s).
  - unfold back_to_connecting, SDL_GetTicks, reset_game_state.
    cbv beta iota zeta. game_simpl. now destruct (iface s).
  - rewrite C. exact Hp.
Qed.

Lemma winning_cleanup_spec (g : Game) :
  let g' := winning_cleanup g in
  state g' = PLAYER_SELECTION /\ session_cleared g' /\ player g' = centre
  /\ win_record g' = win_record g.
Proof.
  cbv zeta. unfold winning_cleanup. cbv zeta.
  match goal with
  | |- context [reset_game_state ?X] =>
      assert (KX : shared X = shared g);
      [|revert KX; generalize X; intros s KX]
  end.
  { destruct (dodge_score g >? 0); [|reflexivity].
    peel.
    rewrite (for_loop_keeps (fun s : Game => shared s)) by reflexivity.
    reflexivity. }
  pose proof (reset_game_state_cleared s) as A.
  pose proof (reset_game_state_but_reset s) as B.
  revert A B. generalize (reset_game_state s). intros s1 A B.
  pose proof (init_player_keeps (set_state PLAYER_SELECTION s1)) as C.
  pose proof (init_player_at_centre (set_state PLAYER_SELECTION s1)) as D.
  revert C D. generalize (init_player (set_state PLAYER_SELECTION s1)).
  intros s2 C D.
  unfold but_avatar, sample in C. unfold but_reset in B. open_tuples.
  game_simpl.
  refine (conj _ (conj _ (conj D _))).
  - assumption.
  - unfold session_cleared in *.
    repeat match goal with
           | H : board s2 = _ |- _ => rewrite H; clear H
           | H : menu s2 = _ |- _ => rewrite H; clear H
           | H : session s2 = _ |- _ => rewrite H; clear H
           end.
    exact A.
  - unfold win_record in *. game_simpl. congruence.
Qed.

(** X7: the win screen.  Until the animation time is over a frame only
    advances the confetti (and reads the clock once).  After that it goes to
    the player screen with the avatar back in the middle and the session
    reset -- including the board handle, so that the frame after it finds
    no board; the win records stay, and the Dodge variables are kept when
    the Dodge score is zero. *)
Theorem case_WINNING_outcome (delta_time : f32) (g : Game) :
  let now := u32 (ticks_seq env (tick_calls g)) in
  let g' := case_WINNING env delta_time g in
  (animation_over now g = false ->
     confetti g' = confetti (update_confetti delta_time g)
     /\ tick_calls g' = S (tick_calls g)
     /\ state g' = state g /\ board g' = board g /\ menu g' = menu g
     /\ session g' = session g /\ dodge g' = dodge g
     /\ player g' = player g /\ win_record g' = win_record g
     /\ trace g' = trace g)
  /\ (animation_over now g = true ->
        state g' = PLAYER_SELECTION /\ session_cleared g'
        /\ player g' = centre /\ win_record g' = win_record g
        /\ (dodge_score g = 0 -> dodge g' = dodge g)).
Proof.
  cbv zeta. unfold case_WINNING. cbv zeta.
  destruct (update_confetti_keeps delta_time g) as [K _]. revert K.
  generalize (update_confetti delta_time g). intros g1 K.
  unfold SDL_GetTicks. cbv beta iota zeta. game_simpl.
  unfold but_confetti in K. open_tuples.
  assert (Ks : session g1 = session g) by assumption.
  assert (Kt : tick_calls g1 = tick_calls g) by assumption.
  unfold animation_over. rewrite Ks, Kt.
  match goal with
  | |- context [if ?c then _ else _] => destruct c
  end.
  - split; [discriminate|]. intros _.
    destruct (winning_cleanup_spec (set_tick_calls (S (tick_calls g)) g1))
      as (A & B & C & D).
    pose proof (winning_cleanup_zero (set_tick_calls (S (tick_calls g)) g1)) as E.
    revert A B C D E.
    generalize (winning_cleanup (set_tick_calls (S (tick_calls g)) g1)).
    game_simpl. intros s A B C D E.
    refine (conj A (conj B (conj C (conj _ _)))).
    + rewrite D. unfold win_record in *. game_simpl. congruence.
    + intros Hzero.
      assert (Kd : dodge g1 = dodge g) by assumption.
      rewrite <- Kd. apply E. rewrite Kd. rewrite Hzero. reflexivity.
  - split; [|discriminate]. intros _. game_simpl.
    assert (Kl : locals g1 = locals g) by assumption.
    rewrite Kl. unfold win_record in *.
    repeat split;
      first [reflexivity | assumption | congruence
            | game_simpl; congruence].
Qed.

End FallingBack.

(** ** Spawning blocks *)

Section BlockSpawn.

Variable env : Env.

(** The search for a free slot, from slot [i0] on. *)
Lemma spawn_loop_full (n : nat) : forall (i0 : nat) (g : Game),
  (forall j b, (i0 <= j < i0 + n)%nat -> dodge_blocks g !! j = Some b ->
     active b = true) ->
  for_loop_break n i0 (fun i (g : Game) =>
    match dodge_blocks g !! i with
    | Some b =>
        if negb (active b) then
          let '(r, g) := rand env g in
          (set_dodge_blocks
             (<[i := {| bx := #(WINDOW_WIDTH + BLOCK_WIDTH)%Z%f32;
                        by_ := #(r `rem` (WINDOW_HEIGHT - BLOCK_HEIGHT))%f32;
                        speed := current_block_speed g;
                        active := true |}]> (dodge_blocks g)) g, true)
        else (g, false)
    | None => (g, false)
    end) g = g.
Proof.
  induction n as [|n IH]; intros i0 g H; [reflexivity|].
  cbn [for_loop_break].
  destruct (dodge_blocks g !! i0) as [b|] eqn:E.
  - rewrite (H i0 b) by (auto; lia). cbn [negb]. apply IH.
    intros j b' Hj. apply H. lia.
  - apply IH. intros j b' Hj. apply H. lia.
Qed.

Lemma spawn_loop_first_free (n : nat) : forall (i0 i : nat) (g : Game) (b : DodgeBlock),
  (i0 <= i < i0 + n)%nat ->
  dodge_blocks g !! i = Some b -> active b = false ->
  (forall j b', (i0 <= j < i)%nat -> dodge_blocks g !! j = Some b' ->
     active b' = true) ->
  for_loop_break n i0 (fun i (g : Game) =>
    match dodge_blocks g !! i with
    | Some b =>
        if negb (active b) then
          let '(r, g) := rand env g in
          (set_dodge_blocks
             (<[i := {| bx := #(WINDOW_WIDTH + BLOCK_WIDTH)%Z%f32;
                        by_ := #(r `rem` (WINDOW_HEIGHT - BLOCK_HEIGHT))%f32;
                        speed := current_block_speed g;
                        active := true |}]> (dodge_blocks g)) g, true)
        else (g, false)
    | None => (g, false)
    end) g
  = set_dodge_blocks
      (<[i := new_block (Z.of_N (rand_seq env (rand_calls g)))
                (current_block_speed g)]> (dodge_blocks g))
      (set_rand_calls (S (rand_calls g)) g).
Proof.
  induction n as [|n IH]; intros i0 i g b Hi Hb Ha Hbefore; [lia|].
  cbn [for_loop_break].
  destruct (decide (i = i0)) as [->|Hne].
  - rewrite Hb, Ha. cbn [negb]. unfold rand. reflexivity.
  - destruct (dodge_blocks g !! i0) as [b0|] eqn:E.
    + rewrite (Hbefore i0 b0) by (auto; lia). cbn [negb].
      apply (IH (S i0) i g b); [lia|assumption|assumption|].
      intros j b' Hj. apply Hbefore. lia.
    + apply (IH (S i0) i g b); [lia|assumption|assumption|].
      intros j b' Hj. apply Hbefore. lia.
Qed.

Lemma active_blocks_insert (pool : list DodgeBlock) : forall (i : nat) (b b' : DodgeBlock),
  pool !! i = Some b -> active b = false -> active b' = true ->
  active_blocks (<[i := b']> pool) = S (active_blocks pool).
Proof.
  induction pool as [|c pool IH]; intros i b b' Hb Ha Ha'; [discriminate|].
  destruct i as [|i].
  - injection Hb as ->.
    change (<[0%nat := b']> (b :: pool)) with (b' :: pool).
    cbn [active_blocks]. now rewrite Ha, Ha'.
  - change (<[S i := b']> (c :: pool)) with (c :: <[i := b']> pool).
    change ((c :: pool) !! S i) with (pool !! i) in Hb.
    cbn [active_blocks]. rewrite (IH i b b' Hb Ha Ha'). lia.
Qed.

(** The height of a new block keeps it inside the window. *)
Lemma new_block_height (r : Z) (block_speed : f32) :
  0 <= r ->
  (#0 <=? by_ (new_block r block_speed))%f32
  && (by_ (new_block r block_speed) <=? #(WINDOW_HEIGHT - BLOCK_HEIGHT))%f32
  = true.
Proof.
  intros Hr. unfold new_block. cbn [by_].
  assert (Hm : 0 <= r `rem` (WINDOW_HEIGHT - BLOCK_HEIGHT) < 980)
    by (apply Z.rem_bound_pos; [assumption|reflexivity]).
  revert Hm. generalize (r `rem` (WINDOW_HEIGHT - BLOCK_HEIGHT)). intros m Hm.
  assert (Hall : forallb (fun k : nat =>
                   (#0 <=? # (Z.of_nat k))%f32
                   && (# (Z.of_nat k) <=? #(WINDOW_HEIGHT - BLOCK_HEIGHT))%f32)
                   (seq 0 980) = true) by (vm_compute; reflexivity).
  rewrite forallb_forall in Hall.
  specialize (Hall (Z.to_nat m)). rewrite Z2Nat.id in Hall by lia.
  apply Hall. apply in_seq. lia.
Qed.

(** X8: [spawn_dodge_block] fills the first free slot of the pool with a
    block just beyond the right edge, at a height that keeps it inside the
    window, moving at the current block speed; it draws one random number
    for that, and there is one active block more.  When no slot is free it
    does nothing at all, not even draw a random number. *)
Theorem spawn_dodge_block_first_free (g : Game) :
  (forall i, first_free (dodge_blocks g) i ->
     let r := Z.of_N (rand_seq env (rand_calls g)) in
     let g' := spawn_dodge_block env g in
     dodge_blocks g' = <[i := new_block r (current_block_speed g)]> (dodge_blocks g)
     /\ rand_calls g' = S (rand_calls g)
     /\ active_blocks (dodge_blocks g') = S (active_blocks (dodge_blocks g))
     /\ (#0 <=? by_ (new_block r (current_block_speed g)))%f32
        && (by_ (new_block r (current_block_speed g))
            <=? #(WINDOW_HEIGHT - BLOCK_HEIGHT))%f32 = true)
  /\ (pool_full (dodge_blocks g) -> spawn_dodge_block env g = g).
Proof.
  split.
  - intros i (Hi & (b & Hb & Ha) & Hbefore). cbv zeta.
    unfold spawn_dodge_block.
    rewrite (spawn_loop_first_free (Z.to_nat MAX_DODGE_BLOCKS) 0 i g b);
      [|lia|assumption|assumption|intros j b' Hj; apply Hbefore; lia].
    game_simpl. refine (conj eq_refl (conj eq_refl (conj _ _))).
    + now apply (active_blocks_insert _ i b).
    + apply new_block_height. apply N2Z.is_nonneg.
  - intros Hfull. unfold spawn_dodge_block. apply spawn_loop_full.
    intros j b Hj. apply Hfull. lia.
Qed.

End BlockSpawn.

(** ** Confetti *)

Section Confetti.

Variable env : Env.

Lemma alter_as_insert {A : Type} (f : A -> A) (l : list A) (i : nat) (a : A) :
  l !! i = Some a -> alter f i l = <[i := f a]> l.
Proof.
  intros H. apply list_eq. intros j.
  destruct (decide (i = j)) as [<-|Hne].
  - rewrite list_lookup_alter_eq, H.
    rewrite list_lookup_insert_eq by (now apply lookup_lt_Some in H).
    reflexivity.
  - now rewrite list_lookup_alter_ne, list_lookup_insert_ne.
Qed.

Lemma alter_beyond {A : Type} (f : A -> A) (l : list A) (i : nat) :
  l !! i = None -> alter f i l = l.
Proof.
  intros H. apply list_eq. intros j.
  destruct (decide (i = j)) as [<-|Hne].
  - now rewrite list_lookup_alter_eq, H.
  - now rewrite list_lookup_alter_ne.
Qed.

Lemma for_loop_counts {St : Type} (count : St -> nat) (body : nat -> St -> St)
    (k : nat) :
  (forall i s, count (body i s) = (k + count s)%nat) ->
  forall n i s, count (for_loop n i body s) = (n * k + count s)%nat.
Proof.
  intros H. induction n as [|n IH]; intros i s; [reflexivity|].
  cbn [for_loop]. rewrite IH, H. lia.
Qed.

Lemma burst_speed (r : Z) :
  0 <= r ->
  let v := (#(r `rem` F32.to_int CONFETTI_SPREAD) - CONFETTI_SPREAD / #2)%f32 in
  (#(-150) <=? v)%f32 && (v <? #150)%f32 = true.
Proof.
  intros Hr. cbv zeta.
  change (F32.to_int CONFETTI_SPREAD) with 300.
  assert (Hm : 0 <= r `rem` 300 < 300)
    by (apply Z.rem_bound_pos; [assumption|reflexivity]).
  revert Hm. generalize (r `rem` 300). intros m Hm.
  assert (Hall : forallb (fun k : nat =>
                   (#(-150) <=? # (Z.of_nat k) - CONFETTI_SPREAD / #2)%f32
                   && (# (Z.of_nat k) - CONFETTI_SPREAD / #2 <? #150)%f32)
                   (seq 0 300) = true) by (vm_compute; reflexivity).
  rewrite forallb_forall in Hall.
  specialize (Hall (Z.to_nat m)). rewrite Z2Nat.id in Hall by lia.
  apply Hall. apply in_seq. lia.
Qed.

(** X9: [init_confetti] launches every particle of the pool from the given
    point with the full lifetime, a speed between -150 and 150 on each axis
    and one of three colours; it draws three random numbers per particle. *)
Theorem init_confetti_bursts (x0 y0 : f32) (g : Game) :
  let g' := init_confetti env x0 y0 g in
  length (confetti g') = length (confetti g)
  /\ rand_calls g' = (3 * Z.to_nat NUM_CONFETTI + rand_calls g)%nat
  /\ (forall i c, (i < Z.to_nat NUM_CONFETTI)%nat ->
        confetti g' !! i = Some c -> burst_particle x0 y0 c)
  /\ (forall i, (Z.to_nat NUM_CONFETTI <= i)%nat ->
        confetti g' !! i = confetti g !! i).
Proof.
  cbv zeta. unfold init_confetti.
  match goal with
  | |- context [for_loop ?n 0 ?body g] =>
      assert (Hbody : forall i s, exists c, burst_particle x0 y0 c
                        /\ confetti (body i s) = <[i := c]> (confetti s));
      [|assert (Hcount : forall i s, rand_calls (body i s)
                           = (3 + rand_calls s)%nat)
          by (intros; reflexivity);
        pose proof (for_loop_fills (burst_particle x0 y0) body Hbody n 0 g)
          as (L & A & B);
        pose proof (for_loop_counts (fun s : Game => rand_calls s) body 3
                      Hcount n 0 g) as C;
        revert A B C L; generalize (for_loop n 0 body g)]
  end.
  - intros i s. unfold rand. cbv beta iota zeta. game_simpl.
    eexists. split; [|reflexivity].
    unfold burst_particle. cbn [cx cy cvx cvy lifetime color].
    refine (conj eq_refl (conj eq_refl (conj eq_refl (conj _ (conj _ _))))).
    + apply (burst_speed _ (N2Z.is_nonneg _)).
    + apply (burst_speed _ (N2Z.is_nonneg _)).
    + apply Z.rem_bound_pos; [apply N2Z.is_nonneg|reflexivity].
  - intros s A B C L.
    refine (conj L (conj _ (conj _ _))).
    + rewrite C. lia.
    + intros i c Hi. apply B. lia.
    + intros i Hi. apply A. lia.
Qed.

(** X10: [update_confetti] advances each of the first [NUM_CONFETTI]
    particles by one [particle_step]: live particles move, fall and age, dead
    ones are not touched; nothing else in the pool changes and no random
    number is drawn. *)
Theorem update_confetti_steps (delta_time : f32) (g : Game) :
  let g' := update_confetti delta_time g in
  (forall i, confetti g' !! i
             = if bool_decide (i < Z.to_nat NUM_CONFETTI)%nat
               then particle_step delta_time <$> confetti g !! i
               else confetti g !! i)
  /\ length (confetti g') = length (confetti g)
  /\ rand_calls g' = rand_calls g.
Proof.
  cbv zeta.
  assert (E : confetti (update_confetti delta_time g)
              = for_loop (Z.to_nat NUM_CONFETTI) 0
                  (fun k l => alter (particle_step delta_time) k l) (confetti g)).
  { unfold update_confetti.
    apply (for_loop_field (fun s : Game => confetti s)).
    intros i s. unfold particle_step.
    destruct (confetti s !! i) as [c|] eqn:Hc.
    - rewrite (alter_as_insert _ _ _ c Hc).
      destruct (lifetime c >? #0)%f32; [reflexivity|].
      symmetry. now apply list_insert_id.
    - now rewrite alter_beyond. }
  destruct (update_confetti_keeps delta_time g) as [_ R].
  revert E R. generalize (update_confetti delta_time g). intros g' E R.
  refine (conj _ (conj _ R)).
  - intros i. rewrite E, for_loop_alter.
    destruct (decide (i < Z.to_nat NUM_CONFETTI)%nat).
    + rewrite !bool_decide_eq_true_2 by lia. reflexivity.
    + rewrite !bool_decide_eq_false_2 by lia. reflexivity.
  - rewrite E. apply for_loop_alter_length.
Qed.

End Confetti.

(** ** Balance-Hold *)

Section BalanceHold.

Variable env : Env.

Lemma fresh_target_x (r : Z) :
  0 <= r ->
  let v := (#(r `rem` (WINDOW_WIDTH - GAME_OBJECT_SIZE * 2)) + #GAME_OBJECT_SIZE)%f32 in
  (#GAME_OBJECT_SIZE <=? v)%f32
  && (v <? #(WINDOW_WIDTH - GAME_OBJECT_SIZE))%f32 = true.
Proof.
  intros Hr. cbv zeta.
  assert (Hm : 0 <= r `rem` (WINDOW_WIDTH - GAME_OBJECT_SIZE * 2) < 1620)
    by (apply Z.rem_bound_pos; [assumption|reflexivity]).
  revert Hm. generalize (r `rem` (WINDOW_WIDTH - GAME_OBJECT_SIZE * 2)).
  intros m Hm.
  assert (Hall : forallb (fun k : nat =>
                   (#GAME_OBJECT_SIZE <=? # (Z.of_nat k) + #GAME_OBJECT_SIZE)%f32
                   && (# (Z.of_nat k) + #GAME_OBJECT_SIZE
                       <? #(WINDOW_WIDTH - GAME_OBJECT_SIZE))%f32)
                   (seq 0 1620) = true) by (vm_compute; reflexivity).
  rewrite forallb_forall in Hall.
  specialize (Hall (Z.to_nat m)). rewrite Z2Nat.id in Hall by lia.
  apply Hall. apply in_seq. lia.
Qed.

Lemma fresh_target_y (r : Z) :
  0 <= r ->
  let v := (#(r `rem` (WINDOW_HEIGHT - GAME_OBJECT_SIZE * 2)) + #GAME_OBJECT_SIZE)%f32 in
  (#GAME_OBJECT_SIZE <=? v)%f32
  && (v <? #(WINDOW_HEIGHT - GAME_OBJECT_SIZE))%f32 = true.
Proof.
  intros Hr. cbv zeta.
  assert (Hm : 0 <= r `rem` (WINDOW_HEIGHT - GAME_OBJECT_SIZE * 2) < 780)
    by (apply Z.rem_bound_pos; [assumption|reflexivity]).
  revert Hm. generalize (r `rem` (WINDOW_HEIGHT - GAME_OBJECT_SIZE * 2)).
  intros m Hm.
  assert (Hall : forallb (fun k : nat =>
                   (#GAME_OBJECT_SIZE <=? # (Z.of_nat k) + #GAME_OBJECT_SIZE)%f32
                   && (# (Z.of_nat k) + #GAME_OBJECT_SIZE
                       <? #(WINDOW_HEIGHT - GAME_OBJECT_SIZE))%f32)
                   (seq 0 780) = true) by (vm_compute; reflexivity).
  rewrite forallb_forall in Hall.
  specialize (Hall (Z.to_nat m)). rewrite Z2Nat.id in Hall by lia.
  apply Hall. apply in_seq. lia.
Qed.

(** X11: [init_balance_hold_game] puts the avatar back in the middle and
    the target a whole avatar away from every edge, gives the target the
    speed of the difficulty on each axis (in one or the other direction),
    restarts the clock of the round and the hold timer, and draws four
    random numbers; the coin counter and the target count are not
    touched. *)
Theorem init_balance_hold_game_target (g : Game) :
  let g' := init_balance_hold_game env g in
  let t := balance_hold_target g' in
  let v := target_speed (current_difficulty g) in
  player g' = centre
  /\ target_in_bounds t = true
  /\ (tvelocity_x t = v \/ tvelocity_x t = F32.opp v)
  /\ (tvelocity_y t = v \/ tvelocity_y t = F32.opp v)
  /\ game_start_time g' = u32 (ticks_seq env (tick_calls g))
  /\ hold_timer g' = #0%f32 /\ beeps_played g' = 0
  /\ rand_calls g' = (4 + rand_calls g)%nat
  /\ coins g' = coins g /\ current_game_target g' = current_game_target g.
Proof.
  cbv zeta. unfold init_balance_hold_game.
  pose proof (init_player_keeps g) as K.
  pose proof (init_player_at_centre g) as C.
  revert K C. generalize (init_player g). intros g1 K C.
  unfold but_avatar in K. open_tuples.
  assert (Km : menu g1 = menu g) by assumption.
  assert (Kw : world g1 = world g) by assumption.
  assert (Ks : session g1 = session g) by assumption.
  unfold rand, SDL_GetTicks. cbv beta iota zeta. game_simpl.
  rewrite Km, Kw, Ks.
  refine (conj C (conj _ (conj _ (conj _ _)))); [| | |repeat split].
  - unfold target_in_bounds. cbn [tx ty].
    rewrite (fresh_target_x _ (N2Z.is_nonneg _)).
    rewrite <- andb_assoc.
    rewrite (fresh_target_y _ (N2Z.is_nonneg _)). reflexivity.
  - unfold target_speed. cbn [tvelocity_x].
    destruct (current_difficulty g); destruct (_ =? 0); auto.
  - unfold target_speed. cbn [tvelocity_y].
    destruct (current_difficulty g); destruct (_ =? 0); auto.
Qed.

End BalanceHold.

(** * The properties on concrete runs *)

(** A silent board: the hundredth read in a row reports the disconnection,
    and the main menu falls back to the connecting screen. *)
Lemma poll_timeouts_witness :
  fst (reads fast_clock_silent 100 connected) = replicate 99 0 ++ [-1]
  /\ exists g', frame fast_clock_silent 1 menu_after_99_timeouts = Some g'
                /\ state g' = CONNECTING /\ session_cleared g'.
Proof.
  apply (poll_timeouts_disconnect fast_clock_silent 1 connected
           menu_after_99_timeouts);
    first [ reflexivity | discriminate | vm_compute; congruence
          | intros j _; reflexivity ].
Defined.

(** A touch of 400 units does not pass the gate: the read succeeds and
    reports the centre of balance (0, 0). *)
Lemma weight_gate_witness :
  let r := read_wii_balance_board_data fast_clock_touched connected in
  fst r = 0 /\ x_cob (snd r) = #0%f32 /\ y_cob (snd r) = #0%f32.
Proof.
  cbv zeta.
  destruct (weight_gate_and_dead_zone fast_clock_touched connected [light_touch]
              eq_refl ltac:(vm_compute; congruence) eq_refl)
    as (A & B & _).
  destruct (B ltac:(repeat constructor)) as [B1 B2].
  exact (conj A (conj B1 B2)).
Defined.

(** A Dodge frame under a light touch leaves the avatar and its trail where
    they were. *)
Lemma dodge_frame_witness :
  exists g', frame fast_clock_touched 1 dodge_round = Some g'
             /\ avatar g' = avatar dodge_round.
Proof.
  destruct (dodge_frame_without_input fast_clock_touched 1 dodge_round eq_refl)
    as (g' & F & K).
  exists g'. split; [exact F|]. apply K. left.
  revert F. vm_compute. intros [= <-]. reflexivity.
Defined.

(** The lost round of [lost_round]: six frames later the game is in Dodge
    again, with the interval of one second it had when the round was lost. *)
Lemma spawn_interval_survives_witness :
  exists g', frames slow_clock_centred 1 6 lost_round = Some g'
             /\ state g' = GAME_DODGE
             /\ dynamic_block_spawn_interval g' = #1%f32
             /\ dodge_score g' = 0.
Proof.
  destruct (proj2 (proj2 (proj2 (proj2
              (spawn_interval_survives_lost_round slow_clock_centred))))
              1%nat 6%nat lost_round)
    as (g' & F & K1 & K2); [vm_compute; reflexivity | reflexivity |].
  exists g'. refine (conj F (conj _ (conj K1 K2))).
  revert F. vm_compute. intros [= <-]. reflexivity.
Defined.

(** A frame of three seconds on [two_blocks_leaving] with somebody standing
    in the middle of the board: both blocks leave the window, the score and
    the high score go from 0 to 2, each new high score is written to the
    file of the second profile, and the round goes on. *)
Lemma dodge_score_counts_witness :
  exists g', frame slow_clock_centred 1 two_blocks_leaving = Some g'
             /\ dodge_score g' = 2 /\ dodge_high_score g' = 2
             /\ state g' = GAME_DODGE
             /\ trace g' = [write_dodge_high_score 1 1;
                            write_dodge_high_score 1 2].
Proof.
  pose (bs := before_switch slow_clock_centred two_blocks_leaving).
  destruct (proj2 (proj2 (proj2 (proj2
              (dodge_score_counts_retired_blocks slow_clock_centred))))
              1%nat two_blocks_leaving (fst (fst bs)) (snd (fst bs)) (snd bs)
              eq_refl
              ltac:(vm_compute; split; discriminate)
              ltac:(vm_compute; reflexivity))
    as (g' & F & K & _).
  destruct (K ltac:(vm_compute; reflexivity) ltac:(vm_compute; reflexivity))
    as (A & B & C & _).
  exists g'. refine (conj F (conj _ (conj _ (conj _ _)))).
  - rewrite A. vm_compute. reflexivity.
  - rewrite B. vm_compute. reflexivity.
  - rewrite C. vm_compute. reflexivity.
  - revert F. vm_compute. intros [= <-]. reflexivity.
Defined.


(** Two more tenths of a second on [player_screen] commit the second
    profile. *)
Lemma selection_timer_witness :
  let g' := case_PLAYER_SELECTION slow_clock_centred (#2 / #10)%f32 player_screen in
  state g' = MAIN_MENU /\ selected_player_index g' = 1
  /\ menu_select_timer g' = #0%f32
  /\ trace g' = [Mix_PlayChannel select_sound].
Proof.
  cbv zeta.
  destruct (proj1 (selection_timer_semantics slow_clock_centred)
              (#2 / #10)%f32 player_screen) as (_ & _ & A & _).
  destruct (A ltac:(vm_compute; reflexivity)) as (A1 & A2 & A3 & A4).
  refine (conj A1 (conj _ (conj A3 A4))).
  rewrite A2. vm_compute. reflexivity.
Defined.

(** C2, counterexample.  The collision of [dodge_collision] takes the game
    into Winning with the total wins still at zero. *)
Lemma dodge_collision_counts_no_win :
  ~ win_counted_on_entering slow_clock_centred.
Proof.
  intros H.
  destruct (H 1%nat #3%f32 false dodge_collision
              (case_GAME_DODGE slow_clock_centred #3%f32 dodge_collision)
              (or_intror (or_intror eq_refl))
              ltac:(vm_compute; repeat split; congruence)
              eq_refl
              ltac:(vm_compute; reflexivity)) as [K _].
  vm_compute in K. discriminate.
Qed.

(** The last target of [hold_last_target]: the win is the first of the
    second profile, its time of twelve seconds becomes the best time, and
    both are written to that profile's files. *)
Lemma win_block_witness :
  exists g',
    case_GAME_general slow_clock_centred 1 (#2 / #10)%f32 hold_last_target
    = Some (false, g')
    /\ win_message_start_time g' = 15000
    /\ lowest_time_to_win g' = #12%f32
    /\ total_wins g' = 1
    /\ exists before,
         trace g'
         = before ++ [Mix_HaltChannel; Mix_PlayChannel win_sound;
                      write_lowest_time 1 #12%f32; write_total_wins 1 1].
Proof.
  destruct (case_GAME_general slow_clock_centred 1 (#2 / #10)%f32 hold_last_target)
    as [[b g']|] eqn:H; [|vm_compute in H; discriminate].
  pose proof H as H'. vm_compute in H'. injection H' as Hb Hg. subst b.
  destruct (proj1 (win_block_after_hold_and_coins slow_clock_centred)
              1%nat (#2 / #10)%f32 hold_last_target g'
              (or_introl eq_refl)
              ltac:(vm_compute; repeat split; congruence)
              H
              ltac:(rewrite <- Hg; vm_compute; reflexivity))
    as (A & B & C & (before & D) & _).
  exists g'. refine (conj eq_refl (conj A (conj _ (conj C _)))).
  - rewrite B. vm_compute. reflexivity.
  - exists before. rewrite D. vm_compute. reflexivity.
Defined.

(** The countdown of [coin_countdown] runs out in the next frame: that frame
    ends in the main menu with the player forgotten, the one after it on the
    connecting screen. *)
Lemma coin_timeout_witness :
  selected_player_index coin_countdown = 1
  /\ exists g1 g2,
       frame slow_clock_centred 1 coin_countdown = Some g1
       /\ state g1 = MAIN_MENU /\ selected_player_index g1 = -1
       /\ frame slow_clock_centred 1 g1 = Some g2
       /\ state g2 = CONNECTING.
Proof.
  split; [reflexivity|].
  destruct (frame slow_clock_centred 1 coin_countdown) as [g1|] eqn:H;
    [|vm_compute in H; discriminate].
  assert (K : state g1 = MAIN_MENU /\ selected_player_index g1 = -1
              /\ iface g1 = false).
  { vm_compute in H. injection H as <-. vm_compute. auto. }
  destruct K as (K1 & K2 & K3).
  destruct (proj2 (coin_timeout_drops_player_and_board slow_clock_centred)
              1%nat g1 K1 K3) as (g2 & F & S2 & _).
  exists g1, g2. auto.
Defined.


(** A frame of the main menu without a board ends on the connecting
    screen. *)
Lemma frame_without_board_witness :
  exists g', frame fast_clock_silent 1 menu_without_board = Some g'
             /\ state g' = CONNECTING /\ session_cleared g'.
Proof.
  destruct (frame_without_board fast_clock_silent 1 menu_without_board
              ltac:(vm_compute; discriminate) (or_introl eq_refl))
    as (g' & F & A & B & _).
  exists g'. exact (conj F (conj A B)).
Defined.
